(** * hcp-node-autoscaling: audit and migration of hosted clusters

    A shallow embedding of [tools/hcp-node-autoscaling/main.go] and the
    properties its specification states about it.

    Conventions of the embedding
    - a Go [string] is a [string]; a Go [error] is an [option string]
      holding the text of [err.Error()], [None] being [nil]; a function
      returning [(T, error)] answers in [string + T];
    - a Go [map[string]string] that may be [nil] is an
      [option (gmap string string)]; reading a [nil] map yields the zero
      value, exactly as reading an empty one;
    - a slice is a [list] ([nil] and the empty slice both have length 0 and
      are not told apart by any code modelled here); [len] is a [nat];
    - [time.Time] and [time.Duration] are integers counting nanoseconds;
    - [encoding/json] and the formatting of a time are parameters ([GoLib]);
    - the clusters the migration talks to, the ticker, the context and the
      clock are a scripted [World] that the code runs against;
    - the progress lines written with [fmt.Printf], and the counter
      [attempt] that only they read, are not modelled.

    The file has four parts: the model, a reference instance of the library
    functions with concrete inputs, the vocabulary of the statements, and
    the properties. *)

From Stdlib Require Import ZArith String List Ascii Strings.Byte Lia.
From stdpp Require Import gmap strings list fin_maps pretty sorting.

Set Warnings "-register-all".
Open Scope string_scope.
Open Scope list_scope.

(** ** Go prelude *)

(** Go's error value. *)
Definition error := option string.

(** [v, ok := m[k]] on a map that may be [nil]. *)
Definition go_lookup (m : option (gmap string string)) (k : string) : string * bool :=
  match m with
  | None => ("", false)
  | Some m =>
      match m !! k with
      | Some v => (v, true)
      | None => ("", false)
      end
  end.

(** [m[k]] on a map that may be [nil]. *)
Definition go_index (m : option (gmap string string)) (k : string) : string :=
  fst (go_lookup m k).

(** [a == b] on strings. *)
Definition streq (a b : string) : bool := bool_decide (a = b).

(** ** Data model (main.go, lines 27-77) *)

(** The part of [hypershiftv1beta1.HostedCluster] the tool reads: the name
    and the label and annotation maps of its [ObjectMeta]. *)
Record HostedCluster := {
  hc_Name : string;
  hc_Labels : option (gmap string string);
  hc_Annotations : option (gmap string string)
}.

Record hostedClusterAuditInfo := {
  ai_ClusterID : string;
  ai_ClusterName : string;
  ai_Namespace : string;
  ai_CurrentSize : string;
  ai_Category : string;
  ai_Labels : option (gmap string string);
  ai_Annotations : option (gmap string string)
}.

Record auditError := {
  ae_Namespace : string;
  ae_Error : string
}.

Record auditResults := {
  ar_MgmtClusterID : string;
  ar_TotalScanned : nat;
  ar_NeedsLabelRemoval : list hostedClusterAuditInfo;
  ar_ReadyForMigration : list hostedClusterAuditInfo;
  ar_AlreadyConfigured : list hostedClusterAuditInfo;
  ar_Errors : list auditError
}.

Record migrationResult := {
  mr_ClusterID : string;
  mr_ClusterName : string;
  mr_Status : string;
  mr_Error : string;
  mr_VerifiedAt : string
}.

(** The annotation keys and values the tool knows. *)
Definition annOverride : string := "hypershift.openshift.io/cluster-size-override".
Definition annTopology : string := "hypershift.openshift.io/topology".
Definition annAutoScaling : string := "hypershift.openshift.io/resource-based-cp-auto-scaling".
Definition valTopology : string := "dedicated-request-serving-components".
Definition valAutoScaling : string := "true".

(** ** The classifier (main.go, lines 357-373) *)

Definition categorizeCluster (hc : HostedCluster) : string :=
  let '(_, hasOverride) := go_lookup (hc_Annotations hc) annOverride in
  if hasOverride then "needs-removal"
  else
    let '(topology, hasTopology) := go_lookup (hc_Annotations hc) annTopology in
    let '(autoScaling, hasAutoScaling) := go_lookup (hc_Annotations hc) annAutoScaling in
    let hasCorrectTopology := hasTopology && streq topology valTopology in
    let hasCorrectAutoScaling := hasAutoScaling && streq autoScaling valAutoScaling in
    if hasCorrectTopology && hasCorrectAutoScaling then "already-configured"
    else "ready-for-migration".

(** ** The verifier's predicate (main.go, lines 852-863) *)

Definition hasRequiredAnnotations (hc : HostedCluster) : bool :=
  match hc_Annotations hc with
  | None => false
  | Some _ =>
      let '(topology, hasTopology) := go_lookup (hc_Annotations hc) annTopology in
      let '(autoScaling, hasAutoScaling) := go_lookup (hc_Annotations hc) annAutoScaling in
      hasTopology && streq topology valTopology &&
      hasAutoScaling && streq autoScaling valAutoScaling
  end.

(** ** Filtering an audit (main.go, lines 376-394) *)

Definition applyFilter (showOnly : string) (results : auditResults) : auditResults :=
  let filtered :=
    {| ar_MgmtClusterID := ar_MgmtClusterID results;
       ar_TotalScanned := 0;
       ar_NeedsLabelRemoval := [];
       ar_ReadyForMigration := [];
       ar_AlreadyConfigured := [];
       ar_Errors := ar_Errors results |} in
  if streq showOnly "needs-removal" then
    {| ar_MgmtClusterID := ar_MgmtClusterID filtered;
       ar_TotalScanned := length (ar_NeedsLabelRemoval results);
       ar_NeedsLabelRemoval := ar_NeedsLabelRemoval results;
       ar_ReadyForMigration := ar_ReadyForMigration filtered;
       ar_AlreadyConfigured := ar_AlreadyConfigured filtered;
       ar_Errors := ar_Errors filtered |}
  else if streq showOnly "ready-for-migration" then
    {| ar_MgmtClusterID := ar_MgmtClusterID filtered;
       ar_TotalScanned := length (ar_ReadyForMigration results);
       ar_NeedsLabelRemoval := ar_NeedsLabelRemoval filtered;
       ar_ReadyForMigration := ar_ReadyForMigration results;
       ar_AlreadyConfigured := ar_AlreadyConfigured filtered;
       ar_Errors := ar_Errors filtered |}
  else results.

(** ** The management cluster as the audit reads it

    [mgmtClient] stands for the [client.Client] of the management cluster:
    the two [List] calls the audit makes, each answering with an error text
    or with the items found. *)
Record Client := {
  List_Namespaces : string + list string;
  List_HostedClusters : string -> string + list HostedCluster
}.

Record auditOpts := {
  mgmtClusterID : string;
  showOnly : string;
  mgmtClient : Client
}.

(** ** Namespace filter (main.go, lines 295-311)

    The regular expression [^ocm-(production|staging)-[a-zA-Z0-9]+$] written
    out: one of the two prefixes followed by a non-empty run of ASCII letters
    and digits, and nothing else. *)
Definition isAlnum (c : ascii) : bool :=
  let n := nat_of_ascii c in
  ((48 <=? n) && (n <=? 57) || (65 <=? n) && (n <=? 90) || (97 <=? n) && (n <=? 122))%nat.

Fixpoint allAlnum (s : string) : bool :=
  match s with
  | EmptyString => true
  | String c rest => isAlnum c && allAlnum rest
  end.

Fixpoint stripPrefix (p s : string) : option string :=
  match p, s with
  | EmptyString, _ => Some s
  | String a p', String b s' => if Ascii.eqb a b then stripPrefix p' s' else None
  | String _ _, EmptyString => None
  end.

Definition ocmNamespacePattern_MatchString (s : string) : bool :=
  let after p :=
    match stripPrefix p s with
    | Some id => negb (streq id "") && allAlnum id
    | None => false
    end in
  after "ocm-production-" || after "ocm-staging-".

Definition listOcmNamespaces (a : auditOpts) : string + list string :=
  match List_Namespaces (mgmtClient a) with
  | inl err => inl err
  | inr items => inr (filter (fun ns => ocmNamespacePattern_MatchString ns = true) items)
  end.

(** ** Auditing one namespace (main.go, lines 314-354) *)

Definition getHostedClusterInNamespace (a : auditOpts) (namespace : string)
  : string + HostedCluster :=
  match List_HostedClusters (mgmtClient a) namespace with
  | inl err => inl err
  | inr items =>
      match items with
      | [] => inl "no HostedCluster found"
      | [hc] => inr hc
      | _ :: _ :: _ =>
          inl ("found " +:+ pretty (length items) +:+ " HostedClusters, expected 1")
      end
  end.

Definition auditNamespace (a : auditOpts) (namespace : string)
  : string + hostedClusterAuditInfo :=
  match getHostedClusterInNamespace a namespace with
  | inl err => inl err
  | inr hc =>
      let clusterID := go_index (hc_Labels hc) "api.openshift.com/id" in
      let currentSize := go_index (hc_Labels hc) "hypershift.openshift.io/hosted-cluster-size" in
      let category := categorizeCluster hc in
      inr {| ai_ClusterID := clusterID;
             ai_ClusterName := hc_Name hc;
             ai_Namespace := namespace;
             ai_CurrentSize := currentSize;
             ai_Category := category;
             ai_Labels := hc_Labels hc;
             ai_Annotations := hc_Annotations hc |}
  end.

(** ** The scan of [auditOpts.run] (main.go, lines 255-289)

    [scanStep] is the body of the loop over the namespaces, [scan] the loop
    followed by the computation of [TotalScanned], and [run] adds the listing
    before it and the filter after it. *)
Definition setErrors (r : auditResults) (es : list auditError) : auditResults :=
  {| ar_MgmtClusterID := ar_MgmtClusterID r;
     ar_TotalScanned := ar_TotalScanned r;
     ar_NeedsLabelRemoval := ar_NeedsLabelRemoval r;
     ar_ReadyForMigration := ar_ReadyForMigration r;
     ar_AlreadyConfigured := ar_AlreadyConfigured r;
     ar_Errors := es |}.

Definition setNeedsLabelRemoval (r : auditResults) (l : list hostedClusterAuditInfo)
  : auditResults :=
  {| ar_MgmtClusterID := ar_MgmtClusterID r;
     ar_TotalScanned := ar_TotalScanned r;
     ar_NeedsLabelRemoval := l;
     ar_ReadyForMigration := ar_ReadyForMigration r;
     ar_AlreadyConfigured := ar_AlreadyConfigured r;
     ar_Errors := ar_Errors r |}.

Definition setReadyForMigration (r : auditResults) (l : list hostedClusterAuditInfo)
  : auditResults :=
  {| ar_MgmtClusterID := ar_MgmtClusterID r;
     ar_TotalScanned := ar_TotalScanned r;
     ar_NeedsLabelRemoval := ar_NeedsLabelRemoval r;
     ar_ReadyForMigration := l;
     ar_AlreadyConfigured := ar_AlreadyConfigured r;
     ar_Errors := ar_Errors r |}.

Definition setAlreadyConfigured (r : auditResults) (l : list hostedClusterAuditInfo)
  : auditResults :=
  {| ar_MgmtClusterID := ar_MgmtClusterID r;
     ar_TotalScanned := ar_TotalScanned r;
     ar_NeedsLabelRemoval := ar_NeedsLabelRemoval r;
     ar_ReadyForMigration := ar_ReadyForMigration r;
     ar_AlreadyConfigured := l;
     ar_Errors := ar_Errors r |}.

Definition setTotalScanned (r : auditResults) (n : nat) : auditResults :=
  {| ar_MgmtClusterID := ar_MgmtClusterID r;
     ar_TotalScanned := n;
     ar_NeedsLabelRemoval := ar_NeedsLabelRemoval r;
     ar_ReadyForMigration := ar_ReadyForMigration r;
     ar_AlreadyConfigured := ar_AlreadyConfigured r;
     ar_Errors := ar_Errors r |}.

Definition scanStep (a : auditOpts) (results : auditResults) (ns : string) : auditResults :=
  match auditNamespace a ns with
  | inl err =>
      setErrors results (ar_Errors results ++ [{| ae_Namespace := ns; ae_Error := err |}])
  | inr info =>
      if streq (ai_Category info) "needs-removal" then
        setNeedsLabelRemoval results (ar_NeedsLabelRemoval results ++ [info])
      else if streq (ai_Category info) "ready-for-migration" then
        setReadyForMigration results (ar_ReadyForMigration results ++ [info])
      else if streq (ai_Category info) "already-configured" then
        setAlreadyConfigured results (ar_AlreadyConfigured results ++ [info])
      else results
  end.

Definition scan (a : auditOpts) (namespaces : list string) : auditResults :=
  let results :=
    {| ar_MgmtClusterID := mgmtClusterID a;
       ar_TotalScanned := 0;
       ar_NeedsLabelRemoval := [];
       ar_ReadyForMigration := [];
       ar_AlreadyConfigured := [];
       ar_Errors := [] |} in
  let results := fold_left (scanStep a) namespaces results in
  setTotalScanned results
    (length (ar_NeedsLabelRemoval results) +
     length (ar_ReadyForMigration results) +
     length (ar_AlreadyConfigured results)).

Definition run (a : auditOpts) : string + auditResults :=
  match listOcmNamespaces a with
  | inl err => inl ("failed to list namespaces: " +:+ err)
  | inr namespaces =>
      let results := scan a namespaces in
      inr (if streq (showOnly a) "" then results else applyFilter (showOnly a) results)
  end.

(** ** The options of [auditOpts.run] (main.go, lines 198-208)

    The two tables and the checks made on [output] and [showOnly] before
    anything is fetched. The check of the cluster key before them and the
    set-up of the connection after them belong to other packages. *)
Definition validOutputs : gmap string bool :=
  {[ "text" := true; "json" := true; "yaml" := true; "csv" := true ]}.

Definition validFilters : gmap string bool :=
  {[ "needs-removal" := true; "ready-for-migration" := true ]}.

(** [m[k]] on a [map[string]bool]: [false] when the key is missing. *)
Definition go_flag (m : gmap string bool) (k : string) : bool :=
  match m !! k with
  | Some b => b
  | None => false
  end.

Definition validateOptions (output : string) (a : auditOpts) : error :=
  if negb (go_flag validOutputs output) then
    Some ("invalid output format '" +:+ output
          +:+ "'. Valid options: text, json, yaml, csv")
  else if negb (streq (showOnly a) "") then
    if negb (go_flag validFilters (showOnly a)) then
      Some ("invalid show-only filter '" +:+ showOnly a
            +:+ "'. Valid options: needs-removal, ready-for-migration")
    else None
  else None.

(** ** printCSVOutput (main.go, lines 513-527)

    The records handed to the CSV writer, in order: the header unless
    [noHeaders], then one record per cluster, the three buckets one after
    the other. *)
Definition printCSVOutput (noHeaders : bool) (results : auditResults) : list (list string) :=
  let header :=
    if negb noHeaders
    then [["cluster_id"; "cluster_name"; "namespace"; "current_size"; "category"]]
    else [] in
  let allClusters :=
    (ar_NeedsLabelRemoval results ++ ar_ReadyForMigration results)
    ++ ar_AlreadyConfigured results in
  header ++
  map (fun c => [ai_ClusterID c; ai_ClusterName c; ai_Namespace c; ai_CurrentSize c;
                 ai_Category c])
      allClusters.

(** ** getCandidatesForMigration (main.go, lines 650-678)

    [candidateStep] is the body of the loop: a namespace whose audit fails is
    passed over with a warning, a record of another category is passed over
    silently. *)
Definition candidateStep (a : auditOpts) (candidates : list hostedClusterAuditInfo)
    (ns : string) : list hostedClusterAuditInfo :=
  match auditNamespace a ns with
  | inl _ => candidates
  | inr info =>
      if streq (ai_Category info) "ready-for-migration" then candidates ++ [info]
      else candidates
  end.

Definition getCandidatesForMigration (mgmtClusterID : string) (mgmtClient : Client)
  : string + list hostedClusterAuditInfo :=
  let auditOpts :=
    {| mgmtClusterID := mgmtClusterID; showOnly := ""; mgmtClient := mgmtClient |} in
  match listOcmNamespaces auditOpts with
  | inl err => inl err
  | inr namespaces => inr (fold_left (candidateStep auditOpts) namespaces [])
  end.

(** ** Decoded JSON documents

    What [json.Unmarshal] builds when it decodes into an [interface{}]:
    [nil], [bool], [float64] (kept as its 64-bit pattern), [string],
    [[]interface{}] and [map[string]interface{}]. *)
Definition float64 := N.

Inductive json :=
| JNull
| JBool (b : bool)
| JNumber (f : float64)
| JString (s : string)
| JArray (l : list json)
| JObject (m : gmap string json).

(** Functions of Go's standard library that the tool calls and whose code is
    outside the repository. [json_Unmarshal] decodes into a
    [map[string]interface{}]: [None] is a decoding error, the JSON text
    [null] decodes to the empty map. [json_Marshal] answers with an error
    text or with the encoding. [time_Format_RFC3339] is
    [t.Format(time.RFC3339)]. *)
Class GoLib := {
  json_Unmarshal : list byte -> option (gmap string json);
  json_Marshal : gmap string json -> string + list byte;
  time_Format_RFC3339 : Z -> string
}.

(** ** Manifests (open-cluster-management.io/api/work/v1) *)

Record Manifest := { Raw : option (list byte) }.

Record ManifestWork := {
  mw_Name : string;
  mw_Namespace : string;
  mw_Manifests : list Manifest
}.

(** [kind, _ := manifestData["kind"].(string)] *)
Definition kindOf (manifestData : gmap string json) : string :=
  match manifestData !! "kind" with
  | Some (JString s) => s
  | _ => ""
  end.

(** [o, ok := m[k].(map[string]interface{})] *)
Definition objectAt (m : gmap string json) (k : string) : option (gmap string json) :=
  match m !! k with
  | Some (JObject o) => Some o
  | _ => None
  end.

(** Lines 758-771: the two levels are fetched, or created empty when the
    entry is missing or is not an object, and the two annotations are
    written. Go's maps are references, so the writes land in
    [manifestData]; here each level is written back into its parent. *)
Definition addAnnotations (manifestData : gmap string json) : gmap string json :=
  let metadata :=
    match objectAt manifestData "metadata" with
    | Some metadata => metadata
    | None => ∅
    end in
  let annotations :=
    match objectAt metadata "annotations" with
    | Some annotations => annotations
    | None => ∅
    end in
  let annotations := <[annTopology := JString valTopology]> annotations in
  let annotations := <[annAutoScaling := JString valAutoScaling]> annotations in
  let metadata := <["annotations" := JObject annotations]> metadata in
  <["metadata" := JObject metadata]> manifestData.

Section Patcher.
Context {L : GoLib}.

(** The condition under which the loop of lines 743-781 does not [continue]
    past an element. *)
Definition isHostedCluster (manifest : Manifest) : bool :=
  match Raw manifest with
  | None => false
  | Some raw =>
      match json_Unmarshal raw with
      | None => false
      | Some manifestData => streq (kindOf manifestData) "HostedCluster"
      end
  end.

(** The loop of lines 742-781. The answer is the error of line 775, or the
    flag [modified] with the manifests as the loop leaves them. *)
Fixpoint patchLoop (manifests : list Manifest) : string + (bool * list Manifest) :=
  match manifests with
  | [] => inr (false, [])
  | manifest :: rest =>
      let continue :=
        match patchLoop rest with
        | inl err => inl err
        | inr (modified, rest') => inr (modified, manifest :: rest')
        end in
      match Raw manifest with
      | None => continue
      | Some raw =>
          match json_Unmarshal raw with
          | None => continue
          | Some manifestData =>
              if negb (streq (kindOf manifestData) "HostedCluster") then continue
              else
                match json_Marshal (addAnnotations manifestData) with
                | inl err => inl ("failed to marshal modified manifest: " +:+ err)
                | inr jsonData => inr (true, {| Raw := Some jsonData |} :: rest)
                end
          end
      end
  end.

(** Lines 742-785: the loop and the test of [modified] after it. *)
Definition patchManifests (manifests : list Manifest) : string + list Manifest :=
  match patchLoop manifests with
  | inl err => inl err
  | inr (modified, manifests') =>
      if negb modified then inl "HostedCluster not found in ManifestWork manifests"
      else inr manifests'
  end.

End Patcher.

(** ** The environment of a migration

    The migration talks to the service cluster ([serviceClient]), polls the
    management cluster ([mgmtClient]), waits on the ticker and on the
    context, and reads the clock. A [World] holds the clock and scripts what
    the environment answers, in the order of the calls; it also records the
    calls made.

    An [Event] is what one [select] of [waitForSync] finds once it stops
    waiting: only the context done, only a tick pending, or both, in which
    case Go's [select] takes either one and [pickTick] says which. A [Tick]
    scripts the iteration that handles it: when the tick is delivered, what
    the [Get] against the management cluster answers, and what the clock
    shows once it has answered. *)
Record Tick := {
  arrived_at : Z;
  fetched : string + HostedCluster;
  returned_at : Z
}.

Inductive Event :=
| CtxDone (at_time : Z)
| TickC (t : Tick)
| Both (pickTick : bool) (t : Tick).

Inductive Case :=
| CaseDone
| CaseTick (t : Tick).

Definition chosen (e : Event) : Case :=
  match e with
  | CtxDone _ => CaseDone
  | TickC t => CaseTick t
  | Both pickTick t => if pickTick then CaseTick t else CaseDone
  end.

Definition selectedAt (e : Event) : Z :=
  match e with
  | CtxDone at_time => at_time
  | TickC t => arrived_at t
  | Both _ t => arrived_at t
  end.

Inductive Effect :=
| EServiceGet (namespace name : string)
| EServiceUpdate (mw : ManifestWork)
| ESelect
| EMgmtGet (namespace name : string)
| ENow.

Record World := {
  w_now : Z;
  w_serviceGet : list (string + ManifestWork);
  w_serviceUpdate : list error;
  w_events : list Event;
  w_trace : list Effect
}.

Definition set_now (t : Z) (w : World) : World :=
  {| w_now := t;
     w_serviceGet := w_serviceGet w;
     w_serviceUpdate := w_serviceUpdate w;
     w_events := w_events w;
     w_trace := w_trace w |}.

Definition set_serviceGet (l : list (string + ManifestWork)) (w : World) : World :=
  {| w_now := w_now w;
     w_serviceGet := l;
     w_serviceUpdate := w_serviceUpdate w;
     w_events := w_events w;
     w_trace := w_trace w |}.

Definition set_serviceUpdate (l : list error) (w : World) : World :=
  {| w_now := w_now w;
     w_serviceGet := w_serviceGet w;
     w_serviceUpdate := l;
     w_events := w_events w;
     w_trace := w_trace w |}.

Definition set_events (l : list Event) (w : World) : World :=
  {| w_now := w_now w;
     w_serviceGet := w_serviceGet w;
     w_serviceUpdate := w_serviceUpdate w;
     w_events := l;
     w_trace := w_trace w |}.

Definition logged (e : Effect) (w : World) : World :=
  {| w_now := w_now w;
     w_serviceGet := w_serviceGet w;
     w_serviceUpdate := w_serviceUpdate w;
     w_events := w_events w;
     w_trace := w_trace w ++ [e] |}.

(** A computation against the world; [None] when the script has no answer
    left for a call (for [select]: neither channel ever becomes ready). *)
Definition M (A : Type) : Type := World -> option (A * World).

Definition ret {A} (a : A) : M A := fun w => Some (a, w).

Definition bind {A B} (c : M A) (k : A -> M B) : M B :=
  fun w =>
    match c w with
    | None => None
    | Some (a, w') => k a w'
    end.

Notation "x <- c ;; k" := (bind c (fun x => k))
  (at level 100, c at next level, right associativity).

(** [serviceClient.Get(ctx, NamespacedName{name, namespace}, manifestWork)] *)
Definition serviceClient_Get (namespace name : string) : M (string + ManifestWork) :=
  fun w =>
    match w_serviceGet w with
    | [] => None
    | r :: rest => Some (r, logged (EServiceGet namespace name) (set_serviceGet rest w))
    end.

(** [serviceClient.Update(ctx, manifestWork)] *)
Definition serviceClient_Update (mw : ManifestWork) : M error :=
  fun w =>
    match w_serviceUpdate w with
    | [] => None
    | r :: rest => Some (r, logged (EServiceUpdate mw) (set_serviceUpdate rest w))
    end.

(** [select { case <-ctx.Done(): ... case <-ticker.C: ... }]: time passes
    while it waits. *)
Definition select : M Case :=
  fun w =>
    match w_events w with
    | [] => None
    | e :: rest => Some (chosen e, logged ESelect (set_now (selectedAt e) (set_events rest w)))
    end.

(** [mgmtClient.Get(ctx, NamespacedName{namespace, name}, hc)] in the
    iteration that handles the tick [t]: time passes while it runs. *)
Definition mgmtClient_Get (t : Tick) (namespace name : string) : M (string + HostedCluster) :=
  fun w => Some (fetched t, logged (EMgmtGet namespace name) (set_now (returned_at t) w)).

(** [time.Now()] *)
Definition time_Now : M Z :=
  fun w => Some (w_now w, logged ENow w).

Definition Second : Z := 1000000000.
Definition Minute : Z := 60 * Second.

Record migrateOpts := {
  mgmtClusterName : string
}.

Section Migration.
Context {L : GoLib}.

(** ** patchManifestWork (main.go, lines 728-792) *)
Definition patchManifestWork (m : migrateOpts) (clusterID : string) : M error :=
  r <- serviceClient_Get (mgmtClusterName m) clusterID ;;
  match r with
  | inl err =>
      ret (Some ("failed to get ManifestWork " +:+ mgmtClusterName m +:+ "/" +:+ clusterID
                 +:+ ": " +:+ err))
  | inr manifestWork =>
      match patchManifests (mw_Manifests manifestWork) with
      | inl err => ret (Some err)
      | inr manifests =>
          let manifestWork :=
            {| mw_Name := mw_Name manifestWork;
               mw_Namespace := mw_Namespace manifestWork;
               mw_Manifests := manifests |} in
          err <- serviceClient_Update manifestWork ;;
          match err with
          | Some err => ret (Some ("failed to update ManifestWork: " +:+ err))
          | None => ret None
          end
      end
  end.

(** ** waitForSync (main.go, lines 795-849)

    [getHostedClusterFromMgmt] answers with the error or with the record.
    [waitLoop] is the [for { select ... }] of lines 808-836; every iteration
    takes one event, so the number of events left bounds the iterations. *)
Definition pollInterval : Z := 15 * Second.
Definition timeout : Z := 5 * Minute.

Definition getHostedClusterFromMgmt (t : Tick) (namespace name : string)
  : M (string + HostedCluster) :=
  mgmtClient_Get t namespace name.

Fixpoint waitLoop (fuel : nat) (deadline : Z) (info : hostedClusterAuditInfo) : M error :=
  match fuel with
  | O => fun _ => None
  | S fuel =>
      c <- select ;;
      match c with
      | CaseDone => ret (Some "context cancelled")
      | CaseTick t =>
          r <- getHostedClusterFromMgmt t (ai_Namespace info) (ai_ClusterName info) ;;
          match r with
          | inl err =>
              now <- time_Now ;;
              if (now >? deadline)%Z then ret (Some "timeout waiting for sync after 5m0s")
              else waitLoop fuel deadline info
          | inr hc =>
              if hasRequiredAnnotations hc then ret None
              else
                now <- time_Now ;;
                if (now >? deadline)%Z
                then ret (Some "timeout: annotations did not sync after 5m0s")
                else waitLoop fuel deadline info
          end
      end
  end.

Definition waitForSync (m : migrateOpts) (info : hostedClusterAuditInfo) : M error :=
  now <- time_Now ;;
  let deadline := (now + timeout)%Z in
  fun w => waitLoop (S (length (w_events w))) deadline info w.

(** ** migrateCluster and migrateClusters (main.go, lines 681-725) *)
Definition migrateCluster (m : migrateOpts) (info : hostedClusterAuditInfo) : M migrationResult :=
  err <- patchManifestWork m (ai_ClusterID info) ;;
  match err with
  | Some err =>
      ret {| mr_ClusterID := ai_ClusterID info;
             mr_ClusterName := ai_ClusterName info;
             mr_Status := "failed";
             mr_Error := "failed to patch ManifestWork: " +:+ err;
             mr_VerifiedAt := "" |}
  | None =>
      err <- waitForSync m info ;;
      match err with
      | Some err =>
          ret {| mr_ClusterID := ai_ClusterID info;
                 mr_ClusterName := ai_ClusterName info;
                 mr_Status := "failed";
                 mr_Error := "sync verification failed: " +:+ err;
                 mr_VerifiedAt := "" |}
      | None =>
          now <- time_Now ;;
          ret {| mr_ClusterID := ai_ClusterID info;
                 mr_ClusterName := ai_ClusterName info;
                 mr_Status := "success";
                 mr_Error := "";
                 mr_VerifiedAt := time_Format_RFC3339 now |}
      end
  end.

Fixpoint migrateLoop (m : migrateOpts) (candidates : list hostedClusterAuditInfo)
    (results : list migrationResult) : M (list migrationResult) :=
  match candidates with
  | [] => ret results
  | candidate :: rest =>
      result <- migrateCluster m candidate ;;
      migrateLoop m rest (results ++ [result])
  end.

Definition migrateClusters (m : migrateOpts) (candidates : list hostedClusterAuditInfo)
  : M (list migrationResult) :=
  migrateLoop m candidates [].

End Migration.

(** ** displayCandidates, displayResults and [migrateOpts.run]
    (main.go, lines 530-564 and 866-924)

    [sort.Slice] belongs to Go's standard library; it sorts the slice it is
    given in place, by the [less] it is given. Here [less] compares two
    elements, where the closures of the source compare the elements at two
    indexes. *)
Class GoSort := {
  sort_Slice : forall {A : Type}, (A -> A -> bool) -> list A -> list A
}.

(** [candidates[i].ClusterID < candidates[j].ClusterID] *)
Definition lessByClusterID (a b : hostedClusterAuditInfo) : bool :=
  String.ltb (ai_ClusterID a) (ai_ClusterID b).

(** The flags of the migrate command that [run] reads. *)
Record migrateFlags := {
  dryRun : bool;
  skipConfirmation : bool
}.

(** What a run of the migrate command comes to: the error it returns,
    whether the confirmation prompt was shown, and the results handed to
    [displayResults], if any. *)
Record runOutcome := {
  ro_error : error;
  ro_prompted : bool;
  ro_results : option (list migrationResult)
}.

(** Lines 890-899: the two lists the summary is printed from. *)
Definition displayResults (results : list migrationResult)
  : list migrationResult * list migrationResult :=
  fold_left
    (fun (acc : list migrationResult * list migrationResult) r =>
       let '(migrated, failed) := acc in
       if streq (mr_Status r) "success" then (migrated ++ [r], failed)
       else if streq (mr_Status r) "failed" then (migrated, failed ++ [r])
       else (migrated, failed))
    results ([], []).

Section MigrationRun.
Context {L : GoLib} {S : GoSort}.

(** Lines 872-874: the slice is sorted in place, so the caller sees the
    candidates in the order this function leaves them. *)
Definition displayCandidates (candidates : list hostedClusterAuditInfo)
  : list hostedClusterAuditInfo :=
  sort_Slice lessByClusterID candidates.

(** [migrateOpts.run] once [initialize] has succeeded. [confirmed] is what
    [utils.ConfirmPrompt] answers if it is called. *)
Definition migrateOpts_run (m : migrateOpts) (flags : migrateFlags)
    (mgmtClusterID : string) (mgmtClient : Client) (confirmed : bool) : M runOutcome :=
  match getCandidatesForMigration mgmtClusterID mgmtClient with
  | inl err =>
      ret {| ro_error := Some ("failed to get migration candidates: " +:+ err);
             ro_prompted := false; ro_results := None |}
  | inr candidates =>
      if (length candidates =? 0)%nat then
        ret {| ro_error := None; ro_prompted := false; ro_results := None |}
      else
        let candidates := displayCandidates candidates in
        let prompted := negb (skipConfirmation flags) && negb (dryRun flags) in
        if prompted && negb confirmed then
          ret {| ro_error := Some "migration cancelled by user";
                 ro_prompted := true; ro_results := None |}
        else if dryRun flags then
          ret {| ro_error := None; ro_prompted := prompted; ro_results := None |}
        else
          results <- migrateClusters m candidates ;;
          ret {| ro_error := None; ro_prompted := prompted; ro_results := Some results |}
  end.

End MigrationRun.

(** ** A reference instance of the library functions

    Used to run the model on concrete documents. The codec covers JSON
    documents without numbers whose strings are ASCII: on such documents it
    reads any JSON text and writes what [encoding/json] writes (compact, the
    keys of an object in byte order, the characters [<], [>] and [&] escaped).
    Outside that fragment it answers with an error. The formatting of a time
    is RFC 3339 in UTC. *)
Module Reference.

Definition dquote : ascii := ascii_of_nat 34.
Definition backslash : ascii := ascii_of_nat 92.

Definition isWs (c : ascii) : bool :=
  let n := nat_of_ascii c in
  ((n =? 32) || (n =? 9) || (n =? 10) || (n =? 13))%nat.

Fixpoint skipWs (s : string) : string :=
  match s with
  | EmptyString => EmptyString
  | String c rest => if isWs c then skipWs rest else s
  end.

Definition hexVal (c : ascii) : option nat :=
  let n := nat_of_ascii c in
  if ((48 <=? n) && (n <=? 57))%nat then Some (n - 48)
  else if ((97 <=? n) && (n <=? 102))%nat then Some (n - 87)
  else if ((65 <=? n) && (n <=? 70))%nat then Some (n - 55)
  else None.

(** The characters of a string literal after its opening quote. *)
Fixpoint parseString (s : string) : option (string * string) :=
  match s with
  | EmptyString => None
  | String c r =>
      if Ascii.eqb c dquote then Some (EmptyString, r)
      else if Ascii.eqb c backslash then
        match r with
        | EmptyString => None
        | String e r' =>
            let continue (ch : ascii) :=
              match parseString r' with
              | Some (t, rest) => Some (String ch t, rest)
              | None => None
              end in
            if Ascii.eqb e dquote then continue dquote
            else if Ascii.eqb e backslash then continue backslash
            else if Ascii.eqb e "/" then continue "/"%char
            else if Ascii.eqb e "n" then continue (ascii_of_nat 10)
            else if Ascii.eqb e "r" then continue (ascii_of_nat 13)
            else if Ascii.eqb e "t" then continue (ascii_of_nat 9)
            else if Ascii.eqb e "b" then continue (ascii_of_nat 8)
            else if Ascii.eqb e "f" then continue (ascii_of_nat 12)
            else if Ascii.eqb e "u" then
              match r' with
              | String h1 (String h2 (String h3 (String h4 r''))) =>
                  match hexVal h1, hexVal h2, hexVal h3, hexVal h4 with
                  | Some 0, Some 0, Some a, Some b =>
                      if (a <? 8)%nat then
                        match parseString r'' with
                        | Some (t, rest) => Some (String (ascii_of_nat (16 * a + b)) t, rest)
                        | None => None
                        end
                      else None
                  | _, _, _, _ => None
                  end
              | _ => None
              end
            else None
        end
      else if (nat_of_ascii c <? 32)%nat || (128 <=? nat_of_ascii c)%nat then None
      else
        match parseString r with
        | Some (t, rest) => Some (String c t, rest)
        | None => None
        end
  end.

(** The elements of an array after its opening bracket, the array not empty. *)
Fixpoint parseElems (pv : string -> option (json * string)) (n : nat) (s : string)
    (acc : list json) : option (list json * string) :=
  match n with
  | O => None
  | S n =>
      match pv s with
      | None => None
      | Some (v, r) =>
          match skipWs r with
          | EmptyString => None
          | String c r' =>
              if Ascii.eqb c "," then parseElems pv n r' (acc ++ [v])
              else if Ascii.eqb c "]" then Some (acc ++ [v], r')
              else None
          end
      end
  end.

(** The members of an object after its opening brace, the object not empty;
    a key met twice keeps its last value. *)
Fixpoint parseMembers (pv : string -> option (json * string)) (n : nat) (s : string)
    (acc : gmap string json) : option (gmap string json * string) :=
  match n with
  | O => None
  | S n =>
      match skipWs s with
      | EmptyString => None
      | String q r =>
          if negb (Ascii.eqb q dquote) then None
          else
            match parseString r with
            | None => None
            | Some (key, r) =>
                match skipWs r with
                | EmptyString => None
                | String colon r =>
                    if negb (Ascii.eqb colon ":") then None
                    else
                      match pv r with
                      | None => None
                      | Some (v, r) =>
                          match skipWs r with
                          | EmptyString => None
                          | String c r' =>
                              if Ascii.eqb c "," then parseMembers pv n r' (<[key := v]> acc)
                              else if Ascii.eqb c "}" then Some (<[key := v]> acc, r')
                              else None
                          end
                      end
                end
            end
      end
  end.

Fixpoint parseValue (fuel : nat) (s : string) : option (json * string) :=
  match fuel with
  | O => None
  | S fuel =>
      match skipWs s with
      | EmptyString => None
      | String c r =>
          if Ascii.eqb c dquote then
            match parseString r with
            | Some (t, rest) => Some (JString t, rest)
            | None => None
            end
          else if Ascii.eqb c "[" then
            match skipWs r with
            | String c' r' =>
                if Ascii.eqb c' "]" then Some (JArray [], r')
                else
                  match parseElems (parseValue fuel) (String.length r) r [] with
                  | Some (l, rest) => Some (JArray l, rest)
                  | None => None
                  end
            | EmptyString => None
            end
          else if Ascii.eqb c "{" then
            match skipWs r with
            | String c' r' =>
                if Ascii.eqb c' "}" then Some (JObject ∅, r')
                else
                  match parseMembers (parseValue fuel) (String.length r) r ∅ with
                  | Some (m, rest) => Some (JObject m, rest)
                  | None => None
                  end
            | EmptyString => None
            end
          else
            match stripPrefix "null" (String c r) with
            | Some rest => Some (JNull, rest)
            | None =>
                match stripPrefix "true" (String c r) with
                | Some rest => Some (JBool true, rest)
                | None =>
                    match stripPrefix "false" (String c r) with
                    | Some rest => Some (JBool false, rest)
                    | None => None
                    end
                end
            end
      end
  end.

Definition Unmarshal (data : list byte) : option (gmap string json) :=
  match parseValue 1000 (string_of_list_byte data) with
  | Some (v, rest) =>
      match skipWs rest, v with
      | EmptyString, JObject m => Some m
      | EmptyString, JNull => Some ∅
      | _, _ => None
      end
  | None => None
  end.

Definition hexDigit (n : nat) : ascii :=
  if (n <? 10)%nat then ascii_of_nat (48 + n) else ascii_of_nat (87 + n).

Fixpoint printChars (s : string) : option string :=
  match s with
  | EmptyString => Some EmptyString
  | String c r =>
      let n := nat_of_ascii c in
      match printChars r with
      | None => None
      | Some t =>
          if (128 <=? n)%nat then None
          else if Ascii.eqb c dquote || Ascii.eqb c backslash then
            Some (String backslash (String c t))
          else if (n =? 10)%nat then Some (String backslash (String "n" t))
          else if (n =? 13)%nat then Some (String backslash (String "r" t))
          else if (n =? 9)%nat then Some (String backslash (String "t" t))
          else if (n =? 8)%nat || (n =? 12)%nat then None
          else if (n <? 32)%nat || (n =? 60)%nat || (n =? 62)%nat || (n =? 38)%nat then
            Some (String backslash (String "u" (String "0" (String "0"
                   (String (hexDigit (n / 16)) (String (hexDigit (n mod 16)) t))))))
          else Some (String c t)
      end
  end.

Definition printString (s : string) : option string :=
  match printChars s with
  | Some t => Some (String dquote (t +:+ String dquote EmptyString))
  | None => None
  end.

Fixpoint insertByKey (x : string * json) (l : list (string * json)) : list (string * json) :=
  match l with
  | [] => [x]
  | y :: rest => if String.leb (fst x) (fst y) then x :: y :: rest else y :: insertByKey x rest
  end.

Definition sortByKey (l : list (string * json)) : list (string * json) :=
  foldr insertByKey [] l.

(** The texts of a list, separated by commas; [None] if one is missing. *)
Fixpoint joined (l : list (option string)) : option string :=
  match l with
  | [] => Some EmptyString
  | [x] => x
  | x :: rest =>
      match x, joined rest with
      | Some a, Some b => Some (a +:+ "," +:+ b)
      | _, _ => None
      end
  end.

Fixpoint printValue (fuel : nat) (v : json) : option string :=
  match fuel with
  | O => None
  | S fuel =>
      match v with
      | JNull => Some "null"
      | JBool true => Some "true"
      | JBool false => Some "false"
      | JNumber _ => None
      | JString s => printString s
      | JArray l =>
          match joined (map (printValue fuel) l) with
          | Some t => Some ("[" +:+ t +:+ "]")
          | None => None
          end
      | JObject m =>
          let member (kv : string * json) :=
            match printString (fst kv), printValue fuel (snd kv) with
            | Some k, Some t => Some (k +:+ ":" +:+ t)
            | _, _ => None
            end in
          match joined (map member (sortByKey (map_to_list m))) with
          | Some t => Some ("{" +:+ t +:+ "}")
          | None => None
          end
      end
  end.

Definition Marshal (v : gmap string json) : string + list byte :=
  match printValue 1000 (JObject v) with
  | Some t => inr (list_byte_of_string t)
  | None => inl "json: unsupported value"
  end.

(** RFC 3339 in UTC, from the nanoseconds since 1970-01-01T00:00:00Z. *)
Definition pad (width : nat) (n : Z) : string :=
  let s := pretty n in
  String.concat "" (repeat "0" (width - String.length s)) +:+ s.

Definition Format_RFC3339 (t : Z) : string :=
  let secs := (t / Second)%Z in
  let days := (secs / 86400)%Z in
  let rem := (secs mod 86400)%Z in
  let z := (days + 719468)%Z in
  let era := (z / 146097)%Z in
  let doe := (z - era * 146097)%Z in
  let yoe := ((doe - doe / 1460 + doe / 36524 - doe / 146096) / 365)%Z in
  let doy := (doe - (365 * yoe + yoe / 4 - yoe / 100))%Z in
  let mp := ((5 * doy + 2) / 153)%Z in
  let d := (doy - (153 * mp + 2) / 5 + 1)%Z in
  let m := (if (mp <? 10)%Z then mp + 3 else mp - 9)%Z in
  let y := (yoe + era * 400 + (if (m <=? 2)%Z then 1 else 0))%Z in
  pad 4 y +:+ "-" +:+ pad 2 m +:+ "-" +:+ pad 2 d +:+ "T" +:+
  pad 2 (rem / 3600) +:+ ":" +:+ pad 2 (rem mod 3600 / 60) +:+ ":" +:+ pad 2 (rem mod 60) +:+ "Z".

Definition lib : GoLib := {|
  json_Unmarshal := Unmarshal;
  json_Marshal := Marshal;
  time_Format_RFC3339 := Format_RFC3339
|}.

(** A JSON text written with single quotes in place of double quotes. *)
Fixpoint requote (s : string) : string :=
  match s with
  | EmptyString => EmptyString
  | String c r => String (if Ascii.eqb c "'" then dquote else c) (requote r)
  end.

Definition text (s : string) : list byte := list_byte_of_string (requote s).

Definition manifest (s : string) : Manifest := {| Raw := Some (text s) |}.

End Reference.

(** ** A reference instance of [sort.Slice]: a merge sort. *)
Module ReferenceSort.

Definition sort : GoSort := {|
  sort_Slice := fun A less =>
    @merge_sort A (fun x y => less y x = false) (fun x y => decide (less y x = false))
|}.

End ReferenceSort.

(** * Vocabulary of the statements *)

(** ** Classifier and scan *)

(** The annotations of a record as a finite map, [nil] read as empty. *)
Definition annotationsOf (hc : HostedCluster) : gmap string string :=
  default ∅ (hc_Annotations hc).

(** What one namespace contributes to the error list. *)
Definition errorOf (a : auditOpts) (ns : string) : option auditError :=
  match auditNamespace a ns with
  | inl err => Some {| ae_Namespace := ns; ae_Error := err |}
  | inr _ => None
  end.

(** What one namespace contributes to the bucket of [category]. *)
Definition entryOf (a : auditOpts) (category ns : string) : option hostedClusterAuditInfo :=
  match auditNamespace a ns with
  | inl _ => None
  | inr info => if streq (ai_Category info) category then Some info else None
  end.

(** ** Patcher *)

(** What [addAnnotations] starts from: the metadata and the annotations of a
    document, read as empty when missing or not an object. *)
Definition metadataOf (manifestData : gmap string json) : gmap string json :=
  default ∅ (objectAt manifestData "metadata").

Definition annotationsIn (manifestData : gmap string json) : gmap string json :=
  default ∅ (objectAt (metadataOf manifestData) "annotations").

Definition patchedAnnotations (manifestData : gmap string json) : gmap string json :=
  <[annAutoScaling := JString valAutoScaling]>
    (<[annTopology := JString valTopology]> (annotationsIn manifestData)).

(** The loop of the patch goes past the element. *)
Definition skipped {L : GoLib} (manifest : Manifest) : Prop := isHostedCluster manifest = false.

(** The error of line 784. *)
Definition notFound : string := "HostedCluster not found in ManifestWork manifests".

(** ** Verifier *)

(** The fetch of a tick shows the required annotations. *)
Definition satisfied (t : Tick) : bool :=
  match fetched t with
  | inl _ => false
  | inr hc => hasRequiredAnnotations hc
  end.

(** The iteration that handles [e] goes back to [select]: the tick case is
    taken, the fetch fails or does not show the annotations, and the clock
    read after it is not past the deadline. *)
Definition keepsPolling (deadline : Z) (e : Event) : bool :=
  match chosen e with
  | CaseDone => false
  | CaseTick t => negb (satisfied t) && negb (returned_at t >? deadline)%Z
  end.

(** What the iteration that handles [e] returns when it leaves the loop. *)
Definition verdict (e : Event) : error :=
  match chosen e with
  | CaseDone => Some "context cancelled"
  | CaseTick t =>
      match fetched t with
      | inl _ => Some "timeout waiting for sync after 5m0s"
      | inr hc =>
          if hasRequiredAnnotations hc then None
          else Some "timeout: annotations did not sync after 5m0s"
      end
  end.

(** The calls the iteration that handles [e] makes. *)
Definition effectsOf (info : hostedClusterAuditInfo) (e : Event) : list Effect :=
  match chosen e with
  | CaseDone => [ESelect]
  | CaseTick t =>
      if satisfied t then [ESelect; EMgmtGet (ai_Namespace info) (ai_ClusterName info)]
      else [ESelect; EMgmtGet (ai_Namespace info) (ai_ClusterName info); ENow]
  end.

(** The world after the iteration that handles [e], the first event left. *)
Definition handled (info : hostedClusterAuditInfo) (e : Event) (w : World) : World :=
  let w1 := logged ESelect (set_now (selectedAt e) (set_events (tail (w_events w)) w)) in
  match chosen e with
  | CaseDone => w1
  | CaseTick t =>
      let w2 := logged (EMgmtGet (ai_Namespace info) (ai_ClusterName info))
                  (set_now (returned_at t) w1) in
      if satisfied t then w2 else logged ENow w2
  end.

(** The world after the iterations that handle [pre], one after the other. *)
Fixpoint polled (info : hostedClusterAuditInfo) (pre : list Event) (w : World) : World :=
  match pre with
  | [] => w
  | e :: pre' => polled info pre' (handled info e w)
  end.

(** If [select] takes the tick of [e] and its fetch returns no later than
    the deadline, the fetch does not show the annotations. *)
Definition unsatisfiedBefore (deadline : Z) (e : Event) : bool :=
  match chosen e with
  | CaseDone => true
  | CaseTick t => (returned_at t >? deadline)%Z || negb (satisfied t)
  end.

(** The context is done when [select] handles [e]. *)
Definition ctxDone (e : Event) : bool :=
  match e with
  | CtxDone _ => true
  | TickC _ => false
  | Both _ _ => true
  end.

(** In some iteration the clock is read between the [select] and the fetch:
    the trace holds [ESelect; ENow; EMgmtGet _ _] in a row. *)
Fixpoint checksBeforeFetch (trace : list Effect) : bool :=
  match trace with
  | ESelect :: ((ENow :: EMgmtGet _ _ :: _) as rest) => true
  | _ :: rest => checksBeforeFetch rest
  | [] => false
  end.

(** A call to the service cluster. *)
Definition serviceEffect (e : Effect) : bool :=
  match e with
  | EServiceGet _ _ | EServiceUpdate _ => true
  | ESelect | EMgmtGet _ _ | ENow => false
  end.

(** * Concrete inputs *)

(** ** Runs of the verifier *)
Module Scenario.

Definition seconds (n : Z) : Z := (n * Second)%Z.

Definition hcPlain : HostedCluster :=
  {| hc_Name := "test-cluster";
     hc_Labels := Some {[ "api.openshift.com/id" := "cluster3" ]};
     hc_Annotations := Some {[ "other.annotation" := "value" ]} |}.

Definition hcSynced : HostedCluster :=
  {| hc_Name := "test-cluster";
     hc_Labels := Some {[ "api.openshift.com/id" := "cluster3" ]};
     hc_Annotations :=
       Some (<[annTopology := valTopology]>
               (<[annAutoScaling := valAutoScaling]> {[ "other.annotation" := "value" ]})) |}.

Definition info : hostedClusterAuditInfo :=
  {| ai_ClusterID := "cluster3";
     ai_ClusterName := "test-cluster";
     ai_Namespace := "ocm-production-abc123";
     ai_CurrentSize := "";
     ai_Category := "ready-for-migration";
     ai_Labels := hc_Labels hcPlain;
     ai_Annotations := hc_Annotations hcPlain |}.

Definition opts : migrateOpts := {| mgmtClusterName := "test-mgmt-cluster" |}.

(** A world whose clock shows 0 and whose [select]s find [events]. *)
Definition polling (events : list Event) : World :=
  {| w_now := 0;
     w_serviceGet := [];
     w_serviceUpdate := [];
     w_events := events;
     w_trace := [] |}.

Definition tick (arrived : Z) (r : string + HostedCluster) (returned : Z) : Tick :=
  {| arrived_at := seconds arrived; fetched := r; returned_at := seconds returned |}.

(** Two negative fetches before the deadline of 300 s, then a tick that
    arrives after it and whose fetch shows the annotations. *)
Definition lateSuccess : World :=
  polling [TickC (tick 15 (inr hcPlain) 16);
           TickC (tick 285 (inl "connection refused") 286);
           TickC (tick 301 (inr hcSynced) 302)].

(** The context is done and a tick is pending, after the deadline; [select]
    takes the tick, and the fetch fails. *)
Definition cancelledLate : World :=
  polling [TickC (tick 15 (inr hcPlain) 16);
           Both true (tick 301 (inl "context canceled") 302)].

(** Negative fetches, the last one returning after the deadline. *)
Definition neverSynced : World :=
  polling [TickC (tick 15 (inr hcPlain) 16);
           TickC (tick 300 (inr hcPlain) 301)].

(** The context is done while the loop waits for the second tick. *)
Definition cancelled : World :=
  polling [TickC (tick 15 (inr hcPlain) 16); CtxDone (seconds 20)].

End Scenario.

(** ** Manifests, batches and audits *)
Module Fixture.

Import Reference.

Definition secret : Manifest :=
  manifest "{'apiVersion':'v1','kind':'Secret','metadata':{'name':'test-secret'}}".

Definition hostedClusterBytes : list byte :=
  text ("{ 'apiVersion': 'hypershift.openshift.io/v1beta1', 'kind': 'HostedCluster',"
        +:+ " 'metadata': { 'name': 'test-cluster',"
        +:+ " 'annotations': { 'hypershift.openshift.io/topology': 'old-value' } } }").

Definition hostedCluster : Manifest := {| Raw := Some hostedClusterBytes |}.

Definition certificate : Manifest :=
  manifest ("{'apiVersion':'cert-manager.io/v1','kind':'Certificate',"
            +:+ "'metadata':{'name':'test-cert'}}").

Definition secondHostedCluster : Manifest :=
  manifest "{'kind':'HostedCluster','metadata':{'name':'another'}}".

Definition noBytes : Manifest := {| Raw := None |}.

Definition notJSON : Manifest := manifest "kind: HostedCluster".

(** What [hostedCluster] decodes to. *)
Definition hostedClusterData : gmap string json :=
  {[ "apiVersion" := JString "hypershift.openshift.io/v1beta1";
     "kind" := JString "HostedCluster";
     "metadata" :=
       JObject {[ "name" := JString "test-cluster";
                  "annotations" :=
                    JObject {[ "hypershift.openshift.io/topology" := JString "old-value" ]} ]} ]}.

(** What [encoding/json] writes for [hostedCluster] once patched. *)
Definition patchedBytes : list byte :=
  text ("{'apiVersion':'hypershift.openshift.io/v1beta1','kind':'HostedCluster',"
        +:+ "'metadata':{'annotations':{"
        +:+ "'hypershift.openshift.io/resource-based-cp-auto-scaling':'true',"
        +:+ "'hypershift.openshift.io/topology':'dedicated-request-serving-components'},"
        +:+ "'name':'test-cluster'}}").

Definition manifests : list Manifest :=
  [noBytes; notJSON; secret; hostedCluster; certificate; secondHostedCluster].

Definition patchedManifests : list Manifest :=
  [noBytes; notJSON; secret; {| Raw := Some patchedBytes |}; certificate; secondHostedCluster].

(** Two candidates: the ManifestWork of the first one is missing on the
    service cluster, the second one is patched and syncs at its second tick. *)
Definition missing : hostedClusterAuditInfo :=
  {| ai_ClusterID := "cluster4";
     ai_ClusterName := "other-cluster";
     ai_Namespace := "ocm-staging-xyz789";
     ai_CurrentSize := "";
     ai_Category := "ready-for-migration";
     ai_Labels := None;
     ai_Annotations := None |}.

Definition batch : World :=
  {| w_now := 0;
     w_serviceGet :=
       [inl "manifestworks.work.open-cluster-management.io cluster4 not found";
        inr {| mw_Name := "cluster3"; mw_Namespace := "test-mgmt-cluster";
               mw_Manifests := manifests |}];
     w_serviceUpdate := [None];
     w_events :=
       [TickC (Scenario.tick 15 (inr Scenario.hcPlain) 16);
        TickC (Scenario.tick 30 (inr Scenario.hcSynced) 31)];
     w_trace := [] |}.

Definition record (name : string) (annotations : list (string * string)) : HostedCluster :=
  {| hc_Name := name;
     hc_Labels := Some {[ "api.openshift.com/id" := name ]};
     hc_Annotations := Some (list_to_map annotations) |}.

(** A management cluster with six namespaces that hold one record each (two
    with the override, three without it that lack one or both of the
    required values, one with both), one that holds none, one that holds
    two, and two that the namespace filter drops. *)
Definition hostedClusters : list (string * list HostedCluster) :=
  [("ocm-production-a1", [record "cluster1" [(annOverride, "m5xl")]]);
   ("ocm-production-a2", [record "cluster2" [(annOverride, ""); (annTopology, valTopology);
                                            (annAutoScaling, valAutoScaling)]]);
   ("ocm-staging-b1", [record "cluster3" []]);
   ("ocm-staging-b2", [record "cluster4" [(annTopology, valTopology)]]);
   ("ocm-staging-b3", [record "cluster5" [(annTopology, valTopology); (annAutoScaling, "false")]]);
   ("ocm-production-c1", [record "cluster6" [(annTopology, valTopology);
                                            (annAutoScaling, valAutoScaling)]]);
   ("ocm-production-empty", []);
   ("ocm-production-twice", [record "cluster7" []; record "cluster8" []])].

Fixpoint assoc {A} (k : string) (l : list (string * A)) : option A :=
  match l with
  | [] => None
  | (k', v) :: rest => if streq k k' then Some v else assoc k rest
  end.

Definition cluster : Client :=
  {| List_Namespaces :=
       inr ["ocm-production-a1"; "kube-system"; "ocm-production-a2"; "ocm-staging-b1";
            "ocm-production-empty"; "ocm-staging-b2"; "ocm-staging-b3";
            "ocm-production-twice"; "ocm-production-c1"; "ocm-staging-"];
     List_HostedClusters :=
       fun ns => match assoc ns hostedClusters with
                 | Some items => inr items
                 | None => inl "namespace not found"
                 end |}.

Definition audit (filter : string) : auditOpts :=
  {| mgmtClusterID := "test-cluster"; showOnly := filter; mgmtClient := cluster |}.

(** The cases of [TestCategorizeCluster] and [TestHasRequiredAnnotations]. *)
Definition annotated (annotations : option (list (string * string))) : HostedCluster :=
  {| hc_Name := ""; hc_Labels := None; hc_Annotations := list_to_map <$> annotations |}.

Definition categorizeCases : list (option (list (string * string)) * string) :=
  [(Some [(annOverride, "m5xl")], "needs-removal");
   (Some [(annOverride, "m52xl"); (annTopology, "dedicated-request-serving-components");
          (annAutoScaling, "true")], "needs-removal");
   (Some [(annTopology, "dedicated-request-serving-components"); (annAutoScaling, "true")],
    "already-configured");
   (Some [(annAutoScaling, "true")], "ready-for-migration");
   (Some [(annTopology, "dedicated-request-serving-components")], "ready-for-migration");
   (Some [(annTopology, "wrong-value"); (annAutoScaling, "true")], "ready-for-migration");
   (Some [(annTopology, "dedicated-request-serving-components"); (annAutoScaling, "false")],
    "ready-for-migration");
   (Some [], "ready-for-migration");
   (None, "ready-for-migration")].

Definition requiredCases : list (option (list (string * string)) * bool) :=
  [(Some [(annTopology, "dedicated-request-serving-components"); (annAutoScaling, "true")],
    true);
   (Some [(annAutoScaling, "true")], false);
   (Some [(annTopology, "dedicated-request-serving-components")], false);
   (Some [(annTopology, "wrong-value"); (annAutoScaling, "true")], false);
   (Some [(annTopology, "dedicated-request-serving-components"); (annAutoScaling, "false")],
    false);
   (None, false);
   (Some [], false)].

(** The audit of [TestApplyFilter]. *)
Definition entry (id category : string) : hostedClusterAuditInfo :=
  {| ai_ClusterID := id; ai_ClusterName := ""; ai_Namespace := ""; ai_CurrentSize := "";
     ai_Category := category; ai_Labels := None; ai_Annotations := None |}.

Definition baseResults : auditResults :=
  {| ar_MgmtClusterID := "test-cluster";
     ar_TotalScanned := 6;
     ar_NeedsLabelRemoval := [entry "cluster1" "needs-removal"; entry "cluster2" "needs-removal"];
     ar_ReadyForMigration :=
       [entry "cluster3" "ready-for-migration"; entry "cluster4" "ready-for-migration";
        entry "cluster5" "ready-for-migration"];
     ar_AlreadyConfigured := [entry "cluster6" "already-configured"];
     ar_Errors := [] |}.

(** [TotalScanned], the sizes of the three buckets and the number of errors. *)
Definition sizes (r : string + auditResults) : option (nat * nat * nat * nat * nat) :=
  match r with
  | inl _ => None
  | inr r =>
      Some (ar_TotalScanned r, length (ar_NeedsLabelRemoval r),
            length (ar_ReadyForMigration r), length (ar_AlreadyConfigured r),
            length (ar_Errors r))
  end.

End Fixture.

(** ** Further vocabulary *)
(** The record an audit entry was made from: its name, labels and
    annotations. *)
Definition recordOf (info : hostedClusterAuditInfo) : HostedCluster :=
  {| hc_Name := ai_ClusterName info;
     hc_Labels := ai_Labels info;
     hc_Annotations := ai_Annotations info |}.

(** [TotalScanned] is the sum of the sizes of the three buckets. *)
Definition totalIsSum (r : auditResults) : Prop :=
  ar_TotalScanned r =
    length (ar_NeedsLabelRemoval r) + length (ar_ReadyForMigration r)
    + length (ar_AlreadyConfigured r).

(** A [Get] of a ManifestWork. *)
Definition isServiceGet (e : Effect) : bool :=
  match e with
  | EServiceGet _ _ => true
  | _ => false
  end.

(** An [Update] of a ManifestWork. *)
Definition isServiceUpdate (e : Effect) : bool :=
  match e with
  | EServiceUpdate _ => true
  | _ => false
  end.

(** A [Get] of a record from the management cluster. *)
Definition isMgmtGet (e : Effect) : bool :=
  match e with
  | EMgmtGet _ _ => true
  | _ => false
  end.

(** A [select]. *)
Definition isSelect (e : Effect) : bool :=
  match e with
  | ESelect => true
  | _ => false
  end.

(** [select] takes the tick of the event. *)
Definition tickTaken (e : Event) : bool :=
  match chosen e with
  | CaseTick _ => true
  | CaseDone => false
  end.

(** The ManifestWork sent back by [patchManifestWork]: the one fetched, with
    its manifests replaced. *)
Definition withManifests (mw : ManifestWork) (manifests : list Manifest) : ManifestWork :=
  {| mw_Name := mw_Name mw; mw_Namespace := mw_Namespace mw; mw_Manifests := manifests |}.

(** What is asked of [sort.Slice] when it sorts candidates by identifier:
    the slice it leaves holds the same elements, and no element is less than
    the one before it. *)
Definition sortsByClusterID (S : GoSort) : Prop :=
  forall l : list hostedClusterAuditInfo,
    sort_Slice lessByClusterID l ≡ₚ l
    /\ Sorted (fun x y => lessByClusterID y x = false) (sort_Slice lessByClusterID l).

(** Further inputs. *)
Module Sample.

(** The service cluster holds the ManifestWork of [cluster3] and accepts one
    update. *)
Definition found : World :=
  {| w_now := 0;
     w_serviceGet :=
       [inr {| mw_Name := "cluster3"; mw_Namespace := "test-mgmt-cluster";
               mw_Manifests := Fixture.manifests |}];
     w_serviceUpdate := [None];
     w_events := [];
     w_trace := [] |}.

(** A ticker that fires every 15 s, 25 times; each fetch returns at once and
    never shows the annotations. *)
Definition steady : World :=
  Scenario.polling
    ((fun k => TickC (Scenario.tick (15 * k) (inr Scenario.hcPlain) (15 * k)))
       <$> seqZ 1 25).

(** What the audit of the fixture returns under a filter. *)
Definition results (filter : string) : auditResults :=
  match run (Fixture.audit filter) with
  | inr results => results
  | inl _ =>
      {| ar_MgmtClusterID := ""; ar_TotalScanned := 0; ar_NeedsLabelRemoval := [];
         ar_ReadyForMigration := []; ar_AlreadyConfigured := []; ar_Errors := [] |}
  end.

(** The candidates found on the management cluster of the fixture. *)
Definition candidates : list hostedClusterAuditInfo :=
  match getCandidatesForMigration "test-cluster" Fixture.cluster with
  | inr candidates => candidates
  | inl _ => []
  end.

(** The batch of the fixture, run with the reference library. *)
Definition migrated : list migrationResult * World :=
  match migrateClusters (L := Reference.lib) Scenario.opts
          [Fixture.missing; Scenario.info] Fixture.batch with
  | Some out => out
  | None => ([], Fixture.batch)
  end.

(** The world of the batch once its first candidate has failed. *)
Definition second : World :=
  logged (EServiceGet "test-mgmt-cluster" "cluster4")
    (set_serviceGet (tail (w_serviceGet Fixture.batch)) Fixture.batch).

(** The migration of the second candidate of the batch. *)
Definition migratedSecond : migrationResult * World :=
  match migrateCluster (L := Reference.lib) Scenario.opts Scenario.info second with
  | Some out => out
  | None =>
      ({| mr_ClusterID := ""; mr_ClusterName := ""; mr_Status := ""; mr_Error := "";
          mr_VerifiedAt := "" |}, second)
  end.

(** The management cluster of the fixture, its namespaces listed in another
    order: the scan finds [cluster5] before [cluster3]. *)
Definition shuffled : Client :=
  {| List_Namespaces := inr ["ocm-staging-b3"; "ocm-production-c1"; "ocm-staging-b1"];
     List_HostedClusters := List_HostedClusters Fixture.cluster |}.

Definition shuffledCandidates : list hostedClusterAuditInfo :=
  match getCandidatesForMigration "test-cluster" shuffled with
  | inr candidates => candidates
  | inl _ => []
  end.

(** A service cluster that holds no ManifestWork. *)
Definition unreachable : World :=
  {| w_now := 0;
     w_serviceGet := [inl "not found"; inl "not found"];
     w_serviceUpdate := [];
     w_events := [];
     w_trace := [] |}.

(** A run of the migrate command that skips the confirmation. *)
Definition unattended : migrateFlags := {| dryRun := false; skipConfirmation := true |}.

Definition unattendedRun : runOutcome * World :=
  match migrateOpts_run (L := Reference.lib) (S := ReferenceSort.sort) Scenario.opts
          unattended "test-cluster" shuffled false unreachable with
  | Some out => out
  | None => ({| ro_error := None; ro_prompted := false; ro_results := None |}, unreachable)
  end.

End Sample.

(** * Properties *)

(** ** Reading maps *)

Lemma go_lookup_Some (m : option (gmap string string)) (k v : string) :
  default ∅ m !! k = Some v -> go_lookup m k = (v, true).
Proof.
  destruct m as [m|]; simpl.
  - intros ->. reflexivity.
  - rewrite lookup_empty. discriminate.
Qed.

Lemma go_lookup_None (m : option (gmap string string)) (k : string) :
  default ∅ m !! k = None -> go_lookup m k = ("", false).
Proof.
  destruct m as [m|]; simpl; [intros ->|]; reflexivity.
Qed.

Lemma streq_true (a b : string) : streq a b = true <-> a = b.
Proof. unfold streq. apply bool_decide_eq_true. Qed.

Lemma streq_false (a b : string) : streq a b = false <-> a <> b.
Proof. unfold streq. apply bool_decide_eq_false. Qed.

Lemma streq_refl (a : string) : streq a a = true.
Proof. apply streq_true. reflexivity. Qed.

(** [hasCorrectX]: the key is present and holds exactly the wanted value. *)
Lemma has_correct (m : option (gmap string string)) (k want : string) :
  (let '(v, has) := go_lookup m k in has && streq v want) = true
  <-> default ∅ m !! k = Some want.
Proof.
  destruct (default ∅ m !! k) as [v|] eqn:E.
  - rewrite (go_lookup_Some _ _ _ E). simpl. rewrite streq_true.
    split; [intros ->; reflexivity | intros [= ->]; reflexivity].
  - rewrite (go_lookup_None _ _ E). simpl. split; discriminate.
Qed.

(** ** The classifier *)

Lemma categorizeCluster_cases (hc : HostedCluster) :
  categorizeCluster hc =
    match annotationsOf hc !! annOverride with
    | Some _ => "needs-removal"
    | None =>
        if bool_decide (annotationsOf hc !! annTopology = Some valTopology
                        /\ annotationsOf hc !! annAutoScaling = Some valAutoScaling)
        then "already-configured" else "ready-for-migration"
    end.
Proof.
  unfold categorizeCluster, annotationsOf.
  destruct (default ∅ (hc_Annotations hc) !! annOverride) as [o|] eqn:Eo.
  - rewrite (go_lookup_Some _ _ _ Eo). reflexivity.
  - rewrite (go_lookup_None _ _ Eo).
    pose proof (has_correct (hc_Annotations hc) annTopology valTopology) as Ht.
    pose proof (has_correct (hc_Annotations hc) annAutoScaling valAutoScaling) as Ha.
    destruct (go_lookup (hc_Annotations hc) annTopology) as [t ht].
    destruct (go_lookup (hc_Annotations hc) annAutoScaling) as [s hs].
    case_bool_decide as Hd.
    + destruct Hd as [H1 H2]. apply Ht in H1. apply Ha in H2. rewrite H1, H2. reflexivity.
    + destruct (ht && streq t valTopology) eqn:E1; [|reflexivity].
      destruct (hs && streq s valAutoScaling) eqn:E2; [|reflexivity].
      exfalso. apply Hd. split; [apply Ht | apply Ha]; reflexivity.
Qed.

(** C1. The classifier is total and follows a strict priority: an override
    key, whatever its value and whatever the other keys, gives
    "needs-removal"; without it, topology and auto-scaling holding exactly
    the two required strings give "already-configured"; anything else,
    a [nil] or an empty map included, gives "ready-for-migration". *)
Theorem categorizeCluster_priority :
  forall hc : HostedCluster,
    (forall v, annotationsOf hc !! annOverride = Some v ->
       categorizeCluster hc = "needs-removal")
    /\ (annotationsOf hc !! annOverride = None ->
        annotationsOf hc !! annTopology = Some valTopology ->
        annotationsOf hc !! annAutoScaling = Some valAutoScaling ->
        categorizeCluster hc = "already-configured")
    /\ (annotationsOf hc !! annOverride = None ->
        annotationsOf hc !! annTopology <> Some valTopology
        \/ annotationsOf hc !! annAutoScaling <> Some valAutoScaling ->
        categorizeCluster hc = "ready-for-migration")
    /\ (hc_Annotations hc = None \/ hc_Annotations hc = Some ∅ ->
        categorizeCluster hc = "ready-for-migration").
Proof.
  intros hc. rewrite categorizeCluster_cases.
  repeat split.
  - intros v ->. reflexivity.
  - intros -> Ht Ha. rewrite bool_decide_eq_true_2; [reflexivity | split; assumption].
  - intros -> Hne. rewrite bool_decide_eq_false_2; [reflexivity |].
    intros [Ht Ha]. destruct Hne as [Hne | Hne]; apply Hne; assumption.
  - unfold annotationsOf. intros [-> | ->]; simpl; rewrite !lookup_empty;
      rewrite bool_decide_eq_false_2; try reflexivity; intros [? _]; discriminate.
Qed.

(** The three cases of C1, each on a concrete record: an override with the
    empty string as value beside the two required annotations; the two
    required annotations alone; a value that differs in case only. *)
Lemma categorizeCluster_priority_witness :
  categorizeCluster
    {| hc_Name := "a"; hc_Labels := None;
       hc_Annotations := Some (<[annOverride := ""]>
         (<[annTopology := valTopology]> {[annAutoScaling := valAutoScaling]})) |}
    = "needs-removal"
  /\ categorizeCluster
    {| hc_Name := "b"; hc_Labels := None;
       hc_Annotations := Some (<[annTopology := valTopology]>
                                 {[annAutoScaling := valAutoScaling]}) |}
    = "already-configured"
  /\ categorizeCluster
    {| hc_Name := "c"; hc_Labels := None;
       hc_Annotations := Some (<[annTopology := valTopology]>
                                 {[annAutoScaling := "True"]}) |}
    = "ready-for-migration"
  /\ categorizeCluster {| hc_Name := "d"; hc_Labels := None; hc_Annotations := None |}
    = "ready-for-migration".
Proof.
  split; [|split; [|split]].
  - apply (proj1 (categorizeCluster_priority _) ""). reflexivity.
  - apply (proj1 (proj2 (categorizeCluster_priority _))); reflexivity.
  - apply (proj1 (proj2 (proj2 (categorizeCluster_priority _)))); [reflexivity |].
    right. unfold annotationsOf. simpl. vm_compute. discriminate.
  - apply (proj2 (proj2 (proj2 (categorizeCluster_priority _)))). left. reflexivity.
Defined.

(** ** The verifier's predicate *)

(** C2. The verifier's predicate is rule 2 of the classifier: it holds
    exactly when topology and auto-scaling hold the two required strings, and
    so, on a record without the override key, exactly when the classifier
    answers "already-configured". *)
Theorem hasRequiredAnnotations_is_rule2 :
  forall hc : HostedCluster,
    (hasRequiredAnnotations hc = true <->
       annotationsOf hc !! annTopology = Some valTopology
       /\ annotationsOf hc !! annAutoScaling = Some valAutoScaling)
    /\ (annotationsOf hc !! annOverride = None ->
        (categorizeCluster hc = "already-configured" <-> hasRequiredAnnotations hc = true)).
Proof.
  intros hc.
  assert (Hreq : hasRequiredAnnotations hc = true <->
       annotationsOf hc !! annTopology = Some valTopology
       /\ annotationsOf hc !! annAutoScaling = Some valAutoScaling).
  { unfold hasRequiredAnnotations, annotationsOf.
    pose proof (has_correct (hc_Annotations hc) annTopology valTopology) as Ht.
    pose proof (has_correct (hc_Annotations hc) annAutoScaling valAutoScaling) as Ha.
    destruct (hc_Annotations hc) as [m|] eqn:Em.
    - destruct (go_lookup (Some m) annTopology) as [t ht].
      destruct (go_lookup (Some m) annAutoScaling) as [s hs].
      rewrite <- Ht, <- Ha, <- andb_assoc, andb_true_iff. reflexivity.
    - simpl. rewrite lookup_empty. split; [discriminate | intros [? _]; discriminate]. }
  split; [exact Hreq |].
  intros Ho. rewrite Hreq, categorizeCluster_cases, Ho.
  case_bool_decide as Hd; split; try discriminate; try tauto.
Qed.

Lemma hasRequiredAnnotations_is_rule2_witness :
  let hc := {| hc_Name := "b"; hc_Labels := None;
               hc_Annotations := Some (<[annTopology := valTopology]>
                                         {[annAutoScaling := valAutoScaling]}) |} in
  hasRequiredAnnotations hc = true /\ categorizeCluster hc = "already-configured".
Proof.
  intros hc. split.
  - apply (proj1 (hasRequiredAnnotations_is_rule2 hc)). split; reflexivity.
  - apply (proj2 (hasRequiredAnnotations_is_rule2 hc)); reflexivity.
Defined.

(** ** Filtering *)

(** C9. Filtering an audit by one of the two valid categories keeps that
    bucket alone, the other two being empty, sets [TotalScanned] to the size
    of the bucket kept, and carries the error list and the identity of the
    management cluster over unchanged. *)
Theorem applyFilter_keeps_one_bucket :
  forall results : auditResults,
    applyFilter "needs-removal" results =
      {| ar_MgmtClusterID := ar_MgmtClusterID results;
         ar_TotalScanned := length (ar_NeedsLabelRemoval results);
         ar_NeedsLabelRemoval := ar_NeedsLabelRemoval results;
         ar_ReadyForMigration := [];
         ar_AlreadyConfigured := [];
         ar_Errors := ar_Errors results |}
    /\ applyFilter "ready-for-migration" results =
      {| ar_MgmtClusterID := ar_MgmtClusterID results;
         ar_TotalScanned := length (ar_ReadyForMigration results);
         ar_NeedsLabelRemoval := [];
         ar_ReadyForMigration := ar_ReadyForMigration results;
         ar_AlreadyConfigured := [];
         ar_Errors := ar_Errors results |}.
Proof.
  intros results. split; reflexivity.
Qed.

(** Any other value of the filter leaves the audit as it is. *)
Lemma applyFilter_other (f : string) (results : auditResults) :
  f <> "needs-removal" -> f <> "ready-for-migration" -> applyFilter f results = results.
Proof.
  intros H1 H2. unfold applyFilter.
  apply streq_false in H1. apply streq_false in H2. rewrite H1, H2. reflexivity.
Qed.

(** ** The scan *)

Lemma categorizeCluster_total (hc : HostedCluster) :
  categorizeCluster hc = "needs-removal"
  \/ categorizeCluster hc = "ready-for-migration"
  \/ categorizeCluster hc = "already-configured".
Proof.
  rewrite categorizeCluster_cases.
  destruct (annotationsOf hc !! annOverride); [tauto |].
  case_bool_decide; tauto.
Qed.

Lemma auditNamespace_category (a : auditOpts) (ns : string) (info : hostedClusterAuditInfo) :
  auditNamespace a ns = inr info ->
  ai_Category info = "needs-removal"
  \/ ai_Category info = "ready-for-migration"
  \/ ai_Category info = "already-configured".
Proof.
  unfold auditNamespace.
  destruct (getHostedClusterInNamespace a ns) as [err | hc]; [discriminate |].
  intros [= <-]. simpl. apply categorizeCluster_total.
Qed.

(** The loop of the scan, from any state of the results. *)
Lemma scan_loop (a : auditOpts) (namespaces : list string) (r : auditResults) :
  fold_left (scanStep a) namespaces r =
    {| ar_MgmtClusterID := ar_MgmtClusterID r;
       ar_TotalScanned := ar_TotalScanned r;
       ar_NeedsLabelRemoval :=
         ar_NeedsLabelRemoval r ++ omap (entryOf a "needs-removal") namespaces;
       ar_ReadyForMigration :=
         ar_ReadyForMigration r ++ omap (entryOf a "ready-for-migration") namespaces;
       ar_AlreadyConfigured :=
         ar_AlreadyConfigured r ++ omap (entryOf a "already-configured") namespaces;
       ar_Errors := ar_Errors r ++ omap (errorOf a) namespaces |}.
Proof.
  revert r. induction namespaces as [| ns rest IH]; intros r.
  - simpl. rewrite !app_nil_r. destruct r; reflexivity.
  - simpl fold_left. rewrite IH. clear IH.
    unfold scanStep, entryOf, errorOf. simpl omap.
    destruct (auditNamespace a ns) as [err | info] eqn:E.
    + simpl. rewrite <- app_assoc. reflexivity.
    + destruct (auditNamespace_category _ _ _ E) as [H | [H | H]]; rewrite H; simpl;
        rewrite <- ?app_assoc; reflexivity.
Qed.

Lemma omap_cons {A B} (f : A -> option B) (x : A) (l : list A) :
  omap f (x :: l) = match f x with Some y => y :: omap f l | None => omap f l end.
Proof. reflexivity. Qed.

(** A namespace lands in exactly one of the four lists. *)
Lemma scan_one_place (a : auditOpts) (ns : string) :
  let slots := (errorOf a ns, entryOf a "needs-removal" ns,
                entryOf a "ready-for-migration" ns, entryOf a "already-configured" ns) in
  (exists e, slots = (Some e, None, None, None))
  \/ (exists i, slots = (None, Some i, None, None))
  \/ (exists i, slots = (None, None, Some i, None))
  \/ (exists i, slots = (None, None, None, Some i)).
Proof.
  unfold errorOf, entryOf.
  destruct (auditNamespace a ns) as [err | info] eqn:E.
  - left. eexists. reflexivity.
  - right. destruct (auditNamespace_category _ _ _ E) as [H | [H | H]]; rewrite H.
    + left. eexists. reflexivity.
    + right. left. eexists. reflexivity.
    + right. right. eexists. reflexivity.
Qed.

Lemma omap_length_split (a : auditOpts) (namespaces : list string) :
  length (omap (entryOf a "needs-removal") namespaces)
  + length (omap (entryOf a "ready-for-migration") namespaces)
  + length (omap (entryOf a "already-configured") namespaces)
  + length (omap (errorOf a) namespaces)
  = length namespaces.
Proof.
  induction namespaces as [| ns rest IH]; [reflexivity |].
  rewrite !omap_cons.
  destruct (scan_one_place a ns) as [[x H] | [[x H] | [[x H] | [x H]]]];
    injection H as -> -> -> ->; simpl; lia.
Qed.

(** C8. A namespace whose listing holds no record, or more than one, makes
    [auditNamespace] fail with the message of its case; every failing
    namespace adds exactly one entry, under its own name, to the error list,
    and the namespaces after it are still audited: the error list and the
    three buckets are built namespace by namespace, in order.
    [TotalScanned] is the sum of the sizes of the three buckets, and with the
    number of errors it adds up to the number of namespaces: a failing
    namespace is not counted as scanned. The namespaces an unfiltered [run]
    scans are those that match the pattern. *)
Theorem scan_isolates_errors :
  forall (a : auditOpts) (namespaces : list string),
    let results := scan a namespaces in
    (forall ns, List_HostedClusters (mgmtClient a) ns = inr [] ->
       errorOf a ns = Some {| ae_Namespace := ns; ae_Error := "no HostedCluster found" |})
    /\ (forall ns hc1 hc2 more,
          List_HostedClusters (mgmtClient a) ns = inr (hc1 :: hc2 :: more) ->
          errorOf a ns =
            Some {| ae_Namespace := ns;
                    ae_Error := "found " +:+ pretty (2 + length more)
                                +:+ " HostedClusters, expected 1" |})
    /\ ar_Errors results = omap (errorOf a) namespaces
    /\ ar_NeedsLabelRemoval results = omap (entryOf a "needs-removal") namespaces
    /\ ar_ReadyForMigration results = omap (entryOf a "ready-for-migration") namespaces
    /\ ar_AlreadyConfigured results = omap (entryOf a "already-configured") namespaces
    /\ ar_TotalScanned results =
         length (ar_NeedsLabelRemoval results)
         + length (ar_ReadyForMigration results)
         + length (ar_AlreadyConfigured results)
    /\ ar_TotalScanned results + length (ar_Errors results) = length namespaces
    /\ (forall items,
          List_Namespaces (mgmtClient a) = inr items ->
          showOnly a = "" ->
          run a = inr (scan a (filter (fun ns => ocmNamespacePattern_MatchString ns = true)
                                 items))).
Proof.
  intros a namespaces results.
  assert (Hr : results = scan a namespaces) by reflexivity.
  unfold scan in Hr. rewrite scan_loop in Hr. simpl in Hr.
  split; [| split].
  - intros ns Hl. unfold errorOf, auditNamespace, getHostedClusterInNamespace.
    rewrite Hl. reflexivity.
  - intros ns hc1 hc2 more Hl. unfold errorOf, auditNamespace, getHostedClusterInNamespace.
    rewrite Hl. reflexivity.
  - rewrite Hr. simpl. repeat split; try reflexivity.
    + apply omap_length_split.
    + intros items Hl Hs. unfold run, listOcmNamespaces. rewrite Hl, Hs. reflexivity.
Qed.

(** ** The patcher *)

Lemma annotation_keys_differ : annTopology <> annAutoScaling.
Proof. discriminate. Qed.

Lemma addAnnotations_unfold (manifestData : gmap string json) :
  addAnnotations manifestData =
    <["metadata" :=
        JObject (<["annotations" := JObject (patchedAnnotations manifestData)]>
                   (metadataOf manifestData))]> manifestData.
Proof.
  unfold addAnnotations, patchedAnnotations, annotationsIn, metadataOf.
  destruct (objectAt manifestData "metadata") as [md|]; simpl;
    [destruct (objectAt md "annotations") | destruct (objectAt ∅ "annotations")];
    reflexivity.
Qed.

Lemma objectAt_insert (m o : gmap string json) (k : string) :
  objectAt (<[k := JObject o]> m) k = Some o.
Proof. unfold objectAt. rewrite lookup_insert_eq. reflexivity. Qed.

Lemma kindOf_addAnnotations (manifestData : gmap string json) :
  kindOf (addAnnotations manifestData) = kindOf manifestData.
Proof.
  rewrite addAnnotations_unfold. unfold kindOf.
  rewrite lookup_insert_ne; [reflexivity | discriminate].
Qed.

(** Writing the two annotations again changes nothing. *)
Lemma addAnnotations_idempotent (manifestData : gmap string json) :
  addAnnotations (addAnnotations manifestData) = addAnnotations manifestData.
Proof.
  rewrite (addAnnotations_unfold (addAnnotations manifestData)).
  assert (Hmd : metadataOf (addAnnotations manifestData) =
                <["annotations" := JObject (patchedAnnotations manifestData)]>
                  (metadataOf manifestData)).
  { rewrite addAnnotations_unfold. unfold metadataOf at 1.
    rewrite objectAt_insert. reflexivity. }
  assert (Han : patchedAnnotations (addAnnotations manifestData) =
                patchedAnnotations manifestData).
  { unfold patchedAnnotations at 1, annotationsIn. rewrite Hmd, objectAt_insert. simpl.
    unfold patchedAnnotations.
    pose proof annotation_keys_differ as Hne.
    apply map_eq. intros k. rewrite !lookup_insert.
    repeat case_decide; subst; congruence. }
  rewrite Han, Hmd, insert_insert_eq.
  rewrite addAnnotations_unfold, insert_insert_eq. reflexivity.
Qed.

Section PatcherFacts.
Context {L : GoLib}.

Lemma patchLoop_skipped (manifests : list Manifest) :
  Forall skipped manifests -> patchLoop manifests = inr (false, manifests).
Proof.
  induction 1 as [| manifest rest Hs _ IH]; [reflexivity |].
  simpl. rewrite IH. unfold skipped, isHostedCluster in Hs.
  destruct (Raw manifest) as [raw|]; [| reflexivity].
  destruct (json_Unmarshal raw) as [manifestData|]; [| reflexivity].
  rewrite Hs. reflexivity.
Qed.

Lemma patchLoop_first (pre post : list Manifest) (raw : list byte)
    (manifestData : gmap string json) :
  Forall skipped pre ->
  json_Unmarshal raw = Some manifestData ->
  kindOf manifestData = "HostedCluster" ->
  patchLoop (pre ++ {| Raw := Some raw |} :: post) =
    match json_Marshal (addAnnotations manifestData) with
    | inl err => inl ("failed to marshal modified manifest: " +:+ err)
    | inr jsonData => inr (true, pre ++ {| Raw := Some jsonData |} :: post)
    end.
Proof.
  intros Hpre Hraw Hkind.
  induction Hpre as [| manifest rest Hs _ IH].
  - simpl. rewrite Hraw, Hkind. simpl.
    destruct (json_Marshal (addAnnotations manifestData)); reflexivity.
  - simpl. rewrite IH. unfold skipped, isHostedCluster in Hs.
    assert (Hcont :
      match json_Marshal (addAnnotations manifestData) with
      | inl err => inl ("failed to marshal modified manifest: " +:+ err)
      | inr jsonData =>
          inr (true, manifest :: rest ++ {| Raw := Some jsonData |} :: post)
      end =
      match
        match json_Marshal (addAnnotations manifestData) with
        | inl err => inl ("failed to marshal modified manifest: " +:+ err)
        | inr jsonData => inr (true, rest ++ {| Raw := Some jsonData |} :: post)
        end
      with
      | inl err => inl err
      | inr (modified, rest') => inr (modified, manifest :: rest')
      end :> string + (bool * list Manifest)).
    { destruct (json_Marshal (addAnnotations manifestData)); reflexivity. }
    destruct (Raw manifest) as [raw'|]; [| symmetry; exact Hcont].
    destruct (json_Unmarshal raw') as [manifestData'|]; [| symmetry; exact Hcont].
    rewrite Hs. simpl. symmetry; exact Hcont.
Qed.

(** Every list of manifests either has no HostedCluster element or splits
    around its first one. *)
Lemma first_HostedCluster (manifests : list Manifest) :
  Forall skipped manifests
  \/ exists pre raw manifestData post,
       manifests = pre ++ {| Raw := Some raw |} :: post
       /\ Forall skipped pre
       /\ json_Unmarshal raw = Some manifestData
       /\ kindOf manifestData = "HostedCluster".
Proof.
  induction manifests as [| manifest rest IH]; [left; constructor |].
  destruct (isHostedCluster manifest) eqn:E.
  - right. unfold isHostedCluster in E. destruct manifest as [[raw|]]; simpl in E;
      [| discriminate].
    destruct (json_Unmarshal raw) as [manifestData|] eqn:Er; [| discriminate].
    exists [], raw, manifestData, rest. repeat split; try assumption.
    + constructor.
    + apply streq_true. exact E.
  - destruct IH as [IH | (pre & raw & manifestData & post & -> & Hpre & Hraw & Hkind)].
    + left. constructor; assumption.
    + right. exists (manifest :: pre), raw, manifestData, post.
      repeat split; try assumption. constructor; assumption.
Qed.

(** C3. The patch fails with the not-found error exactly when no element
    holds bytes that decode to an object of kind "HostedCluster" (an element
    without bytes, or whose bytes do not decode, is passed over). Otherwise
    the first such element, and no other, is replaced by the encoding of
    its document with the two annotations written, whatever stands after it
    in the list. In the document written, metadata and annotations are
    objects (created when they were missing), the two keys hold the two
    required strings whatever they held before, and every other annotation,
    every other entry of the metadata and every other top-level entry is as
    it was. *)
Theorem patchManifests_first_match :
  forall manifests : list Manifest,
    (patchManifests manifests = inl notFound <-> Forall skipped manifests)
    /\ (forall pre raw manifestData post jsonData,
          manifests = pre ++ {| Raw := Some raw |} :: post ->
          Forall skipped pre ->
          json_Unmarshal raw = Some manifestData ->
          kindOf manifestData = "HostedCluster" ->
          json_Marshal (addAnnotations manifestData) = inr jsonData ->
          patchManifests manifests = inr (pre ++ {| Raw := Some jsonData |} :: post))
    /\ (forall manifestData,
          exists metadata annotations,
            addAnnotations manifestData !! "metadata" = Some (JObject metadata)
            /\ metadata !! "annotations" = Some (JObject annotations)
            /\ annotations !! annTopology = Some (JString valTopology)
            /\ annotations !! annAutoScaling = Some (JString valAutoScaling)
            /\ (forall k, k <> annTopology -> k <> annAutoScaling ->
                  annotations !! k = annotationsIn manifestData !! k)
            /\ (forall k, k <> "annotations" ->
                  metadata !! k = metadataOf manifestData !! k)
            /\ (forall k, k <> "metadata" ->
                  addAnnotations manifestData !! k = manifestData !! k)).
Proof.
  intros manifests. split; [| split].
  - split.
    + intros Hnf.
      destruct (first_HostedCluster manifests)
        as [Hall | (pre & raw & manifestData & post & -> & Hpre & Hraw & Hkind)];
        [exact Hall |].
      exfalso. unfold patchManifests in Hnf.
      rewrite (patchLoop_first _ _ _ _ Hpre Hraw Hkind) in Hnf.
      destruct (json_Marshal (addAnnotations manifestData)); simpl in Hnf; discriminate.
    + intros Hall. unfold patchManifests. rewrite (patchLoop_skipped _ Hall). reflexivity.
  - intros pre raw manifestData post jsonData -> Hpre Hraw Hkind Hm.
    unfold patchManifests. rewrite (patchLoop_first _ _ _ _ Hpre Hraw Hkind), Hm.
    reflexivity.
  - intros manifestData. rewrite addAnnotations_unfold.
    eexists _, _. split; [apply lookup_insert_eq |].
    split; [apply lookup_insert_eq |].
    pose proof annotation_keys_differ as Hne.
    unfold patchedAnnotations. repeat split.
    + rewrite lookup_insert_ne by congruence. apply lookup_insert_eq.
    + apply lookup_insert_eq.
    + intros k H1 H2. rewrite !lookup_insert_ne by congruence. reflexivity.
    + intros k H1. rewrite lookup_insert_ne by congruence. reflexivity.
    + intros k H1. rewrite lookup_insert_ne by congruence. reflexivity.
Qed.

(** C4. Patching a list that has already been patched writes the same bytes
    again: when the codec reads back the document it has written for the
    patched element, a second patch answers with the list the first one
    produced. *)
Theorem patchManifests_idempotent :
  forall (pre post : list Manifest) (raw jsonData : list byte)
         (manifestData : gmap string json),
    Forall skipped pre ->
    json_Unmarshal raw = Some manifestData ->
    kindOf manifestData = "HostedCluster" ->
    json_Marshal (addAnnotations manifestData) = inr jsonData ->
    json_Unmarshal jsonData = Some (addAnnotations manifestData) ->
    let patched := pre ++ {| Raw := Some jsonData |} :: post in
    patchManifests (pre ++ {| Raw := Some raw |} :: post) = inr patched
    /\ patchManifests patched = inr patched.
Proof.
  intros pre post raw jsonData manifestData Hpre Hraw Hkind Hm Hback patched.
  split.
  - unfold patchManifests. rewrite (patchLoop_first _ _ _ _ Hpre Hraw Hkind), Hm.
    reflexivity.
  - unfold patchManifests, patched.
    rewrite (patchLoop_first pre post jsonData (addAnnotations manifestData) Hpre Hback).
    + rewrite addAnnotations_idempotent, Hm. reflexivity.
    + rewrite kindOf_addAnnotations. exact Hkind.
Qed.

End PatcherFacts.

(** ** The verifier *)

Lemma handled_events info e w : w_events (handled info e w) = tail (w_events w).
Proof.
  unfold handled. destruct (chosen e) as [| t]; [reflexivity |].
  destruct (satisfied t); reflexivity.
Qed.

Lemma handled_trace info e w :
  w_trace (handled info e w) = w_trace w ++ effectsOf info e.
Proof.
  unfold handled, effectsOf. destruct (chosen e) as [| t]; [reflexivity |].
  destruct (satisfied t); simpl; rewrite <- ?app_assoc; reflexivity.
Qed.

Lemma handled_service info e w :
  w_serviceGet (handled info e w) = w_serviceGet w
  /\ w_serviceUpdate (handled info e w) = w_serviceUpdate w.
Proof.
  unfold handled. destruct (chosen e) as [| t]; [split; reflexivity |].
  destruct (satisfied t); split; reflexivity.
Qed.

Lemma polled_events info pre w rest :
  w_events w = pre ++ rest -> w_events (polled info pre w) = rest.
Proof.
  revert w. induction pre as [| e pre IH]; intros w Hw; [exact Hw |].
  simpl. apply IH. rewrite handled_events, Hw. reflexivity.
Qed.

Lemma polled_trace info pre w :
  w_trace (polled info pre w) = w_trace w ++ flat_map (effectsOf info) pre.
Proof.
  revert w. induction pre as [| e pre IH]; intros w.
  - simpl. rewrite app_nil_r. reflexivity.
  - simpl. rewrite IH, handled_trace, <- app_assoc. reflexivity.
Qed.

(** One iteration of the loop. *)
Lemma waitLoop_step fuel deadline info w e rest :
  w_events w = e :: rest ->
  waitLoop (S fuel) deadline info w =
    if keepsPolling deadline e then waitLoop fuel deadline info (handled info e w)
    else Some (verdict e, handled info e w).
Proof.
  intros Hw. simpl. unfold bind, select, keepsPolling, verdict, handled, satisfied.
  rewrite Hw. simpl tail.
  destruct (chosen e) as [| t]; [reflexivity |].
  unfold getHostedClusterFromMgmt, mgmtClient_Get.
  destruct (fetched t) as [err | hc].
  - unfold time_Now. simpl. destruct (returned_at t >? deadline)%Z; reflexivity.
  - destruct (hasRequiredAnnotations hc); [reflexivity |].
    unfold time_Now. simpl. destruct (returned_at t >? deadline)%Z; reflexivity.
Qed.

Lemma waitLoop_polls deadline info pre :
  forall fuel w rest,
    w_events w = pre ++ rest ->
    Forall (fun e => keepsPolling deadline e = true) pre ->
    waitLoop (length pre + fuel) deadline info w =
      waitLoop fuel deadline info (polled info pre w).
Proof.
  induction pre as [| e pre IH]; intros fuel w rest Hw Hpre; [reflexivity |].
  inversion Hpre as [| ? ? He Hpre']; subst.
  simpl length. simpl Nat.add.
  rewrite (waitLoop_step _ _ _ _ e (pre ++ rest) Hw), He.
  simpl polled. apply (IH _ _ rest); [| exact Hpre'].
  rewrite handled_events, Hw. reflexivity.
Qed.

(** As long as every event keeps the loop polling, nothing is returned. *)
Lemma waitLoop_blocked deadline info :
  forall fuel w,
    Forall (fun e => keepsPolling deadline e = true) (w_events w) ->
    waitLoop fuel deadline info w = None.
Proof.
  induction fuel as [| fuel IH]; intros w Hall; [reflexivity |].
  destruct (w_events w) as [| e rest] eqn:Hw.
  - simpl. unfold bind, select. rewrite Hw. reflexivity.
  - inversion Hall as [| ? ? He Hrest]; subst.
    rewrite (waitLoop_step _ _ _ _ e rest Hw), He.
    apply IH. rewrite handled_events, Hw. exact Hrest.
Qed.

(** A list of events either keeps the loop polling throughout or splits
    around the first event that ends the polling. *)
Lemma first_ending deadline (events : list Event) :
  Forall (fun e => keepsPolling deadline e = true) events
  \/ exists pre e post,
       events = pre ++ e :: post
       /\ Forall (fun e' => keepsPolling deadline e' = true) pre
       /\ keepsPolling deadline e = false.
Proof.
  induction events as [| e rest IH]; [left; constructor |].
  destruct (keepsPolling deadline e) eqn:He.
  - destruct IH as [IH | (pre & e' & post & -> & Hpre & He')].
    + left. constructor; assumption.
    + right. exists (e :: pre), e', post. repeat split; try assumption.
      constructor; assumption.
  - right. exists [], e, rest. repeat split; [constructor | exact He].
Qed.

(** The loop stops at the first event that ends the polling. *)
Lemma waitLoop_ends deadline info pre e post fuel w :
  w_events w = pre ++ e :: post ->
  Forall (fun e' => keepsPolling deadline e' = true) pre ->
  keepsPolling deadline e = false ->
  waitLoop (length pre + S fuel) deadline info w =
    Some (verdict e, handled info e (polled info pre w)).
Proof.
  intros Hw Hpre He.
  rewrite (waitLoop_polls _ _ pre _ _ (e :: post)); [| exact Hw | exact Hpre].
  rewrite (waitLoop_step _ _ _ _ e post), He; [reflexivity |].
  apply polled_events. exact Hw.
Qed.

(** The bound on the iterations that [waitForSync] passes is never what stops
    the loop: any larger one gives the same run. *)
Lemma waitLoop_fuel deadline info fuel w :
  length (w_events w) < fuel ->
  waitLoop fuel deadline info w = waitLoop (S (length (w_events w))) deadline info w.
Proof.
  intros Hfuel.
  destruct (first_ending deadline (w_events w))
    as [Hall | (pre & e & post & Hw & Hpre & He)].
  - rewrite !waitLoop_blocked by exact Hall. reflexivity.
  - rewrite Hw in Hfuel |- *. rewrite length_app in Hfuel |- *. simpl length in *.
    replace fuel with (length pre + S (fuel - length pre - 1)) by lia.
    replace (S (length pre + S (length post))) with (length pre + S (S (length post)))
      by lia.
    rewrite !(waitLoop_ends _ _ pre e post) by assumption. reflexivity.
Qed.

(** The run of the verifier up to the first event that ends the polling. *)
Lemma waitForSync_run m info w pre e post :
  w_events w = pre ++ e :: post ->
  Forall (fun e' => keepsPolling (w_now w + timeout) e' = true) pre ->
  keepsPolling (w_now w + timeout) e = false ->
  waitForSync m info w =
    Some (verdict e, handled info e (polled info pre (logged ENow w))).
Proof.
  intros Hw Hpre He. unfold waitForSync, bind, time_Now.
  change (w_events (logged ENow w)) with (w_events w). rewrite Hw.
  rewrite length_app. simpl length.
  replace (S (length pre + S (length post))) with (length pre + S (S (length post))) by lia.
  rewrite (waitLoop_polls _ _ pre _ _ (e :: post)); [| exact Hw | exact Hpre].
  rewrite (waitLoop_step _ _ _ _ e post), He; [reflexivity |].
  apply polled_events. exact Hw.
Qed.

Lemma waitForSync_blocked m info w :
  Forall (fun e => keepsPolling (w_now w + timeout) e = true) (w_events w) ->
  waitForSync m info w = None.
Proof.
  intros Hall. unfold waitForSync, bind, time_Now.
  apply waitLoop_blocked. exact Hall.
Qed.

(** When every tick is handled no earlier than the cadence of the ticker
    allows (the fetch of the k-th event returns at least k poll intervals
    after the start), the verifier returns by the 21st event: by then the
    clock read after a failed or negative fetch is past the deadline. *)
Lemma waitForSync_returns m info w :
  21 <= length (w_events w) ->
  (forall k e t,
      w_events w !! k = Some e -> chosen e = CaseTick t ->
      (w_now w + Z.of_nat (S k) * pollInterval <= returned_at t)%Z) ->
  is_Some (waitForSync m info w).
Proof.
  intros Hlen Hcadence.
  destruct (first_ending (w_now w + timeout) (w_events w))
    as [Hall | (pre & e & post & Hw & Hpre & He)].
  - exfalso.
    destruct (lookup_lt_is_Some_2 (w_events w) 20) as [e He]; [lia |].
    pose proof (Forall_lookup_1 _ _ _ _ Hall He) as Hkeep. simpl in Hkeep.
    unfold keepsPolling in Hkeep.
    destruct (chosen e) as [| t] eqn:Hc; [discriminate |].
    apply andb_true_iff in Hkeep as [_ Hnot]. apply negb_true_iff in Hnot.
    rewrite Z.gtb_ltb in Hnot. apply Z.ltb_ge in Hnot.
    pose proof (Hcadence 20 e t He Hc) as Hlate.
    unfold timeout, pollInterval, Minute, Second in *. lia.
  - rewrite (waitForSync_run _ _ _ _ _ _ Hw Hpre He). eexists. reflexivity.
Qed.

(** Whatever the verifier returns, it returns it for the first event that
    ends the polling. *)
Lemma waitForSync_inv m info w r w' :
  waitForSync m info w = Some (r, w') ->
  exists pre e,
    w_events w = pre ++ e :: w_events w'
    /\ Forall (fun e' => keepsPolling (w_now w + timeout) e' = true) pre
    /\ keepsPolling (w_now w + timeout) e = false
    /\ r = verdict e
    /\ w' = handled info e (polled info pre (logged ENow w)).
Proof.
  intros Hrun.
  destruct (first_ending (w_now w + timeout) (w_events w))
    as [Hall | (pre & e & post & Hw & Hpre & He)].
  - rewrite (waitForSync_blocked _ _ _ Hall) in Hrun. discriminate.
  - rewrite (waitForSync_run _ _ _ _ _ _ Hw Hpre He) in Hrun.
    injection Hrun as <- <-. exists pre, e.
    rewrite handled_events, (polled_events info pre (logged ENow w) (e :: post) Hw).
    repeat split; assumption.
Qed.

(** C5, refuted as stated. In [lateSuccess] every fetch that returns before
    the deadline is unsatisfied, and the verifier answers with success, not
    with a timeout: the tick after the deadline is still fetched and shows
    the annotations. In [cancelledLate] the context is done when the last
    [select] runs, and the verifier answers with a timeout, not with the
    cancellation: a tick is pending too and [select] takes it. *)
Lemma waitForSync_outcome_counterexample :
  (forallb (unsatisfiedBefore (0 + timeout)) (w_events Scenario.lateSuccess) = true
   /\ fst <$> waitForSync Scenario.opts Scenario.info Scenario.lateSuccess = Some None)
  /\ (existsb ctxDone (w_events Scenario.cancelledLate) = true
      /\ fst <$> waitForSync Scenario.opts Scenario.info Scenario.cancelledLate
         = Some (Some "timeout waiting for sync after 5m0s")).
Proof.
  repeat split; vm_compute; reflexivity.
Qed.

(** C5, as the code has it. Up to the first event that ends the polling,
    every event is a tick whose fetch fails or does not show the annotations
    and returns no later than the deadline: such a tick sends the loop back
    to [select]. The event that ends the polling decides the answer: the
    cancellation error whenever [select] takes the context, the deadline
    not being looked at; success when the fetch of the tick shows the
    annotations, the deadline not being looked at either; one of the two
    timeout errors when the fetch fails or does not show the annotations and
    the clock read after it is past the deadline. The cancellation error
    differs from both timeout errors. *)
Theorem waitForSync_outcome :
  forall (m : migrateOpts) (info : hostedClusterAuditInfo) (w : World)
         (pre : list Event) (e : Event) (post : list Event),
    w_events w = pre ++ e :: post ->
    Forall (fun e' => keepsPolling (w_now w + timeout) e' = true) pre ->
    let deadline := (w_now w + timeout)%Z in
    let answer := fst <$> waitForSync m info w in
    (chosen e = CaseDone -> answer = Some (Some "context cancelled"))
    /\ (forall t, chosen e = CaseTick t -> satisfied t = true -> answer = Some None)
    /\ (forall t err, chosen e = CaseTick t -> fetched t = inl err ->
          (returned_at t > deadline)%Z ->
          answer = Some (Some "timeout waiting for sync after 5m0s"))
    /\ (forall t hc, chosen e = CaseTick t -> fetched t = inr hc ->
          hasRequiredAnnotations hc = false -> (returned_at t > deadline)%Z ->
          answer = Some (Some "timeout: annotations did not sync after 5m0s"))
    /\ "context cancelled" <> "timeout waiting for sync after 5m0s"
    /\ "context cancelled" <> "timeout: annotations did not sync after 5m0s".
Proof.
  intros m info w pre e post Hw Hpre deadline answer.
  assert (Hrun : keepsPolling deadline e = false -> answer = Some (verdict e)).
  { intros He. unfold answer. rewrite (waitForSync_run _ _ _ _ _ _ Hw Hpre He). reflexivity. }
  repeat split; try discriminate.
  - intros Hc. rewrite Hrun; unfold keepsPolling, verdict; rewrite Hc; reflexivity.
  - intros t Hc Hs. rewrite Hrun; unfold keepsPolling, verdict; rewrite Hc.
    + unfold satisfied in Hs. destruct (fetched t) as [err | hc]; [discriminate |].
      rewrite Hs. reflexivity.
    + rewrite Hs. reflexivity.
  - intros t err Hc Hf Hlate. apply Z.gtb_gt in Hlate.
    rewrite Hrun; unfold keepsPolling, verdict; rewrite Hc.
    + rewrite Hf. reflexivity.
    + rewrite Hlate. apply andb_false_r.
  - intros t hc Hc Hf Hno Hlate. apply Z.gtb_gt in Hlate.
    rewrite Hrun; unfold keepsPolling, verdict; rewrite Hc.
    + rewrite Hf, Hno. reflexivity.
    + rewrite Hlate. apply andb_false_r.
Qed.

(** The four answers of C5 on concrete runs: a negative fetch after the
    deadline, a satisfied fetch after the deadline, a failed fetch after the
    deadline, and the context done before the deadline. *)
Lemma waitForSync_outcome_witness :
  fst <$> waitForSync Scenario.opts Scenario.info Scenario.neverSynced
    = Some (Some "timeout: annotations did not sync after 5m0s")
  /\ fst <$> waitForSync Scenario.opts Scenario.info Scenario.lateSuccess = Some None
  /\ fst <$> waitForSync Scenario.opts Scenario.info Scenario.cancelledLate
    = Some (Some "timeout waiting for sync after 5m0s")
  /\ fst <$> waitForSync Scenario.opts Scenario.info Scenario.cancelled
    = Some (Some "context cancelled").
Proof.
  split; [| split; [| split]].
  - refine (proj1 (proj2 (proj2 (proj2
      (waitForSync_outcome Scenario.opts Scenario.info Scenario.neverSynced
         [TickC (Scenario.tick 15 (inr Scenario.hcPlain) 16)]
         (TickC (Scenario.tick 300 (inr Scenario.hcPlain) 301)) [] _ _))))
      _ Scenario.hcPlain _ _ _ _); try reflexivity.
    repeat constructor.
  - refine (proj1 (proj2
      (waitForSync_outcome Scenario.opts Scenario.info Scenario.lateSuccess
         [TickC (Scenario.tick 15 (inr Scenario.hcPlain) 16);
          TickC (Scenario.tick 285 (inl "connection refused") 286)]
         (TickC (Scenario.tick 301 (inr Scenario.hcSynced) 302)) [] _ _))
      _ _ _); try reflexivity.
    repeat constructor.
  - refine (proj1 (proj2 (proj2
      (waitForSync_outcome Scenario.opts Scenario.info Scenario.cancelledLate
         [TickC (Scenario.tick 15 (inr Scenario.hcPlain) 16)]
         (Both true (Scenario.tick 301 (inl "context canceled") 302)) [] _ _)))
      _ "context canceled" _ _ _); try reflexivity.
    repeat constructor.
  - refine (proj1
      (waitForSync_outcome Scenario.opts Scenario.info Scenario.cancelled
         [TickC (Scenario.tick 15 (inr Scenario.hcPlain) 16)]
         (CtxDone (Scenario.seconds 20)) [] _ _) _); try reflexivity.
    repeat constructor.
Defined.

(** C6, refuted as stated. In [lateSuccess] the third tick arrives after the
    deadline. A check of the deadline before its fetch would end the run in
    a timeout; the verifier fetches and answers with success, and in the
    whole run no reading of the clock stands between a [select] and the
    fetch that follows it. *)
Lemma waitForSync_checks_counterexample :
  (arrived_at (Scenario.tick 301 (inr Scenario.hcSynced) 302) >? 0 + timeout)%Z = true
  /\ fst <$> waitForSync Scenario.opts Scenario.info Scenario.lateSuccess = Some None
  /\ (w_trace ∘ snd) <$> waitForSync Scenario.opts Scenario.info Scenario.lateSuccess
     = Some [ENow;
             ESelect; EMgmtGet "ocm-production-abc123" "test-cluster"; ENow;
             ESelect; EMgmtGet "ocm-production-abc123" "test-cluster"; ENow;
             ESelect; EMgmtGet "ocm-production-abc123" "test-cluster"]
  /\ (checksBeforeFetch ∘ w_trace ∘ snd)
       <$> waitForSync Scenario.opts Scenario.info Scenario.lateSuccess
     = Some false.
Proof.
  repeat split; vm_compute; reflexivity.
Qed.

(** C6, as the code has it. The verifier reads the clock once to set the
    deadline; then every iteration that takes a tick issues the fetch right
    after the [select], and reads the clock once more only after a fetch
    that failed or did not show the annotations. So every tick that [select]
    takes has its fetch evaluated, the last one before the deadline as well
    as the first one after it, and a tick that ends the polling without
    being past the deadline ends it with success. *)
Theorem waitForSync_checks_after_fetch :
  forall (m : migrateOpts) (info : hostedClusterAuditInfo) (w : World)
         (pre : list Event) (e : Event) (post : list Event),
    w_events w = pre ++ e :: post ->
    Forall (fun e' => keepsPolling (w_now w + timeout) e' = true) pre ->
    keepsPolling (w_now w + timeout) e = false ->
    let fetch := EMgmtGet (ai_Namespace info) (ai_ClusterName info) in
    exists (r : error) (w' : World),
      waitForSync m info w = Some (r, w')
      /\ w_events w' = post
      /\ w_trace w' = w_trace w ++ ENow :: flat_map (effectsOf info) pre ++ effectsOf info e
      /\ Forall (fun e' => effectsOf info e' = [ESelect; fetch; ENow]) pre
      /\ (forall t, chosen e = CaseTick t ->
            effectsOf info e = (if satisfied t then [ESelect; fetch]
                                else [ESelect; fetch; ENow])
            /\ ((returned_at t <= w_now w + timeout)%Z -> satisfied t = true /\ r = None)).
Proof.
  intros m info w pre e post Hw Hpre He fetch.
  exists (verdict e), (handled info e (polled info pre (logged ENow w))).
  split; [apply (waitForSync_run _ _ _ _ _ post); assumption |].
  split.
  { rewrite handled_events, (polled_events info pre (logged ENow w) (e :: post) Hw).
    reflexivity. }
  split.
  { rewrite handled_trace, polled_trace. simpl. rewrite <- !app_assoc. reflexivity. }
  split.
  { eapply Forall_impl; [exact Hpre |]. intros e' He'. simpl in He'.
    unfold keepsPolling in He'. unfold effectsOf.
    destruct (chosen e') as [| t]; [discriminate |].
    destruct (satisfied t); [discriminate | reflexivity]. }
  intros t Hc. split.
  - unfold effectsOf. rewrite Hc. reflexivity.
  - intros Hbefore. unfold keepsPolling in He. rewrite Hc in He.
    assert (Hnot : (returned_at t >? w_now w + timeout)%Z = false)
      by (rewrite Z.gtb_ltb; apply Z.ltb_ge; exact Hbefore).
    rewrite Hnot, andb_true_r in He. apply negb_false_iff in He.
    split; [exact He |].
    unfold verdict. rewrite Hc. unfold satisfied in He.
    destruct (fetched t) as [err | hc]; [discriminate |]. rewrite He. reflexivity.
Qed.

(** C6 on a concrete run: the two polling ticks of [lateSuccess], then the
    tick that ends the polling. *)
Lemma waitForSync_checks_after_fetch_witness :
  exists (r : error) (w' : World),
    waitForSync Scenario.opts Scenario.info Scenario.lateSuccess = Some (r, w')
    /\ w_events w' = []
    /\ w_trace w' =
         [ENow;
          ESelect; EMgmtGet "ocm-production-abc123" "test-cluster"; ENow;
          ESelect; EMgmtGet "ocm-production-abc123" "test-cluster"; ENow;
          ESelect; EMgmtGet "ocm-production-abc123" "test-cluster"].
Proof.
  destruct (waitForSync_checks_after_fetch Scenario.opts Scenario.info Scenario.lateSuccess
              [TickC (Scenario.tick 15 (inr Scenario.hcPlain) 16);
               TickC (Scenario.tick 285 (inl "connection refused") 286)]
              (TickC (Scenario.tick 301 (inr Scenario.hcSynced) 302)) []
              eq_refl)
    as (r & w' & Hrun & Hev & Htr & _); [repeat constructor | reflexivity |].
  exists r, w'. split; [exact Hrun |]. split; [exact Hev |]. exact Htr.
Defined.

(** C10. Within a tick the fetch is looked at before the deadline: a tick
    whose fetch shows the annotations ends the run with success even when it
    arrives, and its fetch returns, after the deadline. Conversely a timeout
    is only ever returned for a tick whose fetch failed or did not show the
    annotations, and whose clock reading was past the deadline. *)
Theorem waitForSync_satisfied_wins :
  forall (m : migrateOpts) (info : hostedClusterAuditInfo) (w : World),
    (forall pre e post t,
        w_events w = pre ++ e :: post ->
        Forall (fun e' => keepsPolling (w_now w + timeout) e' = true) pre ->
        chosen e = CaseTick t ->
        satisfied t = true ->
        fst <$> waitForSync m info w = Some None)
    /\ (forall msg w',
          waitForSync m info w = Some (Some msg, w') ->
          msg <> "context cancelled" ->
          exists pre e t,
            w_events w = pre ++ e :: w_events w'
            /\ chosen e = CaseTick t
            /\ satisfied t = false
            /\ (returned_at t > w_now w + timeout)%Z).
Proof.
  intros m info w. split.
  - intros pre e post t Hw Hpre Hc Hs.
    rewrite (waitForSync_run _ _ _ pre e post Hw Hpre).
    + simpl. unfold verdict. rewrite Hc. unfold satisfied in Hs.
      destruct (fetched t) as [err | hc]; [discriminate |]. rewrite Hs. reflexivity.
    + unfold keepsPolling. rewrite Hc, Hs. reflexivity.
  - intros msg w' Hrun Hmsg.
    destruct (waitForSync_inv _ _ _ _ _ Hrun) as (pre & e & Hw & _ & He & Hr & _).
    unfold verdict in Hr. unfold keepsPolling in He.
    destruct (chosen e) as [| t] eqn:Hc; [congruence |].
    exists pre, e, t.
    assert (Hs : satisfied t = false).
    { unfold satisfied. destruct (fetched t) as [err | hc]; [reflexivity |].
      destruct (hasRequiredAnnotations hc); [discriminate | reflexivity]. }
    repeat split; try assumption.
    rewrite Hs in He. simpl in He. apply negb_false_iff in He.
    apply Z.gtb_gt. exact He.
Qed.

(** C10 on a concrete run: the last tick of [lateSuccess] arrives one second
    after the deadline and shows the annotations. *)
Lemma waitForSync_satisfied_wins_witness :
  (arrived_at (Scenario.tick 301 (inr Scenario.hcSynced) 302) > 0 + timeout)%Z
  /\ fst <$> waitForSync Scenario.opts Scenario.info Scenario.lateSuccess = Some None.
Proof.
  split; [reflexivity |].
  apply (proj1 (waitForSync_satisfied_wins Scenario.opts Scenario.info Scenario.lateSuccess)
           [TickC (Scenario.tick 15 (inr Scenario.hcPlain) 16);
            TickC (Scenario.tick 285 (inl "connection refused") 286)]
           (TickC (Scenario.tick 301 (inr Scenario.hcSynced) 302)) []
           (Scenario.tick 301 (inr Scenario.hcSynced) 302));
    try reflexivity.
  repeat constructor.
Defined.

(** ** The orchestrator *)

Section OrchestratorFacts.
Context {L : GoLib}.

(** The patch only talks to the service cluster: it takes no event, leaves
    the clock alone, and adds calls to the service cluster only. *)
Lemma patchManifestWork_frame (m : migrateOpts) (clusterID : string) (w w1 : World)
    (r : error) :
  patchManifestWork m clusterID w = Some (r, w1) ->
  w_events w1 = w_events w
  /\ w_now w1 = w_now w
  /\ exists calls,
       w_trace w1 = w_trace w ++ calls /\ Forall (fun e => serviceEffect e = true) calls.
Proof.
  unfold patchManifestWork, bind, serviceClient_Get, serviceClient_Update, ret.
  destruct (w_serviceGet w) as [| g gets]; [discriminate |].
  destruct g as [err | manifestWork].
  - intros [= <- <-]. repeat split.
    exists [EServiceGet (mgmtClusterName m) clusterID]. split; [reflexivity |].
    repeat constructor.
  - destruct (patchManifests (mw_Manifests manifestWork)) as [err | manifests].
    + intros [= <- <-]. repeat split.
      exists [EServiceGet (mgmtClusterName m) clusterID]. split; [reflexivity |].
      repeat constructor.
    + simpl. destruct (w_serviceUpdate w) as [| u updates]; [discriminate |].
      destruct u as [err |]; intros [= <- <-]; repeat split;
        eexists [EServiceGet _ _; EServiceUpdate _];
        (split; [simpl; rewrite <- app_assoc; reflexivity | repeat constructor]).
Qed.

Lemma migrateCluster_cases (m : migrateOpts) (info : hostedClusterAuditInfo) (w : World) :
  migrateCluster m info w =
    match patchManifestWork m (ai_ClusterID info) w with
    | None => None
    | Some (Some err, w1) =>
        Some ({| mr_ClusterID := ai_ClusterID info;
                 mr_ClusterName := ai_ClusterName info;
                 mr_Status := "failed";
                 mr_Error := "failed to patch ManifestWork: " +:+ err;
                 mr_VerifiedAt := "" |}, w1)
    | Some (None, w1) =>
        match waitForSync m info w1 with
        | None => None
        | Some (Some err, w2) =>
            Some ({| mr_ClusterID := ai_ClusterID info;
                     mr_ClusterName := ai_ClusterName info;
                     mr_Status := "failed";
                     mr_Error := "sync verification failed: " +:+ err;
                     mr_VerifiedAt := "" |}, w2)
        | Some (None, w2) =>
            Some ({| mr_ClusterID := ai_ClusterID info;
                     mr_ClusterName := ai_ClusterName info;
                     mr_Status := "success";
                     mr_Error := "";
                     mr_VerifiedAt := time_Format_RFC3339 (w_now w2) |}, logged ENow w2)
        end
    end.
Proof.
  unfold migrateCluster, bind.
  destruct (patchManifestWork m (ai_ClusterID info) w) as [[[err |] w1] |]; try reflexivity.
  destruct (waitForSync m info w1) as [[[err |] w2] |]; reflexivity.
Qed.

Lemma migrateCluster_result (m : migrateOpts) (info : hostedClusterAuditInfo)
    (w w' : World) (r : migrationResult) :
  migrateCluster m info w = Some (r, w') ->
  mr_ClusterID r = ai_ClusterID info
  /\ mr_ClusterName r = ai_ClusterName info
  /\ (mr_Status r = "success" \/ mr_Status r = "failed").
Proof.
  rewrite migrateCluster_cases.
  destruct (patchManifestWork m (ai_ClusterID info) w) as [[[err |] w1] |];
    [| destruct (waitForSync m info w1) as [[[err |] w2] |] |];
    try discriminate; intros [= <- <-]; simpl; tauto.
Qed.

Lemma migrateLoop_acc (m : migrateOpts) (candidates : list hostedClusterAuditInfo) :
  forall (results : list migrationResult) (w : World),
    migrateLoop m candidates results w =
      match migrateLoop m candidates [] w with
      | None => None
      | Some (rs, w') => Some (results ++ rs, w')
      end.
Proof.
  induction candidates as [| c cs IH]; intros results w.
  - simpl. unfold ret. rewrite app_nil_r. reflexivity.
  - simpl. unfold bind. destruct (migrateCluster m c w) as [[r w1] |]; [| reflexivity].
    rewrite (IH (results ++ [r])), (IH ([] ++ [r])).
    destruct (migrateLoop m cs [] w1) as [[rs w2] |]; [| reflexivity].
    rewrite <- app_assoc. reflexivity.
Qed.

Lemma migrateClusters_cons (m : migrateOpts) (c : hostedClusterAuditInfo)
    (cs : list hostedClusterAuditInfo) (w : World) :
  migrateClusters m (c :: cs) w =
    match migrateCluster m c w with
    | None => None
    | Some (r, w1) =>
        match migrateClusters m cs w1 with
        | None => None
        | Some (rs, w2) => Some (r :: rs, w2)
        end
    end.
Proof.
  unfold migrateClusters. simpl. unfold bind.
  destruct (migrateCluster m c w) as [[r w1] |]; [| reflexivity].
  rewrite migrateLoop_acc. reflexivity.
Qed.

(** C7. The batch is the candidates migrated one after the other, each in
    the world the one before it left, whatever the status of its result: it
    returns whenever each migration does, with one result per candidate,
    in the order of the candidates, each carrying the identity of its
    candidate and the status "success" or "failed". For one candidate: when
    the patch fails the result is "failed" with the patch error, and the
    world is as the patch left it (no event taken, only calls to the
    service cluster made: the verifier has not run); when the patch succeeds
    and the verifier answers with success the result is "success" with the
    time then read from the clock; when the verifier answers with an error
    the result is "failed" with that error. *)
Theorem migrateClusters_one_result_each :
  forall m : migrateOpts,
    (forall w, migrateClusters m [] w = Some ([], w))
    /\ (forall c cs w,
          migrateClusters m (c :: cs) w =
            match migrateCluster m c w with
            | None => None
            | Some (r, w1) =>
                match migrateClusters m cs w1 with
                | None => None
                | Some (rs, w2) => Some (r :: rs, w2)
                end
            end)
    /\ (forall cs w,
          (forall c w0, c ∈ cs -> is_Some (migrateCluster m c w0)) ->
          is_Some (migrateClusters m cs w))
    /\ (forall cs w rs w',
          migrateClusters m cs w = Some (rs, w') ->
          length rs = length cs
          /\ map mr_ClusterID rs = map ai_ClusterID cs
          /\ map mr_ClusterName rs = map ai_ClusterName cs
          /\ Forall (fun r => mr_Status r = "success" \/ mr_Status r = "failed") rs)
    /\ (forall c w err w1,
          patchManifestWork m (ai_ClusterID c) w = Some (Some err, w1) ->
          migrateCluster m c w =
            Some ({| mr_ClusterID := ai_ClusterID c;
                     mr_ClusterName := ai_ClusterName c;
                     mr_Status := "failed";
                     mr_Error := "failed to patch ManifestWork: " +:+ err;
                     mr_VerifiedAt := "" |}, w1)
          /\ w_events w1 = w_events w
          /\ exists calls,
               w_trace w1 = w_trace w ++ calls
               /\ Forall (fun e => serviceEffect e = true) calls)
    /\ (forall c w w1 w2,
          patchManifestWork m (ai_ClusterID c) w = Some (None, w1) ->
          waitForSync m c w1 = Some (None, w2) ->
          migrateCluster m c w =
            Some ({| mr_ClusterID := ai_ClusterID c;
                     mr_ClusterName := ai_ClusterName c;
                     mr_Status := "success";
                     mr_Error := "";
                     mr_VerifiedAt := time_Format_RFC3339 (w_now w2) |}, logged ENow w2))
    /\ (forall c w w1 err w2,
          patchManifestWork m (ai_ClusterID c) w = Some (None, w1) ->
          waitForSync m c w1 = Some (Some err, w2) ->
          migrateCluster m c w =
            Some ({| mr_ClusterID := ai_ClusterID c;
                     mr_ClusterName := ai_ClusterName c;
                     mr_Status := "failed";
                     mr_Error := "sync verification failed: " +:+ err;
                     mr_VerifiedAt := "" |}, w2)).
Proof.
  intros m. split; [reflexivity |]. split; [apply migrateClusters_cons |].
  split; [| split; [| split; [| split]]].
  - induction cs as [| c cs IH]; intros w Hall; [eexists; reflexivity |].
    rewrite migrateClusters_cons.
    destruct (Hall c w) as [[r w1] ->]; [left |].
    destruct (IH w1) as [[rs w2] ->]; [| eexists; reflexivity].
    intros c' w0 Hin. apply Hall. right. exact Hin.
  - induction cs as [| c cs IH]; intros w rs w' Hrun.
    + injection Hrun as <- <-. repeat split. constructor.
    + rewrite migrateClusters_cons in Hrun.
      destruct (migrateCluster m c w) as [[r w1] |] eqn:Hc; [| discriminate].
      destruct (migrateClusters m cs w1) as [[rs' w2] |] eqn:Hcs; [| discriminate].
      injection Hrun as <- <-.
      destruct (migrateCluster_result _ _ _ _ _ Hc) as (Hid & Hname & Hstatus).
      destruct (IH _ _ _ Hcs) as (Hlen & Hids & Hnames & Hall).
      simpl. rewrite Hlen, Hid, Hname, Hids, Hnames. repeat split.
      constructor; assumption.
  - intros c w err w1 Hpatch. rewrite migrateCluster_cases, Hpatch.
    destruct (patchManifestWork_frame _ _ _ _ _ Hpatch) as (Hev & _ & Hcalls).
    repeat split; assumption.
  - intros c w w1 w2 Hpatch Hwait. rewrite migrateCluster_cases, Hpatch, Hwait. reflexivity.
  - intros c w w1 err w2 Hpatch Hwait. rewrite migrateCluster_cases, Hpatch, Hwait.
    reflexivity.
Qed.

End OrchestratorFacts.

(** ** The properties on concrete inputs *)

(** C3 on a concrete list: elements without bytes or that do not decode are
    passed over, the first HostedCluster is rewritten, the second one and
    everything else keep their bytes; without any HostedCluster the patch
    fails with the not-found error. *)
Lemma patchManifests_first_match_witness :
  patchManifests (L := Reference.lib) Fixture.manifests = inr Fixture.patchedManifests
  /\ patchManifests (L := Reference.lib)
       [Fixture.noBytes; Fixture.notJSON; Fixture.secret; Fixture.certificate]
     = inl notFound.
Proof.
  split.
  - apply (proj1 (proj2 (patchManifests_first_match (L := Reference.lib) Fixture.manifests))
             [Fixture.noBytes; Fixture.notJSON; Fixture.secret]
             Fixture.hostedClusterBytes Fixture.hostedClusterData
             [Fixture.certificate; Fixture.secondHostedCluster]
             Fixture.patchedBytes).
    + reflexivity.
    + repeat constructor; vm_compute; reflexivity.
    + vm_compute. reflexivity.
    + vm_compute. reflexivity.
    + vm_compute. reflexivity.
  - apply (proj1 (patchManifests_first_match (L := Reference.lib) _)).
    repeat constructor; vm_compute; reflexivity.
Defined.

(** C4 on the same list: the patched list is patched again, and comes out
    as it went in. *)
Lemma patchManifests_idempotent_witness :
  patchManifests (L := Reference.lib) Fixture.manifests = inr Fixture.patchedManifests
  /\ patchManifests (L := Reference.lib) Fixture.patchedManifests
     = inr Fixture.patchedManifests.
Proof.
  apply (patchManifests_idempotent (L := Reference.lib)
           [Fixture.noBytes; Fixture.notJSON; Fixture.secret]
           [Fixture.certificate; Fixture.secondHostedCluster]
           Fixture.hostedClusterBytes Fixture.patchedBytes Fixture.hostedClusterData).
  - repeat constructor; vm_compute; reflexivity.
  - vm_compute. reflexivity.
  - vm_compute. reflexivity.
  - vm_compute. reflexivity.
  - vm_compute. reflexivity.
Defined.

(** C7 on a batch of two: the patch of the first candidate fails, so its
    result is "failed" and no event is taken for it; the second candidate is
    still migrated, and succeeds at its second tick. *)
Lemma migrateClusters_one_result_each_witness :
  fst <$> migrateClusters (L := Reference.lib) Scenario.opts
            [Fixture.missing; Scenario.info] Fixture.batch
  = Some [{| mr_ClusterID := "cluster4";
             mr_ClusterName := "other-cluster";
             mr_Status := "failed";
             mr_Error :=
               "failed to patch ManifestWork: failed to get ManifestWork "
               +:+ "test-mgmt-cluster/cluster4: "
               +:+ "manifestworks.work.open-cluster-management.io cluster4 not found";
             mr_VerifiedAt := "" |};
          {| mr_ClusterID := "cluster3";
             mr_ClusterName := "test-cluster";
             mr_Status := "success";
             mr_Error := "";
             mr_VerifiedAt := "1970-01-01T00:00:31Z" |}]
  /\ (w_events ∘ snd) <$> migrateCluster (L := Reference.lib) Scenario.opts
                            Fixture.missing Fixture.batch
     = Some (w_events Fixture.batch).
Proof.
  destruct (migrateClusters_one_result_each (L := Reference.lib) Scenario.opts)
    as (_ & Hcons & _ & _ & Hfail & _ & _).
  split.
  - rewrite Hcons. vm_compute. reflexivity.
  - assert (Hpatch :
      patchManifestWork (L := Reference.lib) Scenario.opts
        (ai_ClusterID Fixture.missing) Fixture.batch
      = Some (Some ("failed to get ManifestWork test-mgmt-cluster/cluster4: "
                    +:+ "manifestworks.work.open-cluster-management.io cluster4 not found"),
              logged (EServiceGet "test-mgmt-cluster" "cluster4")
                (set_serviceGet (tail (w_serviceGet Fixture.batch)) Fixture.batch)))
      by (vm_compute; reflexivity).
    destruct (Hfail Fixture.missing Fixture.batch _ _ Hpatch) as (-> & _).
    reflexivity.
Defined.

(** C8 on a concrete management cluster: eight namespaces pass the filter;
    the one without a record and the one with two records each add an entry
    to the error list, the six others are scanned and fall 2/3/1 into the
    buckets. *)
Lemma scan_isolates_errors_witness :
  let results := scan (Fixture.audit "")
                   ["ocm-production-a1"; "ocm-production-a2"; "ocm-staging-b1";
                    "ocm-production-empty"; "ocm-staging-b2"; "ocm-staging-b3";
                    "ocm-production-twice"; "ocm-production-c1"] in
  ar_Errors results =
    [{| ae_Namespace := "ocm-production-empty"; ae_Error := "no HostedCluster found" |};
     {| ae_Namespace := "ocm-production-twice";
        ae_Error := "found 2 HostedClusters, expected 1" |}]
  /\ ar_TotalScanned results + 2 = 8
  /\ map ai_ClusterID (ar_NeedsLabelRemoval results) = ["cluster1"; "cluster2"]
  /\ map ai_ClusterID (ar_ReadyForMigration results) = ["cluster3"; "cluster4"; "cluster5"]
  /\ map ai_ClusterID (ar_AlreadyConfigured results) = ["cluster6"].
Proof.
  intros results.
  destruct (scan_isolates_errors (Fixture.audit "")
              ["ocm-production-a1"; "ocm-production-a2"; "ocm-staging-b1";
               "ocm-production-empty"; "ocm-staging-b2"; "ocm-staging-b3";
               "ocm-production-twice"; "ocm-production-c1"])
    as (_ & _ & Herr & Hn & Hr & Ha & _ & Hsum & _).
  fold results in Herr, Hn, Hr, Ha, Hsum.
  split; [rewrite Herr; vm_compute; reflexivity |].
  split; [rewrite Herr in Hsum; exact Hsum |].
  split; [rewrite Hn; vm_compute; reflexivity |].
  split; [rewrite Hr; vm_compute; reflexivity |].
  rewrite Ha. vm_compute. reflexivity.
Defined.

(** The end-to-end scenario of the specification: the audit of the same
    management cluster, unfiltered and filtered to "ready-for-migration". *)
Example run_scenario :
  Fixture.sizes (run (Fixture.audit "")) = Some (6, 2, 3, 1, 2)
  /\ Fixture.sizes (run (Fixture.audit "ready-for-migration")) = Some (3, 0, 3, 0, 2).
Proof. split; vm_compute; reflexivity. Qed.

(** The namespace filter on the names of the repository's tests. *)
Example ocmNamespacePattern_examples :
  map ocmNamespacePattern_MatchString
    ["ocm-production-abc123"; "ocm-staging-ABC123xyz";
     "ocm-production-2o01jtlh4a3h7p5f04irugtiic86dh47";
     "ocm-production-abc123-extra"; "ocm-production"; "production-abc123";
     "ocm-staging-"; "ocm-other-namespace"; "kube-system"]
  = [true; true; true; false; false; false; false; false; false].
Proof. reflexivity. Qed.

(** The tables of the repository's tests. *)
Example TestCategorizeCluster :
  Forall (fun c => categorizeCluster (Fixture.annotated (fst c)) = snd c)
    Fixture.categorizeCases.
Proof. repeat constructor. Qed.

Example TestHasRequiredAnnotations :
  Forall (fun c => hasRequiredAnnotations (Fixture.annotated (fst c)) = snd c)
    Fixture.requiredCases.
Proof. repeat constructor. Qed.

Example TestApplyFilter :
  Fixture.sizes (inr (applyFilter "needs-removal" Fixture.baseResults)) = Some (2, 2, 0, 0, 0)
  /\ Fixture.sizes (inr (applyFilter "ready-for-migration" Fixture.baseResults))
     = Some (3, 0, 3, 0, 0)
  /\ Fixture.sizes (inr (applyFilter "" Fixture.baseResults)) = Some (6, 2, 3, 1, 0).
Proof. repeat split. Qed.

(** * Further properties *)

(** A call that does not fail returns the value read off its result. *)
Lemma returned {A : Type} (d : A) (r : string + A) :
  match r with
  | inl _ => False
  | inr _ => True
  end ->
  r = inr match r with
          | inr x => x
          | inl _ => d
          end.
Proof. destruct r; [intros [] | reflexivity]. Qed.

(** A run that does not block returns the value read off its outcome. *)
Lemma ran {A : Type} (d : A) (o : option A) :
  match o with
  | Some _ => True
  | None => False
  end ->
  o = Some match o with
           | Some x => x
           | None => d
           end.
Proof. destruct o; [reflexivity | intros []]. Qed.


(** ** The audit *)

Lemma stripPrefix_Some (p s r : string) :
  stripPrefix p s = Some r <-> s = p +:+ r.
Proof.
  revert s. induction p as [| a p IH]; intros s; simpl.
  - split; [intros [= ->]; reflexivity | intros ->; reflexivity].
  - destruct s as [| b s]; [split; discriminate |].
    destruct (Ascii.eqb a b) eqn:E.
    + apply Ascii.eqb_eq in E as ->. rewrite IH.
      split; [intros ->; reflexivity | intros [= ->]; reflexivity].
    + apply Ascii.eqb_neq in E. split; [discriminate | intros [= <- _]; congruence].
Qed.

(** X1. The namespace filter accepts exactly the names made of one of the
    two prefixes followed by a non-empty run of ASCII letters and digits;
    [listOcmNamespaces] fails exactly when the listing fails, and otherwise
    keeps the accepted names, and only them, in the order of the listing. *)
Theorem listOcmNamespaces_keeps_matching :
  forall a : auditOpts,
    (forall s,
       ocmNamespacePattern_MatchString s = true <->
       exists id, (s = "ocm-production-" +:+ id \/ s = "ocm-staging-" +:+ id)
                  /\ id <> "" /\ allAlnum id = true)
    /\ (forall err, listOcmNamespaces a = inl err <-> List_Namespaces (mgmtClient a) = inl err)
    /\ (forall namespaces,
          listOcmNamespaces a = inr namespaces ->
          exists items,
            List_Namespaces (mgmtClient a) = inr items
            /\ sublist namespaces items
            /\ forall ns, ns ∈ namespaces <->
                          ns ∈ items /\ ocmNamespacePattern_MatchString ns = true).
Proof.
  intros a. split; [| split].
  - intros s. unfold ocmNamespacePattern_MatchString. rewrite orb_true_iff.
    assert (Hone : forall p,
      match stripPrefix p s with
      | Some id => negb (streq id "") && allAlnum id
      | None => false
      end = true <-> exists id, s = p +:+ id /\ id <> "" /\ allAlnum id = true).
    { intros p. destruct (stripPrefix p s) as [id |] eqn:E.
      - apply stripPrefix_Some in E. rewrite andb_true_iff, negb_true_iff, streq_false.
        split.
        + intros [Hne Hal]. exists id. auto.
        + intros (id' & Hs & Hne & Hal). rewrite E in Hs.
          assert (id = id') as <-; [| auto].
          clear -Hs. induction p as [| c p IH]; simpl in Hs; [exact Hs |].
          injection Hs as Hs. auto.
      - split; [discriminate |]. intros (id & Hs & _). apply stripPrefix_Some in Hs.
        congruence. }
    rewrite !Hone. split.
    + intros [(id & Hs & H) | (id & Hs & H)]; exists id; auto.
    + intros (id & [Hs | Hs] & H); [left | right]; exists id; auto.
  - intros err. unfold listOcmNamespaces.
    destruct (List_Namespaces (mgmtClient a)) as [e | items];
      split; intros [= ->]; reflexivity.
  - intros namespaces. unfold listOcmNamespaces.
    destruct (List_Namespaces (mgmtClient a)) as [e | items]; [discriminate |].
    intros [= <-]. exists items. split; [reflexivity |]. split.
    + apply sublist_filter.
    + intros ns. rewrite list_elem_of_filter. tauto.
Qed.

(** X1 on names of the repository's tests: accepted with either prefix,
    refused with a further hyphen or without an identifier. *)
Lemma listOcmNamespaces_keeps_matching_witness :
  listOcmNamespaces (Fixture.audit "") =
    inr ["ocm-production-a1"; "ocm-production-a2"; "ocm-staging-b1";
         "ocm-production-empty"; "ocm-staging-b2"; "ocm-staging-b3";
         "ocm-production-twice"; "ocm-production-c1"]
  /\ ocmNamespacePattern_MatchString "ocm-staging-ABC123xyz" = true.
Proof.
  split; [reflexivity |].
  apply (proj1 (listOcmNamespaces_keeps_matching (Fixture.audit ""))).
  exists "ABC123xyz". split; [right; reflexivity |]. split; [discriminate | reflexivity].
Defined.

Lemma hasRequiredAnnotations_lookup (hc : HostedCluster) :
  hasRequiredAnnotations hc = true <->
  annotationsOf hc !! annTopology = Some valTopology
  /\ annotationsOf hc !! annAutoScaling = Some valAutoScaling.
Proof.
  unfold hasRequiredAnnotations, annotationsOf.
  pose proof (has_correct (hc_Annotations hc) annTopology valTopology) as Ht.
  pose proof (has_correct (hc_Annotations hc) annAutoScaling valAutoScaling) as Ha.
  destruct (hc_Annotations hc) as [m|] eqn:Em.
  - destruct (go_lookup (Some m) annTopology) as [t ht].
    destruct (go_lookup (Some m) annAutoScaling) as [s hs].
    rewrite <- Ht, <- Ha, <- andb_assoc, andb_true_iff. reflexivity.
  - simpl. rewrite lookup_empty. split; [discriminate | intros [? _]; discriminate].
Qed.

(** The audit of a namespace succeeds exactly on a listing of one record. *)
Lemma auditNamespace_inr (a : auditOpts) (ns : string) (info : hostedClusterAuditInfo) :
  auditNamespace a ns = inr info <->
  exists hc,
    List_HostedClusters (mgmtClient a) ns = inr [hc]
    /\ info = {| ai_ClusterID := go_index (hc_Labels hc) "api.openshift.com/id";
                 ai_ClusterName := hc_Name hc;
                 ai_Namespace := ns;
                 ai_CurrentSize :=
                   go_index (hc_Labels hc) "hypershift.openshift.io/hosted-cluster-size";
                 ai_Category := categorizeCluster hc;
                 ai_Labels := hc_Labels hc;
                 ai_Annotations := hc_Annotations hc |}.
Proof.
  unfold auditNamespace, getHostedClusterInNamespace.
  destruct (List_HostedClusters (mgmtClient a) ns) as [err | [| hc [| hc2 more]]].
  - split; [discriminate | intros (hc' & [=] & _)].
  - split; [discriminate | intros (hc' & [=] & _)].
  - split.
    + intros [= <-]. exists hc. split; reflexivity.
    + intros (hc' & [= <-] & ->). reflexivity.
  - split; [discriminate | intros (hc' & [=] & _)].
Qed.

(** X2. The audit of a namespace succeeds exactly when the namespace lists
    one record, and then the entry repeats the namespace and the name,
    labels and annotations of the record, and carries its category; the
    identifier and the size are read from the labels and are empty when the
    label, or the label map, is missing. *)
Theorem auditNamespace_one_record :
  forall (a : auditOpts) (ns : string) (info : hostedClusterAuditInfo),
    auditNamespace a ns = inr info <->
    exists hc,
      List_HostedClusters (mgmtClient a) ns = inr [hc]
      /\ recordOf info = hc
      /\ ai_Namespace info = ns
      /\ ai_Category info = categorizeCluster hc
      /\ ai_ClusterID info = default "" (default ∅ (hc_Labels hc) !! "api.openshift.com/id")
      /\ ai_CurrentSize info =
           default "" (default ∅ (hc_Labels hc)
                         !! "hypershift.openshift.io/hosted-cluster-size").
Proof.
  intros a ns info.
  assert (Hidx : forall m k, go_index m k = default "" (default ∅ m !! k)).
  { intros m k. unfold go_index, go_lookup. destruct m as [m |]; simpl.
    - destruct (m !! k); reflexivity.
    - rewrite lookup_empty. reflexivity. }
  rewrite auditNamespace_inr. split.
  - intros (hc & Hl & ->). exists hc. unfold recordOf. simpl. rewrite !Hidx.
    destruct hc; repeat split; assumption || reflexivity.
  - intros (hc & Hl & Hrec & Hns & Hcat & Hid & Hsize). exists hc. split; [exact Hl |].
    rewrite !Hidx, <- Hid, <- Hsize, <- Hcat, <- Hns, <- Hrec.
    destruct info; reflexivity.
Qed.

(** X2 on a namespace of the fixture whose record has the identifier label
    and no size label. *)
Lemma auditNamespace_one_record_witness :
  auditNamespace (Fixture.audit "") "ocm-staging-b1" =
    inr {| ai_ClusterID := "cluster3";
           ai_ClusterName := "cluster3";
           ai_Namespace := "ocm-staging-b1";
           ai_CurrentSize := "";
           ai_Category := "ready-for-migration";
           ai_Labels := Some {[ "api.openshift.com/id" := "cluster3" ]};
           ai_Annotations := Some ∅ |}.
Proof.
  apply (proj2 (auditNamespace_one_record (Fixture.audit "") "ocm-staging-b1" _)).
  exists (Fixture.record "cluster3" []). repeat split; reflexivity.
Defined.

(** The three answers of the classifier exclude one another, and each tells
    what the annotations hold. *)
Lemma categorizeCluster_inv (hc : HostedCluster) :
  (categorizeCluster hc = "needs-removal" <->
     is_Some (annotationsOf hc !! annOverride))
  /\ (categorizeCluster hc = "ready-for-migration" <->
        annotationsOf hc !! annOverride = None /\ hasRequiredAnnotations hc = false)
  /\ (categorizeCluster hc = "already-configured" <->
        annotationsOf hc !! annOverride = None /\ hasRequiredAnnotations hc = true).
Proof.
  rewrite categorizeCluster_cases.
  pose proof (hasRequiredAnnotations_lookup hc) as Hreq.
  destruct (annotationsOf hc !! annOverride) as [o |].
  - repeat split; try discriminate; try (intros [? _]; discriminate); eauto.
  - case_bool_decide as Hd.
    + apply Hreq in Hd. rewrite Hd.
      repeat split; try discriminate; try (intros [_ ?]; discriminate);
        try (intros [? ?]; discriminate).
    + assert (Hf : hasRequiredAnnotations hc = false).
      { destruct (hasRequiredAnnotations hc); [| reflexivity].
        exfalso. apply Hd, Hreq. reflexivity. }
      rewrite Hf.
      repeat split; try discriminate; try (intros [_ ?]; discriminate);
        try (intros [? ?]; discriminate).
Qed.

Lemma entryOf_Some (a : auditOpts) (category ns : string) (info : hostedClusterAuditInfo) :
  entryOf a category ns = Some info <->
  auditNamespace a ns = inr info /\ ai_Category info = category.
Proof.
  unfold entryOf. destruct (auditNamespace a ns) as [err | info'].
  - split; [discriminate | intros [[=] _]].
  - destruct (streq (ai_Category info') category) eqn:E.
    + apply streq_true in E. split.
      * intros [= <-]. split; [reflexivity | exact E].
      * intros [[= <-] _]. reflexivity.
    + apply streq_false in E. split; [discriminate |].
      intros [[= <-] Hc]. contradiction.
Qed.

(** What the audit of a namespace says about the record it found. *)
Lemma auditNamespace_record (a : auditOpts) (ns : string) (info : hostedClusterAuditInfo) :
  auditNamespace a ns = inr info ->
  ai_Category info = categorizeCluster (recordOf info) /\ ai_Namespace info = ns.
Proof.
  intros H. apply auditNamespace_inr in H as (hc & _ & ->).
  unfold recordOf. simpl. destruct hc; split; reflexivity.
Qed.

Lemma bucket_entries (a : auditOpts) (category : string) (namespaces : list string) :
  Forall (fun info => ai_Category info = category
                      /\ categorizeCluster (recordOf info) = category
                      /\ ai_Namespace info ∈ namespaces)
         (omap (entryOf a category) namespaces).
Proof.
  apply Forall_forall. intros info Hin.
  apply list_elem_of_omap in Hin as (ns & Hns & He).
  apply entryOf_Some in He as [Ha Hc].
  destruct (auditNamespace_record _ _ _ Ha) as [Hcat Hn].
  split; [exact Hc |]. split; [congruence |]. rewrite Hn. exact Hns.
Qed.

Lemma scan_buckets (a : auditOpts) (namespaces : list string) :
  ar_NeedsLabelRemoval (scan a namespaces) = omap (entryOf a "needs-removal") namespaces
  /\ ar_ReadyForMigration (scan a namespaces)
     = omap (entryOf a "ready-for-migration") namespaces
  /\ ar_AlreadyConfigured (scan a namespaces)
     = omap (entryOf a "already-configured") namespaces
  /\ ar_Errors (scan a namespaces) = omap (errorOf a) namespaces
  /\ ar_MgmtClusterID (scan a namespaces) = mgmtClusterID a
  /\ totalIsSum (scan a namespaces).
Proof.
  unfold scan, totalIsSum. rewrite scan_loop. simpl. repeat split.
Qed.

(** The entries kept as ready for migration. *)
Lemma ready_entries (a : auditOpts) (namespaces : list string) :
  Forall (fun info =>
            ai_Category info = "ready-for-migration"
            /\ annotationsOf (recordOf info) !! annOverride = None
            /\ hasRequiredAnnotations (recordOf info) = false
            /\ ai_Namespace info ∈ namespaces)
         (omap (entryOf a "ready-for-migration") namespaces).
Proof.
  eapply Forall_impl; [apply bucket_entries |]. intros info (Hc & Hcat & Hn). simpl.
  apply (proj1 (proj2 (categorizeCluster_inv _))) in Hcat as [? ?]. auto.
Qed.

(** X3. Every entry of a bucket of a scan belongs there: an entry of
    needs-removal comes from a record that carries the override annotation,
    an entry of ready-for-migration from a record without the override that
    fails the verifier's predicate, an entry of already-configured from a
    record without the override that passes it; and each entry comes from
    one of the namespaces scanned. *)
Theorem scan_buckets_sound :
  forall (a : auditOpts) (namespaces : list string),
    Forall (fun info =>
              ai_Category info = "needs-removal"
              /\ is_Some (annotationsOf (recordOf info) !! annOverride)
              /\ ai_Namespace info ∈ namespaces)
           (ar_NeedsLabelRemoval (scan a namespaces))
    /\ Forall (fun info =>
                 ai_Category info = "ready-for-migration"
                 /\ annotationsOf (recordOf info) !! annOverride = None
                 /\ hasRequiredAnnotations (recordOf info) = false
                 /\ ai_Namespace info ∈ namespaces)
              (ar_ReadyForMigration (scan a namespaces))
    /\ Forall (fun info =>
                 ai_Category info = "already-configured"
                 /\ annotationsOf (recordOf info) !! annOverride = None
                 /\ hasRequiredAnnotations (recordOf info) = true
                 /\ ai_Namespace info ∈ namespaces)
              (ar_AlreadyConfigured (scan a namespaces)).
Proof.
  intros a namespaces.
  destruct (scan_buckets a namespaces) as (-> & -> & -> & _).
  repeat split.
  - eapply Forall_impl; [apply bucket_entries |]. intros info (Hc & Hcat & Hn). simpl.
    apply (proj1 (categorizeCluster_inv _)) in Hcat. auto.
  - apply ready_entries.
  - eapply Forall_impl; [apply bucket_entries |]. intros info (Hc & Hcat & Hn). simpl.
    apply (proj2 (proj2 (categorizeCluster_inv _))) in Hcat as [? ?]. auto.
Qed.

(** X4. Scanning a list of namespaces in two parts gives, bucket by bucket
    and for the errors, the results of the first part followed by those of
    the second, and the two counts add up: what a namespace contributes does
    not depend on the namespaces around it. *)
Theorem scan_app :
  forall (a : auditOpts) (l1 l2 : list string),
    ar_NeedsLabelRemoval (scan a (l1 ++ l2))
      = ar_NeedsLabelRemoval (scan a l1) ++ ar_NeedsLabelRemoval (scan a l2)
    /\ ar_ReadyForMigration (scan a (l1 ++ l2))
      = ar_ReadyForMigration (scan a l1) ++ ar_ReadyForMigration (scan a l2)
    /\ ar_AlreadyConfigured (scan a (l1 ++ l2))
      = ar_AlreadyConfigured (scan a l1) ++ ar_AlreadyConfigured (scan a l2)
    /\ ar_Errors (scan a (l1 ++ l2)) = ar_Errors (scan a l1) ++ ar_Errors (scan a l2)
    /\ ar_TotalScanned (scan a (l1 ++ l2))
      = ar_TotalScanned (scan a l1) + ar_TotalScanned (scan a l2).
Proof.
  intros a l1 l2.
  destruct (scan_buckets a (l1 ++ l2)) as (Hn & Hr & Ha & He & _ & Ht).
  destruct (scan_buckets a l1) as (Hn1 & Hr1 & Ha1 & He1 & _ & Ht1).
  destruct (scan_buckets a l2) as (Hn2 & Hr2 & Ha2 & He2 & _ & Ht2).
  unfold totalIsSum in *.
  rewrite Ht, Ht1, Ht2, Hn, Hr, Ha, He, Hn1, Hr1, Ha1, He1, Hn2, Hr2, Ha2, He2.
  rewrite !omap_app, !length_app. repeat split. lia.
Qed.

Lemma applyFilter_totalIsSum (f : string) (results : auditResults) :
  totalIsSum results -> totalIsSum (applyFilter f results).
Proof.
  unfold applyFilter, totalIsSum.
  destruct (streq f "needs-removal"); simpl; [intros _; lia |].
  destruct (streq f "ready-for-migration"); simpl; [intros _; lia | auto].
Qed.

(** X5. Filtering twice by the same value is filtering once, whatever the
    value; and filtering keeps [TotalScanned] equal to the sum of the sizes
    of the buckets when it was so before. *)
Theorem applyFilter_idempotent :
  forall (f : string) (results : auditResults),
    applyFilter f (applyFilter f results) = applyFilter f results
    /\ (totalIsSum results -> totalIsSum (applyFilter f results)).
Proof.
  intros f results. split; [| apply applyFilter_totalIsSum].
  unfold applyFilter.
  destruct (streq f "needs-removal"); simpl; [reflexivity |].
  destruct (streq f "ready-for-migration"); reflexivity.
Qed.

(** What [run] returns. *)
Lemma run_results :
  forall (a : auditOpts) (results : auditResults),
    run a = inr results ->
    totalIsSum results
    /\ ar_MgmtClusterID results = mgmtClusterID a
    /\ Forall (fun info => ai_Category info = "needs-removal")
              (ar_NeedsLabelRemoval results)
    /\ Forall (fun info => ai_Category info = "ready-for-migration")
              (ar_ReadyForMigration results)
    /\ Forall (fun info => ai_Category info = "already-configured")
              (ar_AlreadyConfigured results)
    /\ exists namespaces,
         listOcmNamespaces a = inr namespaces
         /\ ar_Errors results = omap (errorOf a) namespaces.
Proof.
  intros a results. unfold run.
  destruct (listOcmNamespaces a) as [err | namespaces]; [discriminate |].
  intros [= <-].
  destruct (scan_buckets a namespaces) as (Hn & Hr & Ha & He & Hid & Ht).
  assert (Hpure : forall c, Forall (fun info => ai_Category info = c)
                              (omap (entryOf a c) namespaces)).
  { intros c. eapply Forall_impl; [apply bucket_entries |]. intros info [? _]. assumption. }
  assert (Hscan :
    ar_MgmtClusterID (scan a namespaces) = mgmtClusterID a
    /\ Forall (fun info => ai_Category info = "needs-removal")
              (ar_NeedsLabelRemoval (scan a namespaces))
    /\ Forall (fun info => ai_Category info = "ready-for-migration")
              (ar_ReadyForMigration (scan a namespaces))
    /\ Forall (fun info => ai_Category info = "already-configured")
              (ar_AlreadyConfigured (scan a namespaces))
    /\ exists namespaces',
         inr namespaces = inr namespaces' :> string + list string
         /\ ar_Errors (scan a namespaces) = omap (errorOf a) namespaces').
  { rewrite Hn, Hr, Ha, He, Hid. split; [reflexivity |].
    split; [apply Hpure |]. split; [apply Hpure |]. split; [apply Hpure |].
    exists namespaces. split; reflexivity. }
  destruct (streq (showOnly a) ""); [split; [exact Ht | exact Hscan] |].
  split; [apply applyFilter_totalIsSum; exact Ht |].
  destruct Hscan as (Hid' & Hpn & Hpr & Hpa & Herr).
  unfold applyFilter.
  destruct (streq (showOnly a) "needs-removal"); simpl.
  { split; [exact Hid' |]. split; [exact Hpn |]. split; [constructor |].
    split; [constructor | exact Herr]. }
  destruct (streq (showOnly a) "ready-for-migration"); simpl.
  { split; [exact Hid' |]. split; [constructor |]. split; [exact Hpr |].
    split; [constructor | exact Herr]. }
  split; [exact Hid' |]. split; [exact Hpn |]. split; [exact Hpr |].
  split; [exact Hpa | exact Herr].
Qed.

(** X6. Whatever the filter, the audit that [run] returns has
    [TotalScanned] equal to the sum of the sizes of its buckets, names the
    management cluster audited, holds in each bucket only entries of the
    category of that bucket, and lists the errors of every namespace that
    matched: filtering hides buckets, never errors. *)
Theorem run_invariant :
  forall (a : auditOpts) (results : auditResults),
    run a = inr results ->
    totalIsSum results
    /\ ar_MgmtClusterID results = mgmtClusterID a
    /\ Forall (fun info => ai_Category info = "needs-removal")
              (ar_NeedsLabelRemoval results)
    /\ Forall (fun info => ai_Category info = "ready-for-migration")
              (ar_ReadyForMigration results)
    /\ Forall (fun info => ai_Category info = "already-configured")
              (ar_AlreadyConfigured results)
    /\ exists namespaces,
         listOcmNamespaces a = inr namespaces
         /\ ar_Errors results = omap (errorOf a) namespaces.
Proof. exact run_results. Qed.

(** X6 on the audit of the fixture, filtered to ready-for-migration. *)
Lemma run_invariant_witness :
  run (Fixture.audit "ready-for-migration") = inr (Sample.results "ready-for-migration")
  /\ totalIsSum (Sample.results "ready-for-migration")
  /\ ar_TotalScanned (Sample.results "ready-for-migration") = 3
  /\ length (ar_Errors (Sample.results "ready-for-migration")) = 2.
Proof.
  assert (Hrun : run (Fixture.audit "ready-for-migration")
                 = inr (Sample.results "ready-for-migration")).
  { apply returned. vm_compute. exact I. }
  split; [exact Hrun |].
  split; [exact (proj1 (run_invariant _ _ Hrun)) |].
  split; vm_compute; reflexivity.
Defined.

Lemma go_flag_validOutputs (output : string) :
  go_flag validOutputs output = true <->
  output = "text" \/ output = "json" \/ output = "yaml" \/ output = "csv".
Proof.
  unfold go_flag, validOutputs.
  rewrite !lookup_insert, lookup_singleton.
  repeat case_decide; subst; split; intros Hx; try reflexivity; try discriminate; auto;
    destruct Hx as [Hx | [Hx | [Hx | Hx]]]; congruence.
Qed.

Lemma go_flag_validFilters (f : string) :
  go_flag validFilters f = true <-> f = "needs-removal" \/ f = "ready-for-migration".
Proof.
  unfold go_flag, validFilters.
  rewrite !lookup_insert, lookup_singleton.
  repeat case_decide; subst; split; intros Hx; try reflexivity; try discriminate; auto;
    destruct Hx as [Hx | Hx]; congruence.
Qed.

(** X7. The options pass the checks of [run] exactly when the output format
    is one of text, json, yaml and csv and the filter is empty or one of
    needs-removal and ready-for-migration; the format is checked first, and
    each refusal quotes the value refused. A filter that passed is one that
    [applyFilter] knows: it never reaches the default branch that returns
    the audit unfiltered, so the already-configured bucket of a filtered
    audit is empty. *)
Theorem validateOptions_accepts :
  forall (output : string) (a : auditOpts),
    (validateOptions output a = None <->
       (output = "text" \/ output = "json" \/ output = "yaml" \/ output = "csv")
       /\ (showOnly a = "" \/ showOnly a = "needs-removal"
           \/ showOnly a = "ready-for-migration"))
    /\ (~ (output = "text" \/ output = "json" \/ output = "yaml" \/ output = "csv") ->
        validateOptions output a =
          Some ("invalid output format '" +:+ output
                +:+ "'. Valid options: text, json, yaml, csv"))
    /\ (validateOptions output a = None -> showOnly a <> "" ->
        forall results, ar_AlreadyConfigured (applyFilter (showOnly a) results) = []).
Proof.
  intros output a.
  pose proof (go_flag_validOutputs output) as Ho.
  pose proof (go_flag_validFilters (showOnly a)) as Hf.
  assert (Hiff : validateOptions output a = None <->
       (output = "text" \/ output = "json" \/ output = "yaml" \/ output = "csv")
       /\ (showOnly a = "" \/ showOnly a = "needs-removal"
           \/ showOnly a = "ready-for-migration")).
  { unfold validateOptions.
    destruct (go_flag validOutputs output).
    - simpl. destruct (streq (showOnly a) "") eqn:Es; simpl.
      + apply streq_true in Es. split; [intros _ | reflexivity].
        split; [apply Ho; reflexivity | left; exact Es].
      + apply streq_false in Es. destruct (go_flag validFilters (showOnly a)); simpl.
        * split; [intros _ | reflexivity].
          split; [apply Ho; reflexivity | right; apply Hf; reflexivity].
        * split; [discriminate |]. intros [_ [H | H]]; [contradiction |].
          apply Hf in H. discriminate.
    - simpl. split; [discriminate |]. intros [H _]. apply Ho in H. discriminate. }
  split; [exact Hiff |]. split.
  - intros Hbad. unfold validateOptions.
    destruct (go_flag validOutputs output); [| reflexivity].
    exfalso. apply Hbad, Ho. reflexivity.
  - intros Hok Hne results. apply Hiff in Hok as [_ [H | [H | H]]]; [contradiction | |];
      rewrite H; reflexivity.
Qed.

Lemma validateOptions_accepts_witness :
  validateOptions "csv" (Fixture.audit "ready-for-migration") = None
  /\ validateOptions "xml" (Fixture.audit "") =
       Some "invalid output format 'xml'. Valid options: text, json, yaml, csv"
  /\ validateOptions "json" (Fixture.audit "already-configured") =
       Some ("invalid show-only filter 'already-configured'. "
             +:+ "Valid options: needs-removal, ready-for-migration").
Proof.
  split; [| split].
  - apply (proj1 (validateOptions_accepts "csv" (Fixture.audit "ready-for-migration"))).
    split; [right; right; right; reflexivity | right; right; reflexivity].
  - apply (proj1 (proj2 (validateOptions_accepts "xml" (Fixture.audit "")))).
    intros [H | [H | [H | H]]]; discriminate.
  - reflexivity.
Defined.

(** X8. The CSV of an audit returned by [run] has, after the header if any,
    one record per cluster counted in [TotalScanned]; every record has five
    fields; and the category column reads needs-removal for the first
    bucket, then ready-for-migration, then already-configured. *)
Theorem printCSVOutput_rows :
  forall (noHeaders : bool) (a : auditOpts) (results : auditResults),
    run a = inr results ->
    let records := printCSVOutput noHeaders results in
    let header := if noHeaders then 0 else 1 in
    length records = header + ar_TotalScanned results
    /\ Forall (fun record => length record = 5) records
    /\ map (fun record => nth 4 record "") (drop header records) =
         replicate (length (ar_NeedsLabelRemoval results)) "needs-removal"
         ++ replicate (length (ar_ReadyForMigration results)) "ready-for-migration"
         ++ replicate (length (ar_AlreadyConfigured results)) "already-configured".
Proof.
  intros noHeaders a results Hrun records header.
  destruct (run_results _ _ Hrun) as (Ht & _ & Hn & Hr & Ha & _).
  assert (Hcol : forall c l,
    Forall (fun info => ai_Category info = c) l ->
    map (fun record => nth 4 record "")
        (map (fun c0 => [ai_ClusterID c0; ai_ClusterName c0; ai_Namespace c0;
                         ai_CurrentSize c0; ai_Category c0]) l)
    = replicate (length l) c).
  { intros c l Hl. induction Hl as [| info l Hc _ IH]; [reflexivity |].
    simpl. rewrite Hc, IH. reflexivity. }
  unfold records, header, printCSVOutput. red in Ht. rewrite Ht.
  destruct noHeaders; simpl negb; cbv iota.
  - simpl app at 1. rewrite length_map, !length_app. split; [lia |]. split.
    + apply Forall_forall. intros record Hin.
      apply list_elem_of_fmap in Hin as (info & -> & _). reflexivity.
    + rewrite drop_0, !map_app, (Hcol _ _ Hn), (Hcol _ _ Hr), (Hcol _ _ Ha).
      rewrite <- app_assoc. reflexivity.
  - simpl. rewrite length_map, !length_app. split; [lia |]. split.
    + constructor; [reflexivity |]. apply Forall_forall. intros record Hin.
      apply list_elem_of_fmap in Hin as (info & -> & _). reflexivity.
    + rewrite drop_0, !map_app, (Hcol _ _ Hn), (Hcol _ _ Hr), (Hcol _ _ Ha).
      rewrite <- app_assoc. reflexivity.
Qed.

(** X8 on the audit of the fixture: a header and six records. *)
Lemma printCSVOutput_rows_witness :
  run (Fixture.audit "") = inr (Sample.results "")
  /\ length (printCSVOutput false (Sample.results "")) = 1 + ar_TotalScanned (Sample.results "")
  /\ ar_TotalScanned (Sample.results "") = 6.
Proof.
  assert (Hrun : run (Fixture.audit "") = inr (Sample.results "")).
  { apply returned. vm_compute. exact I. }
  split; [exact Hrun |].
  split; [exact (proj1 (printCSVOutput_rows false _ _ Hrun)) |].
  vm_compute. reflexivity.
Defined.

Lemma candidates_loop (a : auditOpts) (namespaces : list string) :
  forall candidates,
    fold_left (candidateStep a) namespaces candidates =
      candidates ++ omap (entryOf a "ready-for-migration") namespaces.
Proof.
  induction namespaces as [| ns rest IH]; intros candidates.
  - simpl. rewrite app_nil_r. reflexivity.
  - simpl fold_left. rewrite IH, omap_cons. unfold candidateStep, entryOf.
    destruct (auditNamespace a ns) as [err | info]; [reflexivity |].
    destruct (streq (ai_Category info) "ready-for-migration"); [| reflexivity].
    rewrite <- app_assoc. reflexivity.
Qed.

(** X9. The candidates of a migration are the ready-for-migration bucket of
    an audit of the same management cluster, in the same order; the listing
    of the namespaces is the only failure passed on. So no candidate carries
    the override annotation, and none passes the verifier's predicate
    already. *)
Theorem getCandidatesForMigration_is_ready_bucket :
  forall (mgmtClusterID : string) (mgmtClient : Client),
    let a := {| mgmtClusterID := mgmtClusterID; showOnly := "";
                mgmtClient := mgmtClient |} in
    (forall err,
       getCandidatesForMigration mgmtClusterID mgmtClient = inl err <->
       List_Namespaces mgmtClient = inl err)
    /\ (forall candidates,
          getCandidatesForMigration mgmtClusterID mgmtClient = inr candidates ->
          (exists results,
             run a = inr results /\ candidates = ar_ReadyForMigration results)
          /\ Forall (fun info =>
                       ai_Category info = "ready-for-migration"
                       /\ annotationsOf (recordOf info) !! annOverride = None
                       /\ hasRequiredAnnotations (recordOf info) = false)
                    candidates).
Proof.
  intros mgmtClusterID mgmtClient a. unfold getCandidatesForMigration. fold a.
  split.
  - intros err. unfold listOcmNamespaces. simpl.
    destruct (List_Namespaces mgmtClient) as [e | items]; split; intros [= ->]; reflexivity.
  - intros candidates. unfold run.
    destruct (listOcmNamespaces a) as [err | namespaces]; [discriminate |].
    intros [= <-]. rewrite candidates_loop. simpl app.
    destruct (scan_buckets a namespaces) as (_ & Hr & _).
    split.
    + exists (scan a namespaces). split; [reflexivity | symmetry; exact Hr].
    + eapply Forall_impl; [apply ready_entries |].
      intros info (? & ? & ? & _). auto.
Qed.

(** X9 on the management cluster of the fixture. *)
Lemma getCandidatesForMigration_is_ready_bucket_witness :
  getCandidatesForMigration "test-cluster" Fixture.cluster = inr Sample.candidates
  /\ map ai_ClusterID Sample.candidates = ["cluster3"; "cluster4"; "cluster5"]
  /\ Forall (fun info => ai_Category info = "ready-for-migration"
                         /\ annotationsOf (recordOf info) !! annOverride = None
                         /\ hasRequiredAnnotations (recordOf info) = false)
            Sample.candidates.
Proof.
  assert (Hget : getCandidatesForMigration "test-cluster" Fixture.cluster
                 = inr Sample.candidates).
  { apply returned. vm_compute. exact I. }
  split; [exact Hget |].
  split; [vm_compute; reflexivity |].
  exact (proj2 (proj2 (getCandidatesForMigration_is_ready_bucket
                         "test-cluster" Fixture.cluster) _ Hget)).
Defined.

(** ** The migration *)

Section MigrationMore.
Context {L : GoLib}.

(** The ways [patchManifestWork] can run. *)
Lemma patchManifestWork_inv (m : migrateOpts) (clusterID : string) (w w1 : World)
    (r : error) :
  patchManifestWork m clusterID w = Some (r, w1) ->
  exists got,
    w_serviceGet w = got :: w_serviceGet w1
    /\ w_events w1 = w_events w
    /\ w_now w1 = w_now w
    /\ ((w_trace w1 = w_trace w ++ [EServiceGet (mgmtClusterName m) clusterID]
         /\ w_serviceUpdate w1 = w_serviceUpdate w
         /\ ((exists err,
                got = inl err
                /\ r = Some ("failed to get ManifestWork " +:+ mgmtClusterName m +:+ "/"
                             +:+ clusterID +:+ ": " +:+ err))
             \/ (exists mw err,
                   got = inr mw /\ patchManifests (mw_Manifests mw) = inl err
                   /\ r = Some err)))
        \/ (exists mw manifests answer,
              got = inr mw
              /\ patchManifests (mw_Manifests mw) = inr manifests
              /\ w_serviceUpdate w = answer :: w_serviceUpdate w1
              /\ w_trace w1 = w_trace w ++ [EServiceGet (mgmtClusterName m) clusterID;
                                            EServiceUpdate (withManifests mw manifests)]
              /\ r = match answer with
                     | Some err => Some ("failed to update ManifestWork: " +:+ err)
                     | None => None
                     end)).
Proof.
  unfold patchManifestWork, bind, serviceClient_Get, serviceClient_Update, ret.
  destruct (w_serviceGet w) as [| got gets] eqn:Hg; [discriminate |].
  destruct got as [err | mw].
  - intros [= <- <-]. exists (inl err). repeat split. left. repeat split.
    left. exists err. split; reflexivity.
  - destruct (patchManifests (mw_Manifests mw)) as [err | manifests] eqn:Hp.
    + intros [= <- <-]. exists (inr mw). repeat split. left. repeat split.
      right. exists mw, err. repeat split. exact Hp.
    + simpl. destruct (w_serviceUpdate w) as [| answer updates] eqn:Hu; [discriminate |].
      intros Hrun. exists (inr mw).
      assert (Hw1 : w1 = logged (EServiceUpdate (withManifests mw manifests))
                           (set_serviceUpdate updates
                              (logged (EServiceGet (mgmtClusterName m) clusterID)
                                 (set_serviceGet gets w)))
                    /\ r = match answer with
                           | Some err => Some ("failed to update ManifestWork: " +:+ err)
                           | None => None
                           end).
      { destruct answer; injection Hrun as <- <-; split; reflexivity. }
      destruct Hw1 as [-> ->]. repeat split. right.
      exists mw, manifests, answer. repeat split; try assumption.
      simpl. rewrite <- app_assoc. reflexivity.
Qed.

(** X10. [patchManifestWork] asks the service cluster for the ManifestWork
    once, and writes at most once: only after the manifests were patched in
    memory, and then it sends the ManifestWork it fetched with the patched
    manifests in place of the old ones. When the [Get] fails, when no
    HostedCluster is found, or when the encoding fails, nothing is written.
    The error tells the step that failed; the patch never waits on an event
    nor reads the clock. *)
Theorem patchManifestWork_writes_once :
  forall (m : migrateOpts) (clusterID : string) (w w1 : World) (r : error),
    patchManifestWork m clusterID w = Some (r, w1) ->
    exists got,
      w_serviceGet w = got :: w_serviceGet w1
      /\ w_events w1 = w_events w
      /\ w_now w1 = w_now w
      /\ ((w_trace w1 = w_trace w ++ [EServiceGet (mgmtClusterName m) clusterID]
           /\ w_serviceUpdate w1 = w_serviceUpdate w
           /\ ((exists err,
                  got = inl err
                  /\ r = Some ("failed to get ManifestWork " +:+ mgmtClusterName m +:+ "/"
                               +:+ clusterID +:+ ": " +:+ err))
               \/ (exists mw err,
                     got = inr mw /\ patchManifests (mw_Manifests mw) = inl err
                     /\ r = Some err)))
          \/ (exists mw manifests answer,
                got = inr mw
                /\ patchManifests (mw_Manifests mw) = inr manifests
                /\ w_serviceUpdate w = answer :: w_serviceUpdate w1
                /\ w_trace w1 = w_trace w ++ [EServiceGet (mgmtClusterName m) clusterID;
                                              EServiceUpdate (withManifests mw manifests)]
                /\ r = match answer with
                       | Some err => Some ("failed to update ManifestWork: " +:+ err)
                       | None => None
                       end)).
Proof. exact patchManifestWork_inv. Qed.

End MigrationMore.

Lemma patchManifestWork_writes_once_witness :
  exists w1,
    patchManifestWork (L := Reference.lib) Scenario.opts "cluster3" Sample.found
      = Some (None, w1)
    /\ w_trace w1 = [EServiceGet "test-mgmt-cluster" "cluster3";
                     EServiceUpdate {| mw_Name := "cluster3";
                                       mw_Namespace := "test-mgmt-cluster";
                                       mw_Manifests := Fixture.patchedManifests |}]
    /\ w_serviceGet w1 = [] /\ w_serviceUpdate w1 = [].
Proof.
  destruct (patchManifestWork (L := Reference.lib) Scenario.opts "cluster3" Sample.found)
    as [[[err |] w1] |] eqn:Hrun; try (vm_compute in Hrun; discriminate).
  exists w1. split; [reflexivity |].
  destruct (patchManifestWork_writes_once (L := Reference.lib) _ _ _ _ _ Hrun)
    as (got & Hg & _ & _ & [(_ & _ & [(err & _ & [=]) | (mw & err & Hgot & Hp & [=])])
                           | (mw & manifests & answer & Hgot & Hp & Hu & Ht & _)]).
  simpl in Hg, Hu. injection Hg as <- <-. injection Hu as _ <-.
  injection Hgot as <-. rewrite Ht.
  assert (Hm : manifests = Fixture.patchedManifests).
  { vm_compute in Hp. injection Hp as <-. vm_compute. reflexivity. }
  rewrite Hm. repeat split.
Defined.

Lemma handled_now info e w :
  w_now (handled info e w) =
    match chosen e with
    | CaseDone => selectedAt e
    | CaseTick t => returned_at t
    end.
Proof.
  unfold handled. destruct (chosen e) as [| t]; [reflexivity |].
  destruct (satisfied t); reflexivity.
Qed.

Lemma polled_service info pre w :
  w_serviceGet (polled info pre w) = w_serviceGet w
  /\ w_serviceUpdate (polled info pre w) = w_serviceUpdate w.
Proof.
  revert w. induction pre as [| e pre IH]; intros w; [split; reflexivity |].
  simpl. destruct (IH (handled info e w)) as [-> ->]. apply handled_service.
Qed.

Lemma keepsPolling_true deadline e :
  keepsPolling deadline e = true <->
  exists t, chosen e = CaseTick t /\ satisfied t = false
            /\ (returned_at t <= deadline)%Z.
Proof.
  unfold keepsPolling. destruct (chosen e) as [| t].
  - split; [discriminate | intros (t & [=] & _)].
  - rewrite andb_true_iff, !negb_true_iff, Z.gtb_ltb, Z.ltb_ge. split.
    + intros [Hs Hd]. exists t. auto.
    + intros (t' & [= <-] & Hs & Hd). auto.
Qed.

(** X11. Whatever the verifier answers, it has taken the events up to the
    first one that ends the polling, and every event before that one was a
    tick whose fetch failed or did not show the annotations, no later than
    the deadline. It answers success only for a tick whose fetch returned a
    record that has the required annotations, and the clock then shows the
    time that fetch returned; it answers with the cancellation error only
    when [select] took the context; and it has no other answer than success,
    the cancellation error and the two timeout errors. *)
Theorem waitForSync_sound :
  forall (m : migrateOpts) (info : hostedClusterAuditInfo) (w w' : World) (r : error),
    waitForSync m info w = Some (r, w') ->
    exists pre e,
      w_events w = pre ++ e :: w_events w'
      /\ Forall (fun e' => exists t, chosen e' = CaseTick t /\ satisfied t = false
                                     /\ (returned_at t <= w_now w + timeout)%Z) pre
      /\ (r = None ->
          exists t hc, chosen e = CaseTick t /\ fetched t = inr hc
                       /\ hasRequiredAnnotations hc = true
                       /\ w_now w' = returned_at t)
      /\ (r = Some "context cancelled" -> chosen e = CaseDone)
      /\ (r = None \/ r = Some "context cancelled"
          \/ r = Some "timeout waiting for sync after 5m0s"
          \/ r = Some "timeout: annotations did not sync after 5m0s").
Proof.
  intros m info w w' r Hrun.
  destruct (waitForSync_inv _ _ _ _ _ Hrun) as (pre & e & Hw & Hpre & He & -> & ->).
  exists pre, e. split; [exact Hw |]. split.
  { eapply Forall_impl; [exact Hpre |]. intros e' He'. apply keepsPolling_true. exact He'. }
  rewrite handled_now. unfold verdict.
  destruct (chosen e) as [| t]; [repeat split; try discriminate; auto |].
  destruct (fetched t) as [err | hc] eqn:Hf; [repeat split; try discriminate; auto |].
  destruct (hasRequiredAnnotations hc) eqn:Hh; repeat split; try discriminate; auto.
  intros _. exists t, hc. auto.
Qed.

Lemma waitForSync_sound_witness :
  exists w',
    waitForSync Scenario.opts Scenario.info Scenario.lateSuccess = Some (None, w')
    /\ exists pre e,
         w_events Scenario.lateSuccess = pre ++ e :: w_events w'
         /\ length pre = 2
         /\ exists t hc, chosen e = CaseTick t /\ fetched t = inr hc
                         /\ hasRequiredAnnotations hc = true
                         /\ w_now w' = returned_at t.
Proof.
  destruct (waitForSync Scenario.opts Scenario.info Scenario.lateSuccess)
    as [[[err |] w'] |] eqn:Hrun; try (vm_compute in Hrun; discriminate).
  exists w'. split; [reflexivity |].
  destruct (waitForSync_sound _ _ _ _ _ Hrun) as (pre & e & Hw & _ & Hok & _).
  exists pre, e. split; [exact Hw |]. split; [| exact (Hok eq_refl)].
  apply (f_equal (@length Event)) in Hw. rewrite length_app in Hw.
  vm_compute in Hrun. injection Hrun as <-. simpl in Hw. lia.
Defined.

(** What the verifier asks of the environment. *)
Lemma waitForSync_calls m info w r w' :
  waitForSync m info w = Some (r, w') ->
  exists consumed,
    w_events w = consumed ++ w_events w'
    /\ w_trace w' = w_trace w ++ ENow :: flat_map (effectsOf info) consumed
    /\ w_serviceGet w' = w_serviceGet w
    /\ w_serviceUpdate w' = w_serviceUpdate w.
Proof.
  intros Hrun.
  destruct (waitForSync_inv _ _ _ _ _ Hrun) as (pre & e & Hw & _ & _ & _ & ->).
  exists (pre ++ [e]). rewrite <- app_assoc. split; [exact Hw |].
  rewrite handled_trace, polled_trace. simpl w_trace.
  destruct (handled_service info e (polled info pre (logged ENow w))) as [-> ->].
  destruct (polled_service info pre (logged ENow w)) as [-> ->].
  rewrite flat_map_app. simpl. rewrite app_nil_r, <- !app_assoc. repeat split.
Qed.

Lemma effectsOf_counts info (events : list Event) :
  length (List.filter isSelect (flat_map (effectsOf info) events)) = length events
  /\ length (List.filter isMgmtGet (flat_map (effectsOf info) events))
     = length (List.filter tickTaken events)
  /\ List.filter isServiceGet (flat_map (effectsOf info) events) = []
  /\ List.filter isServiceUpdate (flat_map (effectsOf info) events) = []
  /\ Forall (fun c => c = ESelect \/ c = ENow
                      \/ c = EMgmtGet (ai_Namespace info) (ai_ClusterName info))
            (flat_map (effectsOf info) events).
Proof.
  induction events as [| e events (IH1 & IH2 & IH3 & IH4 & IH5)].
  - repeat split. constructor.
  - simpl flat_map. rewrite !List.filter_app, !length_app, IH1, IH2, IH3, IH4.
    simpl List.filter. unfold effectsOf, tickTaken.
    destruct (chosen e) as [| t]; [| destruct (satisfied t)]; simpl;
      (repeat split; repeat (apply Forall_cons_2; [auto |]); exact IH5).
Qed.

(** X12. The verifier works on the management cluster only: it asks the
    service cluster nothing and writes nothing. It reads the clock once to
    fix the deadline before the first [select]; after that it makes one
    [select] per event it takes and one fetch per tick taken, always of the
    record named by the candidate's namespace and cluster name. *)
Theorem waitForSync_frame :
  forall (m : migrateOpts) (info : hostedClusterAuditInfo) (w w' : World) (r : error),
    waitForSync m info w = Some (r, w') ->
    w_serviceGet w' = w_serviceGet w
    /\ w_serviceUpdate w' = w_serviceUpdate w
    /\ exists consumed calls,
         w_events w = consumed ++ w_events w'
         /\ w_trace w' = w_trace w ++ ENow :: calls
         /\ Forall (fun c => c = ESelect \/ c = ENow
                             \/ c = EMgmtGet (ai_Namespace info) (ai_ClusterName info))
                   calls
         /\ length (List.filter isSelect calls) = length consumed
         /\ length (List.filter isMgmtGet calls) = length (List.filter tickTaken consumed).
Proof.
  intros m info w w' r Hrun.
  destruct (waitForSync_calls _ _ _ _ _ Hrun) as (consumed & Hw & Ht & Hg & Hu).
  split; [exact Hg |]. split; [exact Hu |].
  exists consumed, (flat_map (effectsOf info) consumed).
  destruct (effectsOf_counts info consumed) as (H1 & H2 & _ & _ & H5).
  repeat split; assumption.
Qed.

Lemma waitForSync_frame_witness :
  exists w',
    waitForSync Scenario.opts Scenario.info Scenario.cancelled
      = Some (Some "context cancelled", w')
    /\ w_trace w' = [ENow; ESelect; EMgmtGet "ocm-production-abc123" "test-cluster"; ENow;
                     ESelect]
    /\ w_serviceGet w' = [] /\ w_serviceUpdate w' = [].
Proof.
  destruct (waitForSync Scenario.opts Scenario.info Scenario.cancelled)
    as [[r w'] |] eqn:Hrun; [| vm_compute in Hrun; discriminate].
  destruct (waitForSync_frame _ _ _ _ _ Hrun) as (Hg & Hu & _).
  exists w'. rewrite Hg, Hu.
  vm_compute in Hrun. injection Hrun as <- <-. repeat split.
Defined.

(** X13. When every tick is handled no earlier than the cadence of the
    ticker allows (the fetch of the k-th event returns at least k poll
    intervals after the start) and the environment has 21 events to offer,
    the verifier returns, and it has taken at most 21 of them: the clock
    read after the 20th failed or negative fetch is past the deadline of
    five minutes. *)
Theorem waitForSync_terminates :
  forall (m : migrateOpts) (info : hostedClusterAuditInfo) (w : World),
    21 <= length (w_events w) ->
    (forall k e t,
        w_events w !! k = Some e -> chosen e = CaseTick t ->
        (w_now w + Z.of_nat (S k) * pollInterval <= returned_at t)%Z) ->
    exists r w',
      waitForSync m info w = Some (r, w')
      /\ length (w_events w) <= length (w_events w') + 21.
Proof.
  intros m info w Hlen Hcadence.
  assert (Hstop : forall e, w_events w !! 20 = Some e ->
                            keepsPolling (w_now w + timeout) e = false).
  { intros e He. unfold keepsPolling.
    destruct (chosen e) as [| t] eqn:Hc; [reflexivity |].
    pose proof (Hcadence 20 e t He Hc) as Hlate.
    apply andb_false_iff. right. apply negb_false_iff.
    rewrite Z.gtb_ltb. apply Z.ltb_lt.
    unfold timeout, pollInterval, Minute, Second in *. lia. }
  destruct (first_ending (w_now w + timeout) (w_events w))
    as [Hall | (pre & e & post & Hw & Hpre & He)].
  - exfalso.
    destruct (lookup_lt_is_Some_2 (w_events w) 20) as [e He]; [lia |].
    pose proof (Forall_lookup_1 _ _ _ _ Hall He) as Hkeep. simpl in Hkeep.
    rewrite (Hstop e He) in Hkeep. discriminate.
  - eexists _, _. split; [exact (waitForSync_run _ _ _ _ _ _ Hw Hpre He) |].
    rewrite handled_events, (polled_events info pre (logged ENow w) (e :: post) Hw).
    rewrite Hw, length_app. simpl.
    destruct (le_lt_dec (length pre) 20) as [Hle | Hgt]; [lia | exfalso].
    destruct (lookup_lt_is_Some_2 pre 20) as [e' He']; [lia |].
    pose proof (Forall_lookup_1 _ _ _ _ Hpre He') as Hkeep. simpl in Hkeep.
    rewrite (Hstop e') in Hkeep; [discriminate |].
    rewrite Hw. apply lookup_app_l_Some. exact He'.
Qed.

Lemma waitForSync_terminates_witness :
  exists r w',
    waitForSync Scenario.opts Scenario.info Sample.steady = Some (r, w')
    /\ length (w_events Sample.steady) <= length (w_events w') + 21.
Proof.
  apply waitForSync_terminates.
  - vm_compute. lia.
  - intros k e t He Hc. unfold Sample.steady, Scenario.polling in He.
    cbn [w_events] in He. rewrite list_lookup_fmap in He.
    destruct (seqZ 1 25 !! k) as [z |] eqn:Hz; [| discriminate].
    apply lookup_seqZ in Hz as [-> Hk]. simpl in He. injection He as <-.
    simpl in Hc. injection Hc as <-.
    unfold Scenario.tick, Scenario.seconds, pollInterval, Second. simpl. lia.
Defined.

Section OrchestratorMore.
Context {L : GoLib}.

(** The ways [migrateCluster] can run. *)
Lemma migrateCluster_inv (m : migrateOpts) (c : hostedClusterAuditInfo) (w w' : World)
    (r : migrationResult) :
  migrateCluster m c w = Some (r, w') ->
  (exists w1 w2,
      patchManifestWork m (ai_ClusterID c) w = Some (None, w1)
      /\ waitForSync m c w1 = Some (None, w2)
      /\ w' = logged ENow w2
      /\ r = {| mr_ClusterID := ai_ClusterID c;
                mr_ClusterName := ai_ClusterName c;
                mr_Status := "success";
                mr_Error := "";
                mr_VerifiedAt := time_Format_RFC3339 (w_now w2) |})
  \/ (exists err,
        patchManifestWork m (ai_ClusterID c) w = Some (Some err, w')
        /\ r = {| mr_ClusterID := ai_ClusterID c;
                  mr_ClusterName := ai_ClusterName c;
                  mr_Status := "failed";
                  mr_Error := "failed to patch ManifestWork: " +:+ err;
                  mr_VerifiedAt := "" |})
  \/ (exists err w1,
        patchManifestWork m (ai_ClusterID c) w = Some (None, w1)
        /\ waitForSync m c w1 = Some (Some err, w')
        /\ r = {| mr_ClusterID := ai_ClusterID c;
                  mr_ClusterName := ai_ClusterName c;
                  mr_Status := "failed";
                  mr_Error := "sync verification failed: " +:+ err;
                  mr_VerifiedAt := "" |}).
Proof.
  rewrite migrateCluster_cases.
  destruct (patchManifestWork m (ai_ClusterID c) w) as [[[err |] w1] |]; [| | discriminate].
  - intros [= <- <-]. right. left. exists err. split; reflexivity.
  - destruct (waitForSync m c w1) as [[[err |] w2] |] eqn:Hwait; [| | discriminate].
    + intros [= <- <-]. right. right. exists err, w1. repeat split. exact Hwait.
    + intros [= <- <-]. left. exists w1, w2. repeat split. exact Hwait.
Qed.

(** What one migration asks of the environment. *)
Lemma migrateCluster_calls (m : migrateOpts) (c : hostedClusterAuditInfo) (w w' : World)
    (r : migrationResult) :
  migrateCluster m c w = Some (r, w') ->
  exists got calls,
    w_serviceGet w = got :: w_serviceGet w'
    /\ w_trace w' = w_trace w ++ calls
    /\ List.filter isServiceGet calls = [EServiceGet (mgmtClusterName m) (ai_ClusterID c)]
    /\ length (List.filter isServiceUpdate calls) <= 1
    /\ (mr_Status r = "success" -> length (List.filter isServiceUpdate calls) = 1).
Proof.
  intros Hrun.
  assert (Hpatch : forall r1 w1,
             patchManifestWork m (ai_ClusterID c) w = Some (r1, w1) ->
             exists got calls,
               w_serviceGet w = got :: w_serviceGet w1
               /\ w_trace w1 = w_trace w ++ calls
               /\ List.filter isServiceGet calls
                  = [EServiceGet (mgmtClusterName m) (ai_ClusterID c)]
               /\ length (List.filter isServiceUpdate calls) <= 1
               /\ (r1 = None -> length (List.filter isServiceUpdate calls) = 1)).
  { intros r1 w1 Hp.
    destruct (patchManifestWork_inv _ _ _ _ _ Hp)
      as (got & Hg & _ & _ & [(Ht & _ & Hr) | (mw & ms & answer & _ & _ & _ & Ht & _)]).
    - exists got, [EServiceGet (mgmtClusterName m) (ai_ClusterID c)].
      repeat split; try assumption; simpl; try lia.
      intros ->. destruct Hr as [(err & _ & [=]) | (mw & err & _ & _ & [=])].
    - exists got, [EServiceGet (mgmtClusterName m) (ai_ClusterID c);
                   EServiceUpdate (withManifests mw ms)].
      repeat split; try assumption; simpl; lia. }
  assert (Hwait : forall r2 w1 w2,
             waitForSync m c w1 = Some (r2, w2) ->
             exists calls,
               w_serviceGet w2 = w_serviceGet w1
               /\ w_trace w2 = w_trace w1 ++ calls
               /\ List.filter isServiceGet calls = []
               /\ List.filter isServiceUpdate calls = []).
  { intros r2 w1 w2 Hw.
    destruct (waitForSync_calls _ _ _ _ _ Hw) as (consumed & _ & Ht & Hg & _).
    destruct (effectsOf_counts c consumed) as (_ & _ & H3 & H4 & _).
    exists (ENow :: flat_map (effectsOf c) consumed). simpl. auto. }
  destruct (migrateCluster_inv _ _ _ _ _ Hrun)
    as [(w1 & w2 & Hp & Hw & -> & ->) | [(err & Hp & ->) | (err & w1 & Hp & Hw & ->)]].
  - destruct (Hpatch _ _ Hp) as (got & calls1 & Hg1 & Ht1 & Hf1 & Hu1 & Hs1).
    destruct (Hwait _ _ _ Hw) as (calls2 & Hg2 & Ht2 & Hf2 & Hu2).
    exists got, (calls1 ++ calls2 ++ [ENow]). simpl.
    rewrite Ht2, Ht1, Hg2, <- !app_assoc, !List.filter_app, Hf1, Hf2, Hu2. simpl.
    rewrite app_nil_r, (Hs1 eq_refl). repeat split; try assumption; lia.
  - destruct (Hpatch _ _ Hp) as (got & calls1 & Hg1 & Ht1 & Hf1 & Hu1 & _).
    exists got, calls1. repeat split; try assumption. discriminate.
  - destruct (Hpatch _ _ Hp) as (got & calls1 & Hg1 & Ht1 & Hf1 & Hu1 & _).
    destruct (Hwait _ _ _ Hw) as (calls2 & Hg2 & Ht2 & Hf2 & Hu2).
    exists got, (calls1 ++ calls2).
    rewrite Ht2, Ht1, Hg2, <- !app_assoc, !List.filter_app, Hf1, Hf2, Hu2. simpl.
    rewrite app_nil_r. repeat split; try assumption. discriminate.
Qed.

(** X14. A migration is reported as a success only when the ManifestWork was
    fetched, a HostedCluster manifest in it was patched, the update of the
    ManifestWork with the patched manifests was accepted, and after that a
    fetch from the management cluster returned a record that has the
    required annotations; the result then carries no error and the time of
    the clock at the end of the migration, which is the time that fetch
    returned. A migration reported as failed carries an error that names the
    step that failed, and no timestamp. There is no third status. *)
Theorem migrateCluster_success_sound :
  forall (m : migrateOpts) (c : hostedClusterAuditInfo) (w w' : World)
         (r : migrationResult),
    migrateCluster m c w = Some (r, w') ->
    (mr_Status r = "success" ->
     exists mw manifests gets updates calls e t hc,
       w_serviceGet w = inr mw :: gets
       /\ patchManifests (mw_Manifests mw) = inr manifests
       /\ w_serviceUpdate w = None :: updates
       /\ w_trace w' = w_trace w ++ EServiceGet (mgmtClusterName m) (ai_ClusterID c)
                                 :: EServiceUpdate (withManifests mw manifests) :: calls
       /\ e ∈ w_events w /\ chosen e = CaseTick t
       /\ fetched t = inr hc /\ hasRequiredAnnotations hc = true
       /\ w_now w' = returned_at t
       /\ mr_Error r = ""
       /\ mr_VerifiedAt r = time_Format_RFC3339 (w_now w'))
    /\ (mr_Status r = "failed" ->
        mr_VerifiedAt r = ""
        /\ exists err, mr_Error r = "failed to patch ManifestWork: " +:+ err
                       \/ mr_Error r = "sync verification failed: " +:+ err)
    /\ (mr_Status r = "success" \/ mr_Status r = "failed").
Proof.
  intros m c w w' r Hrun.
  destruct (migrateCluster_inv _ _ _ _ _ Hrun)
    as [(w1 & w2 & Hp & Hw & -> & ->) | [(err & Hp & ->) | (err & w1 & Hp & Hw & ->)]];
    simpl.
  - split; [| split; [discriminate | left; reflexivity]]. intros _.
    destruct (patchManifestWork_inv _ _ _ _ _ Hp)
      as (got & Hg & He & Hn & [(_ & _ & [(err & _ & [=]) | (mw & err & _ & _ & [=])])
                               | (mw & ms & answer & -> & Hpm & Hu & Ht & Hr)]).
    destruct answer as [err |]; [discriminate |].
    destruct (waitForSync_inv _ _ _ _ _ Hw) as (pre & e & Hev & _ & _ & Hv & Hw2).
    assert (Hnow : w_now w2 = match chosen e with
                              | CaseDone => selectedAt e
                              | CaseTick t => returned_at t
                              end).
    { rewrite Hw2. apply handled_now. }
    destruct (waitForSync_calls _ _ _ _ _ Hw) as (consumed & _ & Ht2 & _ & _).
    unfold verdict in Hv.
    destruct (chosen e) as [| t] eqn:Hc; [discriminate |].
    destruct (fetched t) as [err | hc] eqn:Hf; [discriminate |].
    destruct (hasRequiredAnnotations hc) eqn:Hh; [| discriminate].
    exists mw, ms, (w_serviceGet w1), (w_serviceUpdate w1),
           ((ENow :: flat_map (effectsOf c) consumed) ++ [ENow]), e, t, hc.
    repeat split; try assumption.
    + rewrite Ht2, Ht, <- !app_assoc. reflexivity.
    + rewrite <- He, Hev. apply elem_of_app. right. apply elem_of_cons. left. reflexivity.
  - split; [discriminate |]. split; [| right; reflexivity].
    intros _. split; [reflexivity |]. exists err. left. reflexivity.
  - split; [discriminate |]. split; [| right; reflexivity].
    intros _. split; [reflexivity |]. exists err. right. reflexivity.
Qed.

(** What a batch asks of the service cluster, and the statuses it reports. *)
Lemma migrateClusters_calls (m : migrateOpts) (cs : list hostedClusterAuditInfo) :
  forall (w w' : World) (rs : list migrationResult),
    migrateClusters m cs w = Some (rs, w') ->
    length rs = length cs
    /\ Forall (fun r => mr_Status r = "success" \/ mr_Status r = "failed") rs
    /\ exists gets calls,
         w_serviceGet w = gets ++ w_serviceGet w'
         /\ length gets = length cs
         /\ w_trace w' = w_trace w ++ calls
         /\ List.filter isServiceGet calls
            = map (fun c => EServiceGet (mgmtClusterName m) (ai_ClusterID c)) cs
         /\ length (List.filter (fun r => streq (mr_Status r) "success") rs)
            <= length (List.filter isServiceUpdate calls)
            <= length cs.
Proof.
  induction cs as [| c cs IH]; intros w w' rs.
  - intros [= <- <-]. split; [reflexivity |]. split; [constructor |].
    exists [], []. simpl. rewrite app_nil_r. repeat split; lia.
  - rewrite migrateClusters_cons.
    destruct (migrateCluster m c w) as [[r w1] |] eqn:Hone; [| discriminate].
    destruct (migrateClusters m cs w1) as [[rs' w2] |] eqn:Hrest; [| discriminate].
    intros [= <- <-].
    destruct (IH _ _ _ Hrest) as (Hlen & Hst & gets & calls & Hg & Hgl & Ht & Hf & Hu).
    destruct (migrateCluster_calls _ _ _ _ _ Hone) as (got & calls1 & Hg1 & Ht1 & Hf1 & Hu1 & Hs1).
    destruct (migrateCluster_result _ _ _ _ _ Hone) as (_ & _ & Hst1).
    split; [simpl; lia |]. split; [constructor; assumption |].
    exists (got :: gets), (calls1 ++ calls).
    rewrite Ht, Ht1, Hg1, Hg, <- app_assoc, !List.filter_app, !length_app, Hf1, Hf.
    repeat split; simpl; try lia.
    + destruct (streq (mr_Status r) "success") eqn:Hs; simpl; [| lia].
      apply streq_true in Hs. rewrite (Hs1 Hs). lia.
Qed.

(** X15. A batch asks the service cluster for exactly one ManifestWork per
    candidate, in the order of the candidates, each in the namespace named
    after the management cluster and under the candidate's cluster ID; it
    uses up one answer of the service cluster per candidate. It writes at
    most one update per candidate, and at least one per migration it reports
    as a success. *)
Theorem migrateClusters_one_get_each :
  forall (m : migrateOpts) (cs : list hostedClusterAuditInfo) (w w' : World)
         (rs : list migrationResult),
    migrateClusters m cs w = Some (rs, w') ->
    exists gets calls,
      w_serviceGet w = gets ++ w_serviceGet w'
      /\ length gets = length cs
      /\ w_trace w' = w_trace w ++ calls
      /\ List.filter isServiceGet calls
         = map (fun c => EServiceGet (mgmtClusterName m) (ai_ClusterID c)) cs
      /\ length (List.filter (fun r => streq (mr_Status r) "success") rs)
         <= length (List.filter isServiceUpdate calls)
         <= length cs.
Proof.
  intros m cs w w' rs Hrun.
  exact (proj2 (proj2 (migrateClusters_calls m cs w w' rs Hrun))).
Qed.

End OrchestratorMore.

(** X14 on the second candidate of the batch of the fixture: the update of
    its ManifestWork is accepted, and its second tick shows the annotations
    at 31 s. *)
Lemma migrateCluster_success_sound_witness :
  migrateCluster (L := Reference.lib) Scenario.opts Scenario.info Sample.second
    = Some Sample.migratedSecond
  /\ mr_Status (fst Sample.migratedSecond) = "success"
  /\ mr_Error (fst Sample.migratedSecond) = ""
  /\ mr_VerifiedAt (fst Sample.migratedSecond)
     = time_Format_RFC3339 (GoLib := Reference.lib) (w_now (snd Sample.migratedSecond))
  /\ w_now (snd Sample.migratedSecond) = Scenario.seconds 31.
Proof.
  assert (Hrun : migrateCluster (L := Reference.lib) Scenario.opts Scenario.info
                   Sample.second
                 = Some (fst Sample.migratedSecond, snd Sample.migratedSecond)).
  { rewrite <- surjective_pairing. apply ran. vm_compute. exact I. }
  assert (Hs : mr_Status (fst Sample.migratedSecond) = "success")
    by (vm_compute; reflexivity).
  destruct (proj1 (migrateCluster_success_sound (L := Reference.lib) _ _ _ _ _ Hrun) Hs)
    as (mw & ms & gets & updates & calls & e & t & hc & _ & _ & _ & _ & _ & _ & _ & _
        & _ & He & Hv).
  split; [rewrite Hrun, <- surjective_pairing; reflexivity |].
  split; [exact Hs |]. split; [exact He |]. split; [exact Hv |].
  vm_compute. reflexivity.
Defined.

(** X15 on the batch of the fixture: two candidates, two fetches of a
    ManifestWork in their order, and one update, for the candidate whose
    migration succeeds. *)
Lemma migrateClusters_one_get_each_witness :
  migrateClusters (L := Reference.lib) Scenario.opts [Fixture.missing; Scenario.info]
    Fixture.batch = Some Sample.migrated
  /\ (exists gets calls,
        w_serviceGet Fixture.batch = gets ++ w_serviceGet (snd Sample.migrated)
        /\ length gets = 2
        /\ w_trace (snd Sample.migrated) = w_trace Fixture.batch ++ calls
        /\ List.filter isServiceGet calls
           = [EServiceGet "test-mgmt-cluster" "cluster4";
              EServiceGet "test-mgmt-cluster" "cluster3"]
        /\ length (List.filter (fun r => streq (mr_Status r) "success")
                     (fst Sample.migrated))
           <= length (List.filter isServiceUpdate calls)
           <= 2)
  /\ length (List.filter isServiceUpdate (w_trace (snd Sample.migrated))) = 1.
Proof.
  assert (Hrun : migrateClusters (L := Reference.lib) Scenario.opts
                   [Fixture.missing; Scenario.info] Fixture.batch
                 = Some (fst Sample.migrated, snd Sample.migrated)).
  { rewrite <- surjective_pairing. apply ran. vm_compute. exact I. }
  split; [rewrite Hrun, <- surjective_pairing; reflexivity |].
  split; [exact (migrateClusters_one_get_each (L := Reference.lib) _ _ _ _ _ Hrun) |].
  vm_compute. reflexivity.
Defined.

(** ** The summary and the run of the migrate command *)

Lemma displayResults_loop (results : list migrationResult) :
  forall migrated failed,
    fold_left
      (fun (acc : list migrationResult * list migrationResult) r =>
         let '(migrated, failed) := acc in
         if streq (mr_Status r) "success" then (migrated ++ [r], failed)
         else if streq (mr_Status r) "failed" then (migrated, failed ++ [r])
         else (migrated, failed))
      results (migrated, failed)
    = (migrated ++ List.filter (fun r => streq (mr_Status r) "success") results,
       failed ++ List.filter (fun r => streq (mr_Status r) "failed") results).
Proof.
  induction results as [| r results IH]; intros migrated failed.
  - simpl. rewrite !app_nil_r. reflexivity.
  - simpl fold_left. simpl List.filter.
    destruct (streq (mr_Status r) "success") eqn:Hs.
    + apply streq_true in Hs. rewrite IH, Hs, <- app_assoc. reflexivity.
    + destruct (streq (mr_Status r) "failed"); rewrite IH, <- ?app_assoc; reflexivity.
Qed.

Lemma partition_lengths (results : list migrationResult) :
  Forall (fun r => mr_Status r = "success" \/ mr_Status r = "failed") results ->
  length (List.filter (fun r => streq (mr_Status r) "success") results)
  + length (List.filter (fun r => streq (mr_Status r) "failed") results)
  = length results.
Proof.
  induction 1 as [| r results [Hs | Hs] _ IH]; [reflexivity | |];
    simpl; rewrite Hs; simpl; lia.
Qed.

(** X16. The summary splits the results into the successes and the
    failures, each in the order of the results, and drops a result with any
    other status. On the results of a batch nothing is dropped: the two
    counts it prints add up to the number of candidates. *)
Theorem displayResults_partition :
  forall (results : list migrationResult),
    displayResults results
    = (List.filter (fun r => streq (mr_Status r) "success") results,
       List.filter (fun r => streq (mr_Status r) "failed") results)
    /\ (forall (L : GoLib) (m : migrateOpts) (cs : list hostedClusterAuditInfo)
               (w w' : World),
          migrateClusters m cs w = Some (results, w') ->
          length (fst (displayResults results)) + length (snd (displayResults results))
          = length cs).
Proof.
  intros results.
  assert (Heq : displayResults results
                = (List.filter (fun r => streq (mr_Status r) "success") results,
                   List.filter (fun r => streq (mr_Status r) "failed") results)).
  { unfold displayResults. rewrite displayResults_loop. reflexivity. }
  split; [exact Heq |].
  intros L m cs w w' Hrun. rewrite Heq. simpl.
  destruct (migrateClusters_calls m cs w w' results Hrun) as (Hlen & Hst & _).
  rewrite (partition_lengths results Hst). exact Hlen.
Qed.

Section RunFacts.
Context {L : GoLib} {S : GoSort}.

(** X17. The migrate command changes nothing and calls neither cluster
    again after the scan when the scan fails, when it finds no candidate,
    when the run is a dry run, or when the operator declines the prompt. It
    shows the prompt only when there are candidates and neither the dry run
    nor the skipping of the confirmation was asked for; a dry run
    never prompts, whatever the other flag says. Only a run that is not a
    dry run, and is confirmed or skips the confirmation, migrates, and it
    migrates the candidates in the order the display left them. *)
Theorem migrateOpts_run_gates :
  forall (m : migrateOpts) (flags : migrateFlags) (mgmtClusterID : string)
         (mgmtClient : Client) (confirmed : bool) (w : World),
    (forall err,
        getCandidatesForMigration mgmtClusterID mgmtClient = inl err ->
        migrateOpts_run m flags mgmtClusterID mgmtClient confirmed w
        = Some ({| ro_error := Some ("failed to get migration candidates: " +:+ err);
                   ro_prompted := false; ro_results := None |}, w))
    /\ (forall candidates,
          getCandidatesForMigration mgmtClusterID mgmtClient = inr candidates ->
          (candidates = [] ->
           migrateOpts_run m flags mgmtClusterID mgmtClient confirmed w
           = Some ({| ro_error := None; ro_prompted := false; ro_results := None |}, w))
          /\ (candidates <> [] -> dryRun flags = true ->
              migrateOpts_run m flags mgmtClusterID mgmtClient confirmed w
              = Some ({| ro_error := None; ro_prompted := false; ro_results := None |}, w))
          /\ (candidates <> [] -> dryRun flags = false ->
              skipConfirmation flags = false -> confirmed = false ->
              migrateOpts_run m flags mgmtClusterID mgmtClient confirmed w
              = Some ({| ro_error := Some "migration cancelled by user";
                         ro_prompted := true; ro_results := None |}, w))
          /\ (candidates <> [] -> dryRun flags = false ->
              skipConfirmation flags = true \/ confirmed = true ->
              migrateOpts_run m flags mgmtClusterID mgmtClient confirmed w
              = match migrateClusters m (displayCandidates candidates) w with
                | Some (results, w') =>
                    Some ({| ro_error := None;
                             ro_prompted := negb (skipConfirmation flags);
                             ro_results := Some results |}, w')
                | None => None
                end)).
Proof.
  intros m flags mgmtClusterID mgmtClient confirmed w. unfold migrateOpts_run.
  split.
  - intros err ->. reflexivity.
  - intros candidates ->. split; [intros ->; reflexivity |].
    assert (Hlen : candidates <> [] -> (length candidates =? 0)%nat = false).
    { intros Hne. destruct candidates; [contradiction | reflexivity]. }
    split; [| split].
    + intros Hne Hdry. rewrite (Hlen Hne), Hdry. rewrite andb_false_r. reflexivity.
    + intros Hne Hdry Hskip ->. rewrite (Hlen Hne), Hdry, Hskip. reflexivity.
    + intros Hne Hdry Hgo. rewrite (Hlen Hne), Hdry.
      assert (Hp : negb (skipConfirmation flags) && negb false && negb confirmed = false).
      { destruct Hgo as [-> | ->]; [reflexivity |]. apply andb_false_r. }
      rewrite Hp. unfold bind, ret.
      destruct (migrateClusters m (displayCandidates candidates) w) as [[results w'] |];
        [| reflexivity].
      rewrite andb_true_r. reflexivity.
Qed.

Lemma Sorted_map {A B : Type} (R : B -> B -> Prop) (f : A -> B) (l : list A) :
  Sorted (fun x y => R (f x) (f y)) l -> Sorted R (map f l).
Proof.
  induction 1 as [| x l _ IH Hhd]; simpl; constructor; [exact IH |].
  destruct Hhd; simpl; constructor. assumption.
Qed.

(** The results of a batch carry the cluster IDs of its candidates. *)
Lemma migrateClusters_ids (m : migrateOpts) (cs : list hostedClusterAuditInfo) :
  forall (w w' : World) (rs : list migrationResult),
    migrateClusters m cs w = Some (rs, w') ->
    map mr_ClusterID rs = map ai_ClusterID cs.
Proof.
  induction cs as [| c cs IH]; intros w w' rs.
  - intros [= <- <-]. reflexivity.
  - rewrite migrateClusters_cons.
    destruct (migrateCluster m c w) as [[r w1] |] eqn:Hone; [| discriminate].
    destruct (migrateClusters m cs w1) as [[rs' w2] |] eqn:Hrest; [| discriminate].
    intros [= <- <-]. simpl.
    destruct (migrateCluster_result _ _ _ _ _ Hone) as (-> & _).
    rewrite (IH _ _ _ Hrest). reflexivity.
Qed.

(** X18. Because the display sorts the caller's slice in place, the
    migration runs in the order of the cluster IDs and not in the order the
    scan found the candidates: when [sort.Slice] sorts, the results of a run
    that migrates list every candidate the scan returned exactly once, and
    no result has a cluster ID less than the one before it. *)
Theorem migrateOpts_run_sorted :
  forall (m : migrateOpts) (flags : migrateFlags) (mgmtClusterID : string)
         (mgmtClient : Client) (confirmed : bool) (w w' : World) (out : runOutcome)
         (results : list migrationResult),
    sortsByClusterID S ->
    migrateOpts_run m flags mgmtClusterID mgmtClient confirmed w = Some (out, w') ->
    ro_results out = Some results ->
    exists candidates,
      getCandidatesForMigration mgmtClusterID mgmtClient = inr candidates
      /\ map mr_ClusterID results ≡ₚ map ai_ClusterID candidates
      /\ Sorted (fun x y => String.ltb y x = false) (map mr_ClusterID results)
      /\ ro_error out = None.
Proof.
  intros m flags mgmtClusterID mgmtClient confirmed w w' out results Hsort.
  unfold migrateOpts_run.
  destruct (getCandidatesForMigration mgmtClusterID mgmtClient) as [err | candidates];
    [intros [= <- <-]; discriminate |].
  destruct (length candidates =? 0)%nat; [intros [= <- <-]; discriminate |].
  destruct (negb (skipConfirmation flags) && negb (dryRun flags) && negb confirmed);
    [intros [= <- <-]; discriminate |].
  destruct (dryRun flags); [intros [= <- <-]; discriminate |].
  unfold bind, ret.
  destruct (migrateClusters m (displayCandidates candidates) w) as [[rs w1] |] eqn:Hrun;
    [| discriminate].
  intros [= <- <-] [= <-]. exists candidates. split; [reflexivity |].
  rewrite (migrateClusters_ids _ _ _ _ _ Hrun). unfold displayCandidates.
  destruct (Hsort candidates) as [Hperm Hsorted].
  split; [apply Permutation_map; exact Hperm |].
  split; [| reflexivity].
  apply Sorted_map with (R := fun x y => String.ltb y x = false) (f := ai_ClusterID).
  exact Hsorted.
Qed.

End RunFacts.

(** The reference sort sorts. *)
Lemma ReferenceSort_sorts : sortsByClusterID ReferenceSort.sort.
Proof.
  intros l. simpl. split; [apply merge_sort_Permutation |].
  apply Sorted_merge_sort.
  intros x y. unfold lessByClusterID, String.ltb.
  rewrite (String.compare_antisym (ai_ClusterID x) (ai_ClusterID y)).
  destruct (String.compare (ai_ClusterID y) (ai_ClusterID x)); simpl; auto.
Qed.

(** X18 on a scan that finds [cluster5] before [cluster3]: the migration
    handles [cluster3] first. *)
Lemma migrateOpts_run_sorted_witness :
  getCandidatesForMigration "test-cluster" Sample.shuffled
    = inr Sample.shuffledCandidates
  /\ map ai_ClusterID Sample.shuffledCandidates = ["cluster5"; "cluster3"]
  /\ map mr_ClusterID <$> ro_results (fst Sample.unattendedRun)
     = Some ["cluster3"; "cluster5"]
  /\ exists candidates,
       getCandidatesForMigration "test-cluster" Sample.shuffled = inr candidates
       /\ map mr_ClusterID (default [] (ro_results (fst Sample.unattendedRun)))
          ≡ₚ map ai_ClusterID candidates
       /\ Sorted (fun x y => String.ltb y x = false)
            (map mr_ClusterID (default [] (ro_results (fst Sample.unattendedRun))))
       /\ ro_error (fst Sample.unattendedRun) = None.
Proof.
  split; [apply returned; vm_compute; exact I |].
  split; [vm_compute; reflexivity |]. split; [vm_compute; reflexivity |].
  apply (migrateOpts_run_sorted (L := Reference.lib) (S := ReferenceSort.sort)
           Scenario.opts Sample.unattended "test-cluster" Sample.shuffled false
           Sample.unreachable (snd Sample.unattendedRun)).
  - exact ReferenceSort_sorts.
  - rewrite <- surjective_pairing. apply ran. vm_compute. exact I.
  - apply ran. vm_compute. exact I.
Defined.

(** ** The patch and the classifier agree *)

Lemma annotationsIn_addAnnotations (manifestData : gmap string json) :
  annotationsIn (addAnnotations manifestData) = patchedAnnotations manifestData.
Proof.
  rewrite addAnnotations_unfold. unfold annotationsIn at 1, metadataOf at 1.
  rewrite objectAt_insert. simpl. rewrite objectAt_insert. reflexivity.
Qed.

(** X19. The annotations that the patch writes are the ones that the
    verifier and the classifier look for: a record that carries the string
    annotations of a patched manifest has the required annotations, so the
    verifier accepts it, and an audit never classifies it as ready for
    migration again; without the override it is already configured. *)
Theorem patched_record_is_configured :
  forall (manifestData : gmap string json) (hc : HostedCluster),
    (forall k v,
        annotationsIn (addAnnotations manifestData) !! k = Some (JString v) ->
        annotationsOf hc !! k = Some v) ->
    hasRequiredAnnotations hc = true
    /\ (categorizeCluster hc = "ready-for-migration" -> False)
    /\ (annotationsOf hc !! annOverride = None ->
        categorizeCluster hc = "already-configured").
Proof.
  intros manifestData hc Hcarried.
  rewrite annotationsIn_addAnnotations in Hcarried. unfold patchedAnnotations in Hcarried.
  assert (Ht : annotationsOf hc !! annTopology = Some valTopology).
  { apply Hcarried. rewrite lookup_insert_ne by (symmetry; exact annotation_keys_differ).
    apply lookup_insert_eq. }
  assert (Ha : annotationsOf hc !! annAutoScaling = Some valAutoScaling).
  { apply Hcarried. apply lookup_insert_eq. }
  split; [apply hasRequiredAnnotations_lookup; split; assumption |].
  rewrite categorizeCluster_cases.
  destruct (annotationsOf hc !! annOverride); [split; [discriminate | discriminate] |].
  rewrite bool_decide_eq_true_2 by (split; assumption).
  split; [discriminate | reflexivity].
Qed.

Lemma patched_record_is_configured_witness :
  hasRequiredAnnotations Scenario.hcSynced = true
  /\ (categorizeCluster Scenario.hcSynced = "ready-for-migration" -> False)
  /\ (annotationsOf Scenario.hcSynced !! annOverride = None ->
      categorizeCluster Scenario.hcSynced = "already-configured").
Proof.
  apply (patched_record_is_configured Fixture.hostedClusterData).
  intros k v. rewrite annotationsIn_addAnnotations. unfold patchedAnnotations.
  destruct (decide (k = annAutoScaling)) as [-> | Hk1].
  { rewrite lookup_insert_eq. intros [= <-]. vm_compute. reflexivity. }
  rewrite lookup_insert_ne by congruence.
  destruct (decide (k = annTopology)) as [-> | Hk2].
  { rewrite lookup_insert_eq. intros [= <-]. vm_compute. reflexivity. }
  rewrite lookup_insert_ne by congruence.
  assert (He : annotationsIn Fixture.hostedClusterData
               = {[ annTopology := JString "old-value" ]}).
  { unfold annotationsIn, metadataOf, objectAt, Fixture.hostedClusterData.
    rewrite !lookup_insert_ne by discriminate. rewrite lookup_singleton_eq. simpl.
    rewrite lookup_insert_ne by discriminate. rewrite lookup_singleton_eq. reflexivity. }
  rewrite He, lookup_singleton_ne by congruence. discriminate.
Defined.

(** X20. The patch touches nothing but the two annotations: every other
    top-level field of the document, every other field of its metadata and
    every other annotation is as before, and the two annotations have the
    required values whatever was there. Metadata or annotations that are
    missing, or are not objects, are replaced by fresh objects. *)
Theorem addAnnotations_preserves :
  forall (manifestData : gmap string json),
    (forall k, k <> "metadata" -> addAnnotations manifestData !! k = manifestData !! k)
    /\ (forall k, k <> "annotations" ->
          metadataOf (addAnnotations manifestData) !! k = metadataOf manifestData !! k)
    /\ (forall k, k <> annTopology -> k <> annAutoScaling ->
          annotationsIn (addAnnotations manifestData) !! k
          = annotationsIn manifestData !! k)
    /\ annotationsIn (addAnnotations manifestData) !! annTopology
       = Some (JString valTopology)
    /\ annotationsIn (addAnnotations manifestData) !! annAutoScaling
       = Some (JString valAutoScaling)
    /\ (objectAt manifestData "metadata" = None ->
        metadataOf (addAnnotations manifestData)
        = {[ "annotations" := JObject {[ annAutoScaling := JString valAutoScaling;
                                         annTopology := JString valTopology ]} ]}).
Proof.
  intros manifestData. rewrite annotationsIn_addAnnotations.
  split; [| split; [| split; [| split; [| split]]]].
  - intros k Hk. rewrite addAnnotations_unfold. apply lookup_insert_ne. congruence.
  - intros k Hk. rewrite addAnnotations_unfold. unfold metadataOf at 1.
    rewrite objectAt_insert. simpl. apply lookup_insert_ne. congruence.
  - intros k Ht Ha. unfold patchedAnnotations.
    rewrite !lookup_insert_ne by congruence. reflexivity.
  - unfold patchedAnnotations.
    rewrite lookup_insert_ne by (symmetry; exact annotation_keys_differ).
    apply lookup_insert_eq.
  - unfold patchedAnnotations. apply lookup_insert_eq.
  - intros Hnone. rewrite addAnnotations_unfold. unfold metadataOf at 1.
    rewrite objectAt_insert. simpl.
    unfold patchedAnnotations, annotationsIn, metadataOf. rewrite Hnone. simpl.
    unfold objectAt. rewrite lookup_empty. simpl.
    rewrite <- !insert_empty. reflexivity.
Qed.
